(** * aws-syndicate: the resource reconcilers and removers

    A shallow embedding of
      - [syndicate/core/resources/lambda_resource.py]
      - [syndicate/core/resources/kinesis_resource.py]

    Python values are the inductive [pyval]; dictionaries are stdpp
    finite maps keyed by strings.  A function that talks to the provider is
    a computation [M A]: it takes the provider's state, and gives back an
    outcome (a returned value or a raised exception), the provider's new
    state and the events it issued (facade calls and log records), in the
    order of issue. *)

From Stdlib Require Import ZArith Ascii String List Bool Lia.
From stdpp Require Import base option list strings gmap fin_maps.

Local Open Scope string_scope.
Local Open Scope Z_scope.

Set Warnings "-register-all".

(** ** Python values *)

Inductive pyval : Type :=
| PNone
| PBool (b : bool)
| PInt (z : Z)
| PStr (s : string)
| PList (l : list pyval)
| PDict (d : gmap string pyval).

(** A dictionary with string keys, as [meta], [trigger_meta], [config] and
    the provider's responses are. *)
Abbreviation pydict := (gmap string pyval).

(** Truth value of a value under [if v:] and [not v]. *)
Definition py_truthy (v : pyval) : bool :=
  match v with
  | PNone => false
  | PBool b => b
  | PInt z => negb (z =? 0)
  | PStr s => negb (String.eqb s "")
  | PList l => match l with [] => false | _ :: _ => true end
  | PDict d => match map_to_list d with [] => false | _ :: _ => true end
  end.

(** [d.get(k)]: the value at [k], [None] when the key is missing. *)
Definition py_get (d : pydict) (k : string) : pyval :=
  match d !! k with
  | Some v => v
  | None => PNone
  end.

(** [v == 'literal'] for a string literal. *)
Definition py_eq_str (v : pyval) (s : string) : bool :=
  match v with
  | PStr t => String.eqb t s
  | _ => false
  end.

(** ** Strings: [str.lower] and [str.split('/')[-1]] *)

(** [s.lower()] on the ASCII letters; any other character stays. *)
Definition lower_ascii (c : ascii) : ascii :=
  let n := nat_of_ascii c in
  if (Nat.leb 65 n && Nat.leb n 90)%bool then ascii_of_nat (n + 32) else c.

Fixpoint lower (s : string) : string :=
  match s with
  | EmptyString => EmptyString
  | String c r => String (lower_ascii c) (lower r)
  end.

(** The pieces of [s.split('/')], in order; never empty. *)
Fixpoint split_slash (s : string) : list string :=
  match s with
  | EmptyString => [EmptyString]
  | String c r =>
      if Ascii.eqb c "/"%char then EmptyString :: split_slash r
      else match split_slash r with
           | [] => [String c EmptyString]
           | p :: ps => String c p :: ps
           end
  end.

(** [s.split('/')[-1]]. *)
Definition last_segment (s : string) : string :=
  List.last (split_slash s) EmptyString.

(** [glue.join(pieces)] for [glue = "/"]. *)
Fixpoint join_slash (pieces : list string) : string :=
  match pieces with
  | [] => EmptyString
  | [p] => p
  | p :: ps => p +:+ String "/"%char (join_slash ps)
  end.

(** [s.endswith(suffix)], as a proposition. *)
Definition ends_with (s suffix : string) : Prop :=
  exists prefix, s = prefix +:+ suffix.

(** ** Exceptions and outcomes

    A [ClientError] carries [e.response['Error']['Code']] and the message. *)

Inductive exn : Type :=
| KeyError (key : pyval)
| TypeError
| AttributeError
| AssertionError (msg : string) (args : list pyval)
| ValidationError (resource : string) (missing : string)
| ClientError (code : string) (message : string).

Inductive outcome (A : Type) : Type :=
| Returned (a : A)
| Raised (e : exn).
Arguments Returned {A} a.
Arguments Raised {A} e.

(** ** The provider client facade

    One constructor per facade operation the two modules use, with the
    arguments the code passes.  [Time_sleep] is [time.sleep]. *)

Record create_lambda_args : Type := CreateLambdaArgs {
  lambda_name : string;
  func_name : pyval;
  role : pyval;
  runtime : pyval;
  memory : pyval;
  timeout : pyval;
  s3_bucket : string;
  s3_key : pyval;
  env_vars : pyval;
  vpc_sub_nets : pyval;
  vpc_security_group : pyval;
  dl_target_arn : pyval;
  tracing_mode : pyval
}.

Inductive call : Type :=
| S3_is_file_exists (bucket : string) (key : pyval)
| S3_is_bucket_exists (bucket : pyval)
| S3_configure_event_source_for_lambda (bucket : pyval) (lambda : string) (s3_events : pyval)
| Lambda_get_function (name : string)
| Lambda_create_lambda (args : create_lambda_args)
| Lambda_get_unresolved_concurrent_executions
| Lambda_put_function_concurrency (function_name : string) (concurrent_executions : pyval)
| Lambda_add_event_source (lambda : string) (source_arn : pyval) (batch_size : pyval)
    (start_position : option pyval)
| Lambda_add_invocation_permission (lambda : string) (principal : string) (source_arn : pyval)
| Lambda_delete_lambda (lambda : pyval)
| Lambda_remove_trigger (lambda : pyval)
| Iam_check_if_role_exists (role_name : pyval)
| Iam_attach_inline_policy (role_name : pyval) (policy_name : string) (policy_document : pyval)
| Dynamodb_is_stream_enabled (table : pyval)
| Dynamodb_enable_table_stream (table : pyval)
| Dynamodb_get_table_stream_arn (table : pyval)
| Sqs_get_queue_url (queue : pyval) (account_id : string)
| CwEvents_get_rule_arn (rule : pyval)
| CwEvents_add_rule_target (rule : pyval) (lambda_arn : pyval)
| CwLogs_get_log_group_names
| CwLogs_delete_log_group_name (group : pyval)
| Kinesis_get_stream (name : pyval)
| Kinesis_create_stream (stream_name : string) (shard_count : pyval)
| Kinesis_remove_stream (stream_name : pyval)
| Sns_create_sns_subscription_for_lambda (lambda_arn : pyval) (topic : pyval) (region : pyval)
| Time_sleep (seconds : Z).

Inductive level : Type := DEBUG | INFO | WARN | ERROR.

(** What a run leaves behind, in order: facade calls and log records (the
    format string and its arguments, as passed to the logger). *)
Inductive event : Type :=
| ECall (c : call)
| ELog (lvl : level) (fmt : string) (args : list pyval).

Definition is_call (ev : event) : bool :=
  match ev with ECall _ => true | ELog _ _ _ => false end.

(** The facade calls of a run, log records dropped. *)
Definition calls_of (evs : list event) : list call :=
  omap (fun ev => match ev with ECall c => Some c | ELog _ _ _ => None end) evs.

Definition is_create_lambda (c : call) : bool :=
  match c with Lambda_create_lambda _ => true | _ => false end.

Definition is_create_stream (c : call) : bool :=
  match c with Kinesis_create_stream _ _ => true | _ => false end.

Definition is_get_stream (c : call) : bool :=
  match c with Kinesis_get_stream _ => true | _ => false end.

Definition is_add_event_source (c : call) : bool :=
  match c with Lambda_add_event_source _ _ _ _ => true | _ => false end.

(** The calls that change something on the provider's side. *)
Definition is_mutation (c : call) : bool :=
  match c with
  | S3_configure_event_source_for_lambda _ _ _
  | Lambda_create_lambda _
  | Lambda_put_function_concurrency _ _
  | Lambda_add_event_source _ _ _ _
  | Lambda_add_invocation_permission _ _ _
  | Lambda_delete_lambda _
  | Lambda_remove_trigger _
  | Iam_attach_inline_policy _ _ _
  | Dynamodb_enable_table_stream _
  | CwEvents_add_rule_target _ _
  | CwLogs_delete_log_group_name _
  | Kinesis_create_stream _ _
  | Kinesis_remove_stream _
  | Sns_create_sns_subscription_for_lambda _ _ _ => true
  | _ => false
  end.

(** ** Computations against a provider *)

Record result (P A : Type) : Type := Result {
  out : outcome A;
  st : P;
  evs : list event
}.
Arguments Result {P A} out st evs.
Arguments out {P A} r.
Arguments st {P A} r.
Arguments evs {P A} r.

Definition M (P A : Type) : Type := P -> result P A.

Definition ret {P A} (a : A) : M P A := fun p => Result (Returned a) p [].

Definition raise {P A} (e : exn) : M P A := fun p => Result (Raised e) p [].

Definition bind {P A B} (m : M P A) (k : A -> M P B) : M P B :=
  fun p =>
    match m p with
    | Result (Returned a) p1 evs1 =>
        match k a p1 with
        | Result o p2 evs2 => Result o p2 (evs1 ++ evs2)
        end
    | Result (Raised e) p1 evs1 => Result (Raised e) p1 evs1
    end.

(** A pure step that may raise. *)
Definition lift {P A} (o : outcome A) : M P A := fun p => Result o p [].

Definition log {P} (lvl : level) (fmt : string) (args : list pyval) : M P unit :=
  fun p => Result (Returned tt) p [ELog lvl fmt args].

(** [try: body except ClientError as e: handler(e)]: other exceptions pass. *)
Definition try_except_ClientError {P A} (body : M P A)
    (handler : string -> string -> M P A) : M P A :=
  fun p =>
    match body p with
    | Result (Raised (ClientError code msg)) p1 evs1 =>
        match handler code msg p1 with
        | Result o p2 evs2 => Result o p2 (evs1 ++ evs2)
        end
    | r => r
    end.

Declare Scope py_scope.
Delimit Scope py_scope with py.
Notation "x <- m ;; k" := (bind m (fun x => k))
  (at level 100, m at next level, k at level 200, right associativity) : py_scope.
Notation "m ;; k" := (bind m (fun _ => k))
  (at level 100, k at level 200, right associativity) : py_scope.

Local Open Scope list_scope.
Local Open Scope py_scope.

(** ** Plain Python steps that may raise *)

(** [v[k]] for a string key [k]: only a dictionary can be indexed so. *)
Definition py_getitem (v : pyval) (k : string) : outcome pyval :=
  match v with
  | PDict d =>
      match d !! k with
      | Some x => Returned x
      | None => Raised (KeyError (PStr k))
      end
  | _ => Raised TypeError
  end.

(** [d[k]] where [d] is known to be a dictionary. *)
Definition dict_getitem (d : pydict) (k : string) : outcome pyval :=
  py_getitem (PDict d) k.

(** [v.lower()]. *)
Definition py_lower (v : pyval) : outcome pyval :=
  match v with
  | PStr s => Returned (PStr (lower s))
  | _ => Raised AttributeError
  end.

(** [a <= b] on numbers ([bool] is a subclass of [int]). *)
Definition py_int (v : pyval) : option Z :=
  match v with
  | PInt z => Some z
  | PBool b => Some (if b then 1 else 0)
  | _ => None
  end.

Definition py_le (a b : pyval) : outcome bool :=
  match py_int a, py_int b with
  | Some x, Some y => Returned (x <=? y)
  | _, _ => Raised TypeError
  end.

(** [for each in v]: the elements a loop over [v] visits.  The keys of a
    dictionary come in the order of [map_to_list]. *)
Definition py_iter (v : pyval) : outcome (list pyval) :=
  match v with
  | PList l => Returned l
  | PStr s => Returned ((fun c => PStr (String c EmptyString)) <$> list_ascii_of_string s)
  | PDict d => Returned ((fun kv => PStr (fst kv)) <$> map_to_list d)
  | _ => Raised TypeError
  end.

(** [each.split('/')[-1]]. *)
Definition py_last_segment (v : pyval) : outcome string :=
  match v with
  | PStr s => Returned (last_segment s)
  | _ => Raised AttributeError
  end.

(** The test of line 304, [lambda_name == each.split('/')[-1]], on a group
    name that is a string. *)
Definition log_group_matches (lambda_name each : pyval) : bool :=
  match each with
  | PStr s => py_eq_str lambda_name (last_segment s)
  | _ => false
  end.

Definition is_str (v : pyval) : Prop := exists s, v = PStr s.

(** ** [syndicate.core.resources.helper] *)

(** The persisted record of one created resource. *)
Record description_obj : Type := DescriptionObj {
  resource_name : string;
  resource_meta : pydict;
  description : pyval
}.

(** Modelled from the spec: [build_description_obj] of
    [syndicate.core.resources.helper] is not among the sources.  The spec's
    data model gives the description object as the snapshot
    [{ resource_name, resource_meta, provider_response_subset }]. *)
Definition build_description_obj (response : pyval) (name : string) (meta : pydict)
    : description_obj :=
  DescriptionObj name meta response.

(** Modelled from the spec: [validate_params] of
    [syndicate.core.resources.helper] is not among the sources.  The spec
    has it check that the required fields are present in [meta] and fail
    with a [ValidationError] on a missing one, before any provider call. *)
Definition validate_params (name : string) (meta : pydict) (required_params : list string)
    : outcome unit :=
  match List.find (fun k => negb (bool_decide (is_Some (meta !! k)))) required_params with
  | Some k => Raised (ValidationError name k)
  | None => Returned tt
  end.

(** The one-entry mapping [{key: obj}] a reconciler returns; a list or a
    dictionary cannot be a key. *)
Definition deployment : Type := list (pyval * description_obj).

Definition py_hashable (key : pyval) : bool :=
  match key with
  | PList _ | PDict _ => false
  | _ => true
  end.

Definition singleton_dict (key : pyval) (obj : description_obj) : outcome deployment :=
  if py_hashable key then Returned [(key, obj)] else Raised TypeError.

(** [req_params] of [_create_lambda_from_meta] (lambda_resource.py, line 54). *)
Definition lambda_req_params : list string :=
  ["iam_role_name"; "runtime"; "memory"; "timeout"; "func_name"].

(** [describe_lambda] (lambda_resource.py, lines 44-49). *)
Definition describe_lambda (name : string) (meta : pydict) (response : pyval)
    : outcome deployment :=
  match response with
  | PDict r =>
      match r !! "Configuration" with
      | Some (PDict cfg) =>
          match cfg !! "FunctionArn" with
          | Some arn =>
              let response' := PDict (<["Configuration" := PDict (delete "FunctionArn" cfg)]> r) in
              singleton_dict arn (build_description_obj response' name meta)
          | None => Raised (KeyError (PStr "FunctionArn"))
          end
      | Some _ => Raised TypeError
      | None => Raised (KeyError (PStr "Configuration"))
      end
  | _ => Raised TypeError
  end.

(** The binders the dispatch table names. *)
Inductive trigger_binder : Type :=
| create_dynamodb_trigger
| create_cloud_watch_trigger
| create_s3_trigger
| create_sns_topic_trigger
| create_kinesis_stream_trigger
| create_sqs_trigger.

(** [CREATE_TRIGGER] (lambda_resource.py, lines 281-288). *)
Definition CREATE_TRIGGER : gmap string trigger_binder :=
  list_to_map
    [ ("dynamodb_trigger", create_dynamodb_trigger);
      ("cloudwatch_rule_trigger", create_cloud_watch_trigger);
      ("s3_trigger", create_s3_trigger);
      ("sns_topic_trigger", create_sns_topic_trigger);
      ("kinesis_trigger", create_kinesis_stream_trigger);
      ("sqs_trigger", create_sqs_trigger) ].


(** [CREATE_TRIGGER[trigger_type]]. *)
Definition CREATE_TRIGGER_getitem (trigger_type : pyval) : outcome trigger_binder :=
  match trigger_type with
  | PStr tag =>
      match CREATE_TRIGGER !! tag with
      | Some b => Returned b
      | None => Raised (KeyError trigger_type)
      end
  | PList _ | PDict _ => Raised TypeError
  | _ => Raised (KeyError trigger_type)
  end.

(** * The two resource modules *)

Section Resources.

(** The provider: its state and how it answers a facade call. *)
Context {P : Type}.
Variable handle : call -> P -> outcome pyval * P.

(** [CONFIG] of [syndicate.core] and [S3_PATH_NAME] of
    [syndicate.core.build.meta_processor] are not among the sources: the
    values the code reads from them are parameters. *)
Variable CONFIG_deploy_target_bucket : string.
Variable CONFIG_region : string.
Variable CONFIG_account_id : string.
Variable S3_PATH_NAME : string.

(** How [str.format] renders a value in a [{n}] field. *)
Variable format_value : pyval -> string.

(** The decorator [retry] of [syndicate.connection.helper], not among the
    sources. *)
Variable retry : forall A : Type, M P A -> M P A.

(** A facade call: the provider answers it and the call is recorded. *)
Definition invoke (c : call) : M P pyval :=
  fun p => let '(o, p') := handle c p in Result o p' [ECall c].

(** ** kinesis_resource.py *)

(** [_remove_kinesis_stream] (lines 35-45). *)
Definition _remove_kinesis_stream (arn : pyval) (config : pydict) : M P unit :=
  stream_name <- lift (dict_getitem config "resource_name");;
  try_except_ClientError
    (invoke (Kinesis_remove_stream stream_name);;
     log INFO "Kinesis stream %s was removed." [stream_name])
    (fun code msg =>
       if String.eqb code "ResourceNotFoundException"
       then log WARN "Kinesis stream %s is not found" [stream_name]
       else raise (ClientError code msg)).

(** [_create_kinesis_stream_from_meta] (lines 48-68). *)
Definition _create_kinesis_stream_from_meta (name : string) (meta : pydict)
    : M P deployment :=
  let create : M P deployment :=
    shard_count <- lift (dict_getitem meta "shard_count");;
    invoke (Kinesis_create_stream name shard_count);;
    log INFO "Created kinesis stream %s." [PStr name];;
    response <- invoke (Kinesis_get_stream (PStr name));;
    arn <- lift (py_getitem response "StreamARN");;
    lift (singleton_dict arn (build_description_obj response name meta)) in
  response <- invoke (Kinesis_get_stream (PStr name));;
  if py_truthy response then
    sd <- lift (py_getitem response "StreamDescription");;
    stream_status <- lift (py_getitem sd "StreamStatus");;
    if py_eq_str stream_status "DELETING" then
      log DEBUG "Waiting for deletion kinesis stream %s..." [PStr name];;
      invoke (Time_sleep 120);;
      create
    else
      log WARN "%s kinesis stream exists" [PStr name];;
      arn <- lift (py_getitem response "StreamARN");;
      lift (singleton_dict arn (build_description_obj response name meta))
  else create.

(** ** lambda_resource.py: the trigger binders *)

(** [_create_dynamodb_trigger_from_meta] (lines 126-143). *)
Definition _create_dynamodb_trigger_from_meta (lambda_name : string)
    (lambda_arn role_name : pyval) (trigger_meta : pydict) : M P unit :=
  retry _
    (lift (validate_params lambda_name trigger_meta ["target_table"; "batch_size"]);;
     table_name <- lift (dict_getitem trigger_meta "target_table");;
     enabled <- invoke (Dynamodb_is_stream_enabled table_name);;
     (if negb (py_truthy enabled)
      then invoke (Dynamodb_enable_table_stream table_name);; ret tt
      else ret tt);;
     stream <- invoke (Dynamodb_get_table_stream_arn table_name);;
     batch_size <- lift (dict_getitem trigger_meta "batch_size");;
     invoke (Lambda_add_event_source lambda_name stream batch_size (Some (PStr "LATEST")));;
     log INFO "Lambda %s subscribed to dynamodb table %s" [PStr lambda_name; table_name]).

(** [_create_sqs_trigger_from_meta] (lines 146-164). *)
Definition _create_sqs_trigger_from_meta (lambda_name : string)
    (lambda_arn role_name : pyval) (trigger_meta : pydict) : M P unit :=
  retry _
    (lift (validate_params lambda_name trigger_meta ["target_queue"; "batch_size"]);;
     target_queue <- lift (dict_getitem trigger_meta "target_queue");;
     url <- invoke (Sqs_get_queue_url target_queue CONFIG_account_id);;
     if negb (py_truthy url) then
       log DEBUG "Queue %s does not exist" [target_queue]
     else
       let queue_arn :=
         "arn:aws:sqs:" +:+ CONFIG_region +:+ ":" +:+ CONFIG_account_id +:+ ":"
           +:+ format_value target_queue in
       batch_size <- lift (dict_getitem trigger_meta "batch_size");;
       invoke (Lambda_add_event_source lambda_name (PStr queue_arn) batch_size None);;
       log INFO "Lambda %s subscribed to SQS queue %s" [PStr lambda_name; target_queue]).

(** [_create_cloud_watch_trigger_from_meta] (lines 167-179). *)
Definition _create_cloud_watch_trigger_from_meta (lambda_name : string)
    (lambda_arn role_name : pyval) (trigger_meta : pydict) : M P unit :=
  retry _
    (lift (validate_params lambda_name trigger_meta ["target_rule"]);;
     rule_name <- lift (dict_getitem trigger_meta "target_rule");;
     rule_arn <- invoke (CwEvents_get_rule_arn rule_name);;
     invoke (CwEvents_add_rule_target rule_name lambda_arn);;
     invoke (Lambda_add_invocation_permission lambda_name "events.amazonaws.com" rule_arn);;
     log INFO "Lambda %s subscribed to cloudwatch rule %s" [PStr lambda_name; rule_name]).

(** [_create_s3_trigger_from_meta] (lines 182-201). *)
Definition _create_s3_trigger_from_meta (lambda_name : string)
    (lambda_arn role_name : pyval) (trigger_meta : pydict) : M P unit :=
  retry _
    (lift (validate_params lambda_name trigger_meta ["target_bucket"; "s3_events"]);;
     target_bucket <- lift (dict_getitem trigger_meta "target_bucket");;
     found <- invoke (S3_is_bucket_exists target_bucket);;
     if negb (py_truthy found) then
       log ERROR
         ("S3 bucket " +:+ format_value target_bucket +:+ " event source for lambda "
            +:+ lambda_name +:+ " was not created.") []
     else
       invoke (Lambda_add_invocation_permission lambda_name "s3.amazonaws.com"
                 (PStr ("arn:aws:s3:::" +:+ format_value target_bucket)));;
       s3_events <- lift (dict_getitem trigger_meta "s3_events");;
       invoke (S3_configure_event_source_for_lambda target_bucket lambda_name s3_events);;
       log INFO "Lambda %s subscribed to S3 bucket %s" [PStr lambda_name; target_bucket]).

(** [_create_sns_topic_trigger_from_meta] (lines 204-214). *)
Definition _create_sns_topic_trigger_from_meta (lambda_name : string)
    (lambda_arn role_name : pyval) (trigger_meta : pydict) : M P unit :=
  retry _
    (lift (validate_params lambda_name trigger_meta ["target_topic"]);;
     topic_name <- lift (dict_getitem trigger_meta "target_topic");;
     let region := py_get trigger_meta "region" in
     invoke (Sns_create_sns_subscription_for_lambda lambda_arn topic_name region);;
     target_topic <- lift (dict_getitem trigger_meta "target_topic");;
     log INFO "Lambda %s subscribed to sns topic %s" [PStr lambda_name; target_topic]).

(** [_add_kinesis_event_source] (lines 274-278). *)
Definition _add_kinesis_event_source (lambda_name : string) (stream_arn : pyval)
    (trigger_meta : pydict) : M P unit :=
  retry _
    (batch_size <- lift (dict_getitem trigger_meta "batch_size");;
     starting_position <- lift (dict_getitem trigger_meta "starting_position");;
     invoke (Lambda_add_event_source lambda_name stream_arn batch_size
               (Some starting_position));;
     ret tt).

(** The policy document of lines 236-260. *)
Definition kinesis_policy_document (lambda_arn stream_arn : pyval) : pyval :=
  PDict (list_to_map
    [ ("Statement",
        PList
          [ PDict (list_to_map
              [ ("Effect", PStr "Allow");
                ("Action", PList [PStr "lambda:InvokeFunction"]);
                ("Resource", PList [lambda_arn]) ]);
            PDict (list_to_map
              [ ("Action",
                  PList [ PStr "kinesis:DescribeStreams";
                          PStr "kinesis:DescribeStream";
                          PStr "kinesis:ListStreams";
                          PStr "kinesis:GetShardIterator";
                          PStr "Kinesis:GetRecords" ]);
                ("Effect", PStr "Allow");
                ("Resource", stream_arn) ]) ]);
      ("Version", PStr "2012-10-17") ]).

(** [_create_kinesis_stream_trigger_from_meta] (lines 217-271). *)
Definition _create_kinesis_stream_trigger_from_meta (lambda_name : string)
    (lambda_arn role_name : pyval) (trigger_meta : pydict) : M P unit :=
  retry _
    (lift (validate_params lambda_name trigger_meta
             ["target_stream"; "batch_size"; "starting_position"]);;
     stream_name <- lift (dict_getitem trigger_meta "target_stream");;
     stream <- invoke (Kinesis_get_stream stream_name);;
     sd <- lift (py_getitem stream "StreamDescription");;
     stream_arn <- lift (py_getitem sd "StreamARN");;
     sd' <- lift (py_getitem stream "StreamDescription");;
     stream_status <- lift (py_getitem sd' "StreamStatus");;
     (if negb (py_eq_str stream_status "ACTIVE") then
        log DEBUG "Kinesis stream %s is not in active state, waiting for activation..."
          [stream_name];;
        invoke (Time_sleep 120);; ret tt
      else ret tt);;
     let policy_name :=
       format_value stream_name +:+ "KinesisTo" +:+ lambda_name +:+ "Lambda" in
     invoke (Iam_attach_inline_policy role_name policy_name
               (kinesis_policy_document lambda_arn stream_arn));;
     log DEBUG "Inline policy %s is attached to role %s" [PStr policy_name; role_name];;
     log DEBUG "Waiting for activation policy %s..." [PStr policy_name];;
     invoke (Time_sleep 10);;
     _add_kinesis_event_source lambda_name stream_arn trigger_meta;;
     log INFO "Lambda %s subscribed to kinesis stream %s" [PStr lambda_name; stream_name]).

(** The function a name of the dispatch table stands for. *)
Definition run_binder (b : trigger_binder)
    : string -> pyval -> pyval -> pydict -> M P unit :=
  match b with
  | create_dynamodb_trigger => _create_dynamodb_trigger_from_meta
  | create_cloud_watch_trigger => _create_cloud_watch_trigger_from_meta
  | create_s3_trigger => _create_s3_trigger_from_meta
  | create_sns_topic_trigger => _create_sns_topic_trigger_from_meta
  | create_kinesis_stream_trigger => _create_kinesis_stream_trigger_from_meta
  | create_sqs_trigger => _create_sqs_trigger_from_meta
  end.

(** ** lambda_resource.py: the reconciler *)

(** The body of the loop of lines 118-121: look the binder up by the
    spec's [resource_type] and call it with the spec. *)
Definition bind_trigger (name : string) (lambda_arn role_name : pyval)
    (trigger_meta : pyval) : M P unit :=
  match trigger_meta with
  | PDict d =>
      trigger_type <- lift (dict_getitem d "resource_type");;
      func <- lift (CREATE_TRIGGER_getitem trigger_type);;
      run_binder func name lambda_arn role_name d
  | _ => raise TypeError
  end.

(** [for trigger_meta in meta.get('event_sources'): ...]. *)
Fixpoint wire_triggers (name : string) (lambda_arn role_name : pyval)
    (specs : list pyval) : M P unit :=
  match specs with
  | [] => ret tt
  | trigger_meta :: rest =>
      bind_trigger name lambda_arn role_name trigger_meta;;
      wire_triggers name lambda_arn role_name rest
  end.

(** Lines 74-82: the dead-letter target handed to the create call. *)
Definition dead_letter_target (meta : pydict) : outcome pyval :=
  let dl_type := py_get meta "dl_resource_type" in
  match (if py_truthy dl_type then py_lower dl_type else Returned dl_type) with
  | Raised e => Raised e
  | Returned dl_type =>
      let dl_name := py_get meta "dl_resource_name" in
      if (py_truthy dl_type && py_truthy dl_name)%bool then
        Returned (PStr ("arn:aws:" +:+ format_value dl_type +:+ ":" +:+ CONFIG_region
                          +:+ ":" +:+ CONFIG_account_id +:+ ":" +:+ format_value dl_name))
      else Returned PNone
  end.

(** Lines 103-115: the concurrency override. *)
Definition set_concurrency (name : string) (meta : pydict) : M P unit :=
  let con_exec := py_get meta "concurrent_executions" in
  if py_truthy con_exec then
    log DEBUG "Going to set up concurrency executions" [];;
    unresolved_exec <- invoke Lambda_get_unresolved_concurrent_executions;;
    fits <- lift (py_le con_exec unresolved_exec);;
    if fits : bool then
      invoke (Lambda_put_function_concurrency name con_exec);;
      log DEBUG "Concurrency is enabled for %s lambda" [PStr name]
    else
      log WARN
        "Account does not have any unresolved executions. Current size - %s"
        [unresolved_exec]
  else ret tt.

(** Lines 117-121: the triggers of [meta], one after the other. *)
Definition wire_event_sources (name : string) (meta : pydict)
    (lambda_arn role_name : pyval) : M P unit :=
  if py_truthy (py_get meta "event_sources") then
    specs <- lift (py_iter (py_get meta "event_sources"));;
    wire_triggers name lambda_arn role_name specs
  else ret tt.

(** The keyword arguments of the create call (lines 84-98). *)
Definition create_args (name : string) (meta : pydict)
    (func_name role_arn runtime memory timeout key dl_target_arn : pyval)
    : create_lambda_args :=
  {| lambda_name := name;
     func_name := func_name;
     role := role_arn;
     runtime := runtime;
     memory := memory;
     timeout := timeout;
     s3_bucket := CONFIG_deploy_target_bucket;
     s3_key := key;
     env_vars := py_get meta "env_variables";
     vpc_sub_nets := py_get meta "subnet_ids";
     vpc_security_group := py_get meta "security_group_ids";
     dl_target_arn := dl_target_arn;
     tracing_mode := py_get meta "tracing_mode" |}.

(** Lines 99-123: what follows the create call. *)
Definition after_create (name : string) (meta : pydict) (role_name : pyval)
    : M P deployment :=
  invoke (Time_sleep 10);;
  response <- invoke (Lambda_get_function name);;
  configuration <- lift (py_getitem response "Configuration");;
  lambda_arn <- lift (py_getitem configuration "FunctionArn");;
  set_concurrency name meta;;
  wire_event_sources name meta lambda_arn role_name;;
  log INFO "Created lambda %s." [PStr name];;
  lift (describe_lambda name meta response).

(** [_create_lambda_from_meta] (lines 52-123). *)
Definition _create_lambda_from_meta (name : string) (meta : pydict) : M P deployment :=
  let req_params := lambda_req_params in
  lift (validate_params name meta req_params);;
  key <- lift (dict_getitem meta S3_PATH_NAME);;
  found <- invoke (S3_is_file_exists CONFIG_deploy_target_bucket key);;
  if negb (py_truthy found) then
    raise (AssertionError "Deployment package %s does not exist in %s bucket"
             [key; PStr CONFIG_deploy_target_bucket])
  else
    response <- invoke (Lambda_get_function name);;
    if py_truthy response then
      log WARN "%s lambda exists." [PStr name];;
      lift (describe_lambda name meta response)
    else
      role_name <- lift (dict_getitem meta "iam_role_name");;
      role_arn <- invoke (Iam_check_if_role_exists role_name);;
      if negb (py_truthy role_arn) then
        raise (AssertionError ("Role " +:+ format_value role_name +:+ " does not exist.") [])
      else
        dl_target_arn <- lift (dead_letter_target meta);;
        func_name <- lift (dict_getitem meta "func_name");;
        runtime <- lift (dict_getitem meta "runtime");;
        runtime <- lift (py_lower runtime);;
        memory <- lift (dict_getitem meta "memory");;
        timeout <- lift (dict_getitem meta "timeout");;
        invoke (Lambda_create_lambda
                  (create_args name meta func_name role_arn runtime memory timeout
                     key dl_target_arn));;
        after_create name meta role_name.

(** ** lambda_resource.py: the remover *)

(** The loop of lines 303-305. *)
Fixpoint delete_log_groups (lambda_name : pyval) (group_names : list pyval) : M P unit :=
  match group_names with
  | [] => ret tt
  | each :: rest =>
      segment <- lift (py_last_segment each);;
      (if py_eq_str lambda_name segment
       then invoke (CwLogs_delete_log_group_name each);; ret tt
       else ret tt);;
      delete_log_groups lambda_name rest
  end.

(** The [try] block of [_remove_lambda] (lines 300-306). *)
Definition _remove_lambda_try (lambda_name : pyval) : M P unit :=
  invoke (Lambda_delete_lambda lambda_name);;
  invoke (Lambda_remove_trigger lambda_name);;
  group_names <- invoke CwLogs_get_log_group_names;;
  group_names <- lift (py_iter group_names);;
  delete_log_groups lambda_name group_names;;
  log INFO "Lambda %s was removed." [lambda_name].

(** The body of [_remove_lambda] (lines 298-311), under the decorator. *)
Definition _remove_lambda_body (arn : pyval) (config : pydict) : M P unit :=
  lambda_name <- lift (dict_getitem config "resource_name");;
  try_except_ClientError
    (_remove_lambda_try lambda_name)
    (fun code msg =>
       if String.eqb code "ResourceNotFoundException"
       then log WARN "Lambda %s is not found" [lambda_name]
       else raise (ClientError code msg)).

(** [_remove_lambda] (lines 295-311). *)
Definition _remove_lambda (arn : pyval) (config : pydict) : M P unit :=
  retry _ (_remove_lambda_body arn config).

(** ** Names for what the properties speak of *)

(** The log-group delete calls of the loop of lines 303-305 succeed: one
    call for each matching name of the listing, in order, each at the
    state the one before it left, and each returns. *)
Fixpoint deletions_return (lambda_name : pyval) (group_names : list pyval) (p : P)
    : Prop :=
  match group_names with
  | [] => True
  | each :: rest =>
      if log_group_matches lambda_name each then
        exists v q,
          handle (CwLogs_delete_log_group_name each) p = (Returned v, q) /\
          deletions_return lambda_name rest q
      else deletions_return lambda_name rest p
  end.

(** The calls that take something away at the provider.  The reconcilers
    issue none of them. *)
Definition is_removal (c : call) : bool :=
  match c with
  | Lambda_delete_lambda _
  | Lambda_remove_trigger _
  | CwLogs_delete_log_group_name _
  | Kinesis_remove_stream _ => true
  | _ => false
  end.

(** What a look at the provider would show: the artifact [key] in the
    deployment bucket; the function [name] under the identifier [arn];
    the stream [name] under the identifier [arn], in a status other than
    DELETING. *)
Definition artifact_there (key : pyval) (q : P) : Prop :=
  exists found q',
    handle (S3_is_file_exists CONFIG_deploy_target_bucket key) q = (Returned found, q') /\
    py_truthy found = true.

Definition function_there (name : string) (arn : pyval) (q : P) : Prop :=
  exists (r cfg : pydict) q',
    handle (Lambda_get_function name) q = (Returned (PDict r), q') /\
    r !! "Configuration" = Some (PDict cfg) /\
    cfg !! "FunctionArn" = Some arn.

Definition stream_there (name arn : pyval) (q : P) : Prop :=
  exists (r sd : pydict) status q',
    handle (Kinesis_get_stream name) q = (Returned (PDict r), q') /\
    r !! "StreamDescription" = Some (PDict sd) /\
    sd !! "StreamStatus" = Some status /\
    py_eq_str status "DELETING" = false /\
    r !! "StreamARN" = Some arn.

(** A fact about the provider that no call but a removal makes false. *)
Definition stays (seen : P -> Prop) : Prop :=
  forall c q, is_removal c = false -> seen q -> seen (snd (handle c q)).

(** A computation that leaves such a fact true. *)
Definition keeps {A : Type} (seen : P -> Prop) (m : M P A) : Prop :=
  forall q, seen q -> seen (st (m q)).

(** Two runs in sequence with nobody else at work on the account: what
    is there is reported, and stays there until a call removes it; a
    stream whose create call returned is there. *)
Definition nobody_else_acts : Prop :=
  (forall key, stays (artifact_there key)) /\
  (forall name arn, stays (function_there name arn)) /\
  (forall name arn, stays (stream_there name arn)) /\
  (forall name shard_count q v q',
     handle (Kinesis_create_stream name shard_count) q = (Returned v, q') ->
     exists arn, stream_there (PStr name) arn q').

(** The decorator does nothing at the provider but run the function,
    with calls that remove nothing in between if any. *)
Definition retry_reruns : Prop :=
  forall (A : Type) (f : M P A) (seen : P -> Prop),
    stays seen -> keeps seen f -> keeps seen (retry A f).

(** The identifier of the queue, lines 157-159. *)
Definition queue_arn (target_queue : pyval) : string :=
  "arn:aws:sqs:" +:+ CONFIG_region +:+ ":" +:+ CONFIG_account_id +:+ ":"
    +:+ format_value target_queue.

(** The interpolation of line 79 for a type [t] and a name [n]. *)
Definition dl_arn (t : string) (n : pyval) : string :=
  "arn:aws:" +:+ t +:+ ":" +:+ CONFIG_region +:+ ":" +:+ CONFIG_account_id +:+ ":"
    +:+ format_value n.

(** The run reaches the wiring of the triggers: the artifact is there, the
    function is not, the role is, the create call returns, the function
    is then reported with the identifier [lambda_arn], and no concurrency
    override is configured.  [issued] are the events up to that point and
    [p6] is the provider's state there. *)
Definition reaches_wiring (name : string) (meta : pydict) (p p6 : P)
    (role_name lambda_arn response : pyval) (issued : list event) : Prop :=
  exists (p1 p2 p3 p4 p5 : P) (key found absent role_arn dl fn mem tmo v1 v2 : pyval)
         (rt : string) (r cfg : pydict),
    validate_params name meta lambda_req_params = Returned tt /\
    meta !! S3_PATH_NAME = Some key /\
    handle (S3_is_file_exists CONFIG_deploy_target_bucket key) p = (Returned found, p1) /\
    py_truthy found = true /\
    handle (Lambda_get_function name) p1 = (Returned absent, p2) /\
    py_truthy absent = false /\
    meta !! "iam_role_name" = Some role_name /\
    handle (Iam_check_if_role_exists role_name) p2 = (Returned role_arn, p3) /\
    py_truthy role_arn = true /\
    dead_letter_target meta = Returned dl /\
    meta !! "func_name" = Some fn /\
    meta !! "runtime" = Some (PStr rt) /\
    meta !! "memory" = Some mem /\
    meta !! "timeout" = Some tmo /\
    handle (Lambda_create_lambda
              (create_args name meta fn role_arn (PStr (lower rt)) mem tmo key dl)) p3
      = (Returned v1, p4) /\
    handle (Time_sleep 10) p4 = (Returned v2, p5) /\
    handle (Lambda_get_function name) p5 = (Returned response, p6) /\
    response = PDict r /\
    r !! "Configuration" = Some (PDict cfg) /\
    cfg !! "FunctionArn" = Some lambda_arn /\
    py_truthy (py_get meta "concurrent_executions") = false /\
    issued =
      [ECall (S3_is_file_exists CONFIG_deploy_target_bucket key);
       ECall (Lambda_get_function name);
       ECall (Iam_check_if_role_exists role_name);
       ECall (Lambda_create_lambda
                (create_args name meta fn role_arn (PStr (lower rt)) mem tmo key dl));
       ECall (Time_sleep 10);
       ECall (Lambda_get_function name)].

(** * Properties *)

(** ** Validation *)

Lemma validate_params_missing (name : string) (meta : pydict) (req : list string) :
  (exists k, In k req /\ meta !! k = None) ->
  exists k, In k req /\ meta !! k = None /\
            validate_params name meta req = Raised (ValidationError name k).
Proof.
  intros [k [Hin Hk]]. unfold validate_params.
  destruct (List.find _ req) as [k'|] eqn:Hf.
  - apply List.find_some in Hf as [Hin' Hb].
    exists k'. split; [done|]. split; [|done].
    apply negb_true_iff, bool_decide_eq_false in Hb.
    destruct (meta !! k') eqn:E; [|done]. exfalso. apply Hb. by eexists.
  - exfalso. pose proof (List.find_none _ _ Hf k Hin) as Hb. simpl in Hb.
    apply negb_false_iff, bool_decide_eq_true in Hb. rewrite Hk in Hb.
    by destruct Hb.
Qed.

Lemma validate_params_present (name : string) (meta : pydict) (req : list string) :
  (forall k, In k req -> is_Some (meta !! k)) ->
  validate_params name meta req = Returned tt.
Proof.
  intros Hall. unfold validate_params.
  destruct (List.find _ req) as [k'|] eqn:Hf; [|done].
  apply List.find_some in Hf as [Hin' Hb].
  apply negb_true_iff, bool_decide_eq_false in Hb. destruct Hb. by apply Hall.
Qed.

Lemma validate_params_returned (name : string) (meta : pydict) (req : list string) :
  validate_params name meta req = Returned tt ->
  forall k, In k req -> is_Some (meta !! k).
Proof.
  unfold validate_params. intros Hv k Hin.
  destruct (List.find _ req) as [k'|] eqn:Hf; [done|].
  pose proof (List.find_none _ _ Hf k Hin) as Hb. simpl in Hb.
  by apply negb_false_iff, bool_decide_eq_true in Hb.
Qed.

(** C2. Validation-first: when [meta] lacks one of the five required
    fields, [_create_lambda_from_meta] raises a [ValidationError] naming a
    missing field, and the run has issued nothing at all before it: no
    facade call, hence no create, no trigger wiring, no permission
    grant; the provider is left as it was. *)
Theorem C2_validation_first (name : string) (meta : pydict) (p : P) :
  (exists k, In k lambda_req_params /\ meta !! k = None) ->
  exists k,
    In k lambda_req_params /\ meta !! k = None /\
    out (_create_lambda_from_meta name meta p) = Raised (ValidationError name k) /\
    evs (_create_lambda_from_meta name meta p) = [] /\
    st (_create_lambda_from_meta name meta p) = p /\
    Forall (fun c => is_mutation c = false)
      (calls_of (evs (_create_lambda_from_meta name meta p))).
Proof.
  intros Hmiss.
  destruct (validate_params_missing name meta lambda_req_params Hmiss)
    as (k & Hin & Hk & Hv).
  exists k. unfold _create_lambda_from_meta, bind, lift.
  rewrite Hv. simpl. repeat split; auto.
Qed.

(** C9. A descriptor that carries the five validated fields but not the
    artifact-path key fails with a [KeyError] on that key, which is no
    [ValidationError], and the run has issued no facade call. *)
Theorem C9_missing_artifact_key (name : string) (meta : pydict) (p : P) :
  (forall k, In k lambda_req_params -> is_Some (meta !! k)) ->
  meta !! S3_PATH_NAME = None ->
  out (_create_lambda_from_meta name meta p) = Raised (KeyError (PStr S3_PATH_NAME)) /\
  (forall r k, out (_create_lambda_from_meta name meta p) <> Raised (ValidationError r k)) /\
  evs (_create_lambda_from_meta name meta p) = [] /\
  st (_create_lambda_from_meta name meta p) = p.
Proof.
  intros Hall Hkey.
  pose proof (validate_params_present name meta lambda_req_params Hall) as Hv.
  unfold _create_lambda_from_meta, bind, lift, dict_getitem, py_getitem.
  rewrite Hv. simpl. rewrite Hkey. simpl.
  repeat split; auto; intros r k; discriminate.
Qed.

(** ** Running a computation step by step *)

Lemma invoke_eq (c : call) (p p' : P) (o : outcome pyval) :
  handle c p = (o, p') -> invoke c p = Result o p' [ECall c].
Proof. intros H. unfold invoke. by rewrite H. Qed.

Ltac run_unfold :=
  unfold bind, invoke, lift, log, ret, raise, try_except_ClientError,
    dict_getitem, py_getitem, singleton_dict in *.

Ltac run_step :=
  match goal with
  | H : handle ?c ?p = _ |- context [handle ?c ?p] => rewrite H
  | H : ?d !! ?k = _ |- context [?d !! ?k] => rewrite H
  | H : py_truthy ?v = _ |- context [py_truthy ?v] => rewrite H
  | H : py_eq_str ?v ?s = _ |- context [py_eq_str ?v ?s] => rewrite H
  end.

Ltac run_simpl := cbv beta iota zeta; cbn [out st evs negb app].

Ltac run := run_unfold; repeat (run_simpl; run_step); run_simpl.

(** What is left of a run once the part of interest is through. *)
Ltac run_rest :=
  repeat (run_simpl;
          match goal with
          | |- context [handle ?c ?p] => destruct (handle c p) as [[?|?] ?]
          | |- context [match ?x with _ => _ end] => is_var x; destruct x
          | |- context [@lookup _ _ _ _ ?k ?d] => destruct (d !! k)
          | |- context [py_hashable ?v] => destruct (py_hashable v)
          end);
  run_simpl.

(** ** The stream reconciler *)

(** A stream that is found and is not being deleted is left alone: the
    description of what is there comes back, keyed by its identifier,
    and the run is the lookup and a warning, nothing else. *)
Lemma kinesis_existing_short_circuits (name : string) (meta : pydict) (p p1 : P)
    (r sd : pydict) (status arn : pyval) :
  handle (Kinesis_get_stream (PStr name)) p = (Returned (PDict r), p1) ->
  py_truthy (PDict r) = true ->
  r !! "StreamDescription" = Some (PDict sd) ->
  sd !! "StreamStatus" = Some status ->
  py_eq_str status "DELETING" = false ->
  r !! "StreamARN" = Some arn ->
  py_hashable arn = true ->
  _create_kinesis_stream_from_meta name meta p
    = Result (Returned [(arn, build_description_obj (PDict r) name meta)]) p1
        [ECall (Kinesis_get_stream (PStr name));
         ELog WARN "%s kinesis stream exists" [PStr name]].
Proof.
  intros Hget Ht Hsd Hst Hdel Harn Hkey.
  unfold _create_kinesis_stream_from_meta. run. by rewrite Hkey.
Qed.

(** A stream that is found in the state DELETING: the run waits 120
    seconds once and then issues the create call at once. *)
Lemma kinesis_deleting_waits_then_creates (name : string) (meta : pydict)
    (p p1 p2 p3 : P) (r sd : pydict) (status shard_count slept : pyval)
    (created : outcome pyval) :
  handle (Kinesis_get_stream (PStr name)) p = (Returned (PDict r), p1) ->
  py_truthy (PDict r) = true ->
  r !! "StreamDescription" = Some (PDict sd) ->
  sd !! "StreamStatus" = Some status ->
  py_eq_str status "DELETING" = true ->
  handle (Time_sleep 120) p1 = (Returned slept, p2) ->
  meta !! "shard_count" = Some shard_count ->
  handle (Kinesis_create_stream name shard_count) p2 = (created, p3) ->
  exists rest,
    evs (_create_kinesis_stream_from_meta name meta p)
      = [ECall (Kinesis_get_stream (PStr name));
         ELog DEBUG "Waiting for deletion kinesis stream %s..." [PStr name];
         ECall (Time_sleep 120);
         ECall (Kinesis_create_stream name shard_count)] ++ rest.
Proof.
  intros Hget Ht Hsd Hst Hdel Hsleep Hsc Hcreate.
  unfold _create_kinesis_stream_from_meta. run.
  destruct created; run_rest; eexists; reflexivity.
Qed.

(** ** What is taken for granted about [retry]

    The decorator calls the function; when the call returns, that is
    the result, with nothing added.  When the call raises an exception
    the decorator does not retry on ([retried] says which it does), the
    exception reaches the caller. *)
Variable retried : exn -> bool.
Hypothesis retry_returned :
  forall (A : Type) (f : M P A) (p : P) (a : A),
    out (f p) = Returned a -> retry A f p = f p.
Hypothesis retry_raised :
  forall (A : Type) (f : M P A) (p : P) (e : exn),
    out (f p) = Raised e -> retried e = false -> out (retry A f p) = Raised e.

(** ** The removers *)



(** The [except] clause of [_remove_lambda] on what its [try] block
    raised: not-found is swallowed with a warning... *)
Lemma remove_lambda_body_not_found (arn : pyval) (config : pydict) (p : P)
    (lambda_name : pyval) (msg : string) :
  config !! "resource_name" = Some lambda_name ->
  out (_remove_lambda_try lambda_name p)
    = Raised (ClientError "ResourceNotFoundException" msg) ->
  _remove_lambda_body arn config p
    = Result (Returned tt) (st (_remove_lambda_try lambda_name p))
        (evs (_remove_lambda_try lambda_name p)
           ++ [ELog WARN "Lambda %s is not found" [lambda_name]]).
Proof.
  intros Hn Hraised.
  unfold _remove_lambda_body, bind, lift, dict_getitem, py_getitem,
    try_except_ClientError, log.
  rewrite Hn. run_simpl.
  destruct (_remove_lambda_try lambda_name p) as [o q ev].
  cbn in Hraised. subst o. reflexivity.
Qed.


(** When the delete call itself raises, the [try] block ends there. *)
Lemma remove_lambda_try_delete_raises (lambda_name : pyval) (p p1 : P) (e : exn) :
  handle (Lambda_delete_lambda lambda_name) p = (Raised e, p1) ->
  _remove_lambda_try lambda_name p
    = Result (Raised e) p1 [ECall (Lambda_delete_lambda lambda_name)].
Proof. intros Hd. unfold _remove_lambda_try. run. reflexivity. Qed.


(** C10. When the delete-function call itself raises the not-found
    error, that call is the only facade call of the removal: the
    trigger bindings are not removed, the log groups are neither listed
    nor deleted. *)
Theorem C10_cleanup_skipped_when_gone (arn : pyval) (config : pydict) (p p1 : P)
    (lambda_name : pyval) (msg : string) :
  config !! "resource_name" = Some lambda_name ->
  handle (Lambda_delete_lambda lambda_name) p
    = (Raised (ClientError "ResourceNotFoundException" msg), p1) ->
  out (_remove_lambda arn config p) = Returned tt /\
  st (_remove_lambda arn config p) = p1 /\
  calls_of (evs (_remove_lambda arn config p)) = [Lambda_delete_lambda lambda_name] /\
  (forall c, In c (calls_of (evs (_remove_lambda arn config p))) ->
     c <> Lambda_remove_trigger lambda_name /\
     c <> CwLogs_get_log_group_names /\
     (forall g, c <> CwLogs_delete_log_group_name g)).
Proof.
  intros Hn Hd.
  pose proof (remove_lambda_try_delete_raises _ _ _ _ Hd) as Htry.
  assert (Hb : _remove_lambda_body arn config p
               = Result (Returned tt) p1
                   [ECall (Lambda_delete_lambda lambda_name);
                    ELog WARN "Lambda %s is not found" [lambda_name]]).
  { rewrite (remove_lambda_body_not_found arn config p lambda_name msg Hn);
      by rewrite Htry. }
  unfold _remove_lambda. rewrite (retry_returned _ _ p tt); [|by rewrite Hb].
  rewrite Hb. cbn. split; [done|]. split; [done|]. split; [done|].
  intros c [<-|[]]. repeat split; try discriminate.
Qed.

(** ** Log groups *)

Lemma split_slash_nonempty (s : string) : split_slash s <> [].
Proof.
  destruct s as [|c r]; [done|]. cbn.
  destruct (Ascii.eqb c "/"); [done|]. by destruct (split_slash r).
Qed.

Lemma join_split_slash (s : string) : join_slash (split_slash s) = s.
Proof.
  induction s as [|c r IH]; [done|]. cbn [split_slash].
  pose proof (split_slash_nonempty r) as Hne.
  destruct (split_slash r) as [|q qs] eqn:Hs; [done|].
  destruct (Ascii.eqb c "/") eqn:Hc.
  - apply Ascii.eqb_eq in Hc as ->.
    change (join_slash (EmptyString :: q :: qs))
      with (EmptyString +:+ String "/"%char (join_slash (q :: qs))).
    by rewrite IH.
  - destruct qs as [|q' qs'].
    + cbn in *. by rewrite IH.
    + change (join_slash (String c q :: q' :: qs'))
        with (String c q +:+ String "/"%char (join_slash (q' :: qs'))).
      change (join_slash (q :: q' :: qs'))
        with (q +:+ String "/"%char (join_slash (q' :: qs'))) in IH.
      by rewrite <- IH.
Qed.

Lemma append_assoc (a b c : string) : (a +:+ b) +:+ c = a +:+ (b +:+ c).
Proof.
  induction a as [|x a IH]; [reflexivity|].
  change (String x ((a +:+ b) +:+ c) = String x (a +:+ (b +:+ c))).
  by rewrite IH.
Qed.

Lemma last_ends_join (pieces : list string) :
  pieces <> [] -> ends_with (join_slash pieces) (List.last pieces EmptyString).
Proof.
  induction pieces as [|q qs IH]; [done|]. intros _.
  destruct qs as [|q' qs'].
  - exists EmptyString. reflexivity.
  - destruct IH as [pre Hpre]; [done|].
    exists (q +:+ String "/"%char pre).
    change (join_slash (q :: q' :: qs')) with (q +:+ String "/"%char (join_slash (q' :: qs'))).
    change (List.last (q :: q' :: qs') EmptyString) with (List.last (q' :: qs') EmptyString).
    rewrite Hpre at 1. rewrite append_assoc. reflexivity.
Qed.

(** The last piece of a name is an end of the name. *)
Lemma last_segment_ends (s : string) : ends_with s (last_segment s).
Proof.
  unfold last_segment. rewrite <- (join_split_slash s) at 1.
  apply last_ends_join, split_slash_nonempty.
Qed.

Lemma py_eq_str_true (v : pyval) (s : string) : py_eq_str v s = true <-> v = PStr s.
Proof.
  destruct v; cbn; try (split; [discriminate | intros; discriminate]).
  rewrite String.eqb_eq. split; [by intros -> | by intros [= ->]].
Qed.

(** The loop over the group names, when the delete calls it issues
    return: one delete call per matching name, in the order of the list. *)
Lemma delete_log_groups_run (lambda_name : pyval) (group_names : list pyval) :
  Forall is_str group_names ->
  forall p,
    deletions_return lambda_name group_names p ->
    out (delete_log_groups lambda_name group_names p) = Returned tt /\
    evs (delete_log_groups lambda_name group_names p)
      = List.map (fun g => ECall (CwLogs_delete_log_group_name g))
          (List.filter (log_group_matches lambda_name) group_names).
Proof.
  intros Hstr. induction Hstr as [|each rest [s ->] _ IH]; intros p Hdel; [done|].
  cbn [delete_log_groups List.filter log_group_matches deletions_return] in *.
  unfold bind, lift, invoke, ret. cbn [py_last_segment]. run_simpl.
  destruct (py_eq_str lambda_name (last_segment s)) eqn:Hm.
  - destruct Hdel as (v & q & Hq & Hrest). rewrite Hq. run_simpl.
    destruct (IH q Hrest) as [Ho He].
    destruct (delete_log_groups lambda_name rest q) as [o2 q2 e2].
    cbn in *. by subst.
  - run_simpl. destruct (IH p Hdel) as [Ho He].
    destruct (delete_log_groups lambda_name rest p) as [o2 q2 e2].
    cbn in *. by subst.
Qed.

Lemma calls_of_app (a b : list event) : calls_of (a ++ b) = calls_of a ++ calls_of b.
Proof. unfold calls_of. apply omap_app. Qed.

Lemma calls_of_map_ECall {A} (f : A -> call) (l : list A) :
  calls_of (List.map (fun x => ECall (f x)) l) = List.map f l.
Proof. induction l as [|x l IH]; cbn; [done | by rewrite <- IH]. Qed.

(** The whole [try] block when every call returns. *)
Lemma remove_lambda_try_run (lambda_name : pyval) (p p1 p2 p3 : P) (v1 v2 : pyval)
    (group_names : list pyval) :
  handle (Lambda_delete_lambda lambda_name) p = (Returned v1, p1) ->
  handle (Lambda_remove_trigger lambda_name) p1 = (Returned v2, p2) ->
  handle CwLogs_get_log_group_names p2 = (Returned (PList group_names), p3) ->
  Forall is_str group_names ->
  deletions_return lambda_name group_names p3 ->
  out (_remove_lambda_try lambda_name p) = Returned tt /\
  evs (_remove_lambda_try lambda_name p)
    = [ECall (Lambda_delete_lambda lambda_name);
       ECall (Lambda_remove_trigger lambda_name);
       ECall CwLogs_get_log_group_names]
      ++ List.map (fun g => ECall (CwLogs_delete_log_group_name g))
           (List.filter (log_group_matches lambda_name) group_names)
      ++ [ELog INFO "Lambda %s was removed." [lambda_name]].
Proof.
  intros H1 H2 H3 Hstr Hdel.
  destruct (delete_log_groups_run lambda_name group_names Hstr p3 Hdel) as [Ho He].
  unfold _remove_lambda_try. run. cbn [py_iter]. run_simpl.
  destruct (delete_log_groups lambda_name group_names p3) as [o4 p4 e4].
  cbn in Ho, He. subst. split; reflexivity.
Qed.

(** C7 (as the code has it). When the delete call, the removal of the
    trigger bindings, the listing of the log groups and the log-group
    delete calls of the run return, function removal issues, after the
    removal of the trigger bindings, one delete call for each listed log
    group whose last piece between slashes is the function's name, in
    the order of the listing, and for no other group.  Every group it
    deletes has a name that ends in the function's name.  Nothing is
    asked of the provider for calls the run does not issue. *)
Theorem C7_log_groups_by_last_segment (arn : pyval) (config : pydict)
    (p p1 p2 p3 : P) (lambda_name v1 v2 : pyval) (group_names : list pyval) :
  config !! "resource_name" = Some lambda_name ->
  handle (Lambda_delete_lambda lambda_name) p = (Returned v1, p1) ->
  handle (Lambda_remove_trigger lambda_name) p1 = (Returned v2, p2) ->
  handle CwLogs_get_log_group_names p2 = (Returned (PList group_names), p3) ->
  Forall is_str group_names ->
  deletions_return lambda_name group_names p3 ->
  out (_remove_lambda arn config p) = Returned tt /\
  calls_of (evs (_remove_lambda arn config p))
    = [Lambda_delete_lambda lambda_name;
       Lambda_remove_trigger lambda_name;
       CwLogs_get_log_group_names]
      ++ List.map CwLogs_delete_log_group_name
           (List.filter (log_group_matches lambda_name) group_names) /\
  (forall s, In (PStr s) group_names ->
     (In (CwLogs_delete_log_group_name (PStr s))
         (calls_of (evs (_remove_lambda arn config p)))
      <-> lambda_name = PStr (last_segment s))) /\
  (forall g, In (CwLogs_delete_log_group_name g)
               (calls_of (evs (_remove_lambda arn config p))) ->
     exists s n, g = PStr s /\ lambda_name = PStr n /\ In g group_names /\ ends_with s n).
Proof.
  intros Hn H1 H2 H3 Hstr Hdel.
  destruct (remove_lambda_try_run lambda_name p p1 p2 p3 v1 v2 group_names
              H1 H2 H3 Hstr Hdel) as [Ho He].
  assert (Hb : _remove_lambda_body arn config p = _remove_lambda_try lambda_name p).
  { unfold _remove_lambda_body, bind, lift, dict_getitem, py_getitem.
    rewrite Hn. run_simpl.
    unfold try_except_ClientError.
    destruct (_remove_lambda_try lambda_name p) as [o q e].
    cbn in Ho. by subst. }
  unfold _remove_lambda.
  rewrite (retry_returned _ _ p tt); [|by rewrite Hb]. rewrite Hb.
  assert (Hcalls : calls_of (evs (_remove_lambda_try lambda_name p))
                   = [Lambda_delete_lambda lambda_name;
                      Lambda_remove_trigger lambda_name;
                      CwLogs_get_log_group_names]
                     ++ List.map CwLogs_delete_log_group_name
                          (List.filter (log_group_matches lambda_name) group_names)).
  { rewrite He. rewrite !calls_of_app, calls_of_map_ECall. cbn.
    by rewrite app_nil_r. }
  assert (Hin : forall g,
             In (CwLogs_delete_log_group_name g)
                (calls_of (evs (_remove_lambda_try lambda_name p)))
             <-> In g group_names /\ log_group_matches lambda_name g = true).
  { intros g. rewrite Hcalls. rewrite in_app_iff, in_map_iff. split.
    - intros [Hpre | (g' & [= ->] & Hf)].
      + cbn in Hpre. destruct Hpre as [?|[?|[?|[]]]]; discriminate.
      + by apply filter_In in Hf.
    - intros Hf. right. exists g. split; [done|]. by apply filter_In. }
  split; [done|]. split; [done|]. split.
  - intros s Hs. rewrite Hin. cbn [log_group_matches]. rewrite py_eq_str_true.
    tauto.
  - intros g Hg. apply Hin in Hg as [Hg Hm].
    destruct g; try discriminate. cbn [log_group_matches] in Hm.
    apply py_eq_str_true in Hm.
    exists s, (last_segment s). repeat split; auto. apply last_segment_ends.
Qed.

(** ** Reconciling what is already there *)

Lemma py_truthy_dict (d : pydict) (k : string) (v : pyval) :
  d !! k = Some v -> py_truthy (PDict d) = true.
Proof.
  intros Hk. cbn. destruct (map_to_list d) as [|kv l] eqn:Hl; [|done].
  apply map_to_list_empty_iff in Hl. subst d. by rewrite lookup_empty in Hk.
Qed.

(** C3 (as the code has it). A stream that is found in any status other
    than DELETING is never created over: the reconciler returns its
    description and issues no create call.  A stream that is found in the
    status DELETING is waited for once, 120 seconds, and the create call
    follows the wait directly: the status is not looked at again before
    it. *)
Theorem C3_stream_state_handling (name : string) (meta : pydict) (p p1 : P)
    (r sd : pydict) (status : pyval) :
  handle (Kinesis_get_stream (PStr name)) p = (Returned (PDict r), p1) ->
  r !! "StreamDescription" = Some (PDict sd) ->
  sd !! "StreamStatus" = Some status ->
  (py_eq_str status "DELETING" = false ->
   forall arn, r !! "StreamARN" = Some arn -> py_hashable arn = true ->
     _create_kinesis_stream_from_meta name meta p
       = Result (Returned [(arn, build_description_obj (PDict r) name meta)]) p1
           [ECall (Kinesis_get_stream (PStr name));
            ELog WARN "%s kinesis stream exists" [PStr name]] /\
     Forall (fun c => is_create_stream c = false)
       (calls_of (evs (_create_kinesis_stream_from_meta name meta p)))) /\
  (py_eq_str status "DELETING" = true ->
   forall p2 p3 slept shard_count created,
     handle (Time_sleep 120) p1 = (Returned slept, p2) ->
     meta !! "shard_count" = Some shard_count ->
     handle (Kinesis_create_stream name shard_count) p2 = (created, p3) ->
     exists rest,
       evs (_create_kinesis_stream_from_meta name meta p)
         = [ECall (Kinesis_get_stream (PStr name));
            ELog DEBUG "Waiting for deletion kinesis stream %s..." [PStr name];
            ECall (Time_sleep 120);
            ECall (Kinesis_create_stream name shard_count)] ++ rest).
Proof.
  intros Hget Hsd Hst.
  pose proof (py_truthy_dict r _ _ Hsd) as Ht. split.
  - intros Hdel arn Harn Hh.
    rewrite (kinesis_existing_short_circuits name meta p p1 r sd status arn); try done.
    split; [done|]. cbn. repeat constructor.
  - intros Hdel p2 p3 slept shard_count created Hsleep Hsc Hcreate.
    by apply (kinesis_deleting_waits_then_creates name meta p p1 p2 p3 r sd status
                shard_count slept created).
Qed.

(** A function that is found is described, not created. *)
Lemma lambda_existing_short_circuits (name : string) (meta : pydict) (p p1 p2 : P)
    (key found arn : pyval) (r cfg : pydict) :
  validate_params name meta lambda_req_params = Returned tt ->
  meta !! S3_PATH_NAME = Some key ->
  handle (S3_is_file_exists CONFIG_deploy_target_bucket key) p = (Returned found, p1) ->
  py_truthy found = true ->
  handle (Lambda_get_function name) p1 = (Returned (PDict r), p2) ->
  r !! "Configuration" = Some (PDict cfg) ->
  cfg !! "FunctionArn" = Some arn ->
  py_hashable arn = true ->
  _create_lambda_from_meta name meta p
    = Result
        (Returned
           [(arn,
             build_description_obj
               (PDict (<["Configuration" := PDict (delete "FunctionArn" cfg)]> r))
               name meta)])
        p2
        [ECall (S3_is_file_exists CONFIG_deploy_target_bucket key);
         ECall (Lambda_get_function name);
         ELog WARN "%s lambda exists." [PStr name]].
Proof.
  intros Hv Hkey Hfile Hfound Hget Hcfg Harn Hh.
  pose proof (py_truthy_dict r _ _ Hcfg) as Ht.
  unfold _create_lambda_from_meta. unfold bind at 1. unfold lift at 1.
  rewrite Hv. run_simpl. run.
  unfold describe_lambda, singleton_dict. rewrite Hcfg, Harn, Hh. reflexivity.
Qed.

(** A run that returns has passed validation. *)
Lemma create_lambda_returned_valid (name : string) (meta : pydict) (p : P)
    (d : deployment) :
  out (_create_lambda_from_meta name meta p) = Returned d ->
  validate_params name meta lambda_req_params = Returned tt.
Proof.
  unfold _create_lambda_from_meta. unfold bind at 1. unfold lift at 1.
  destruct (validate_params name meta lambda_req_params) as [[]|e]; [done|].
  run_simpl. discriminate.
Qed.

(** ** Two runs in sequence *)

Lemma keeps_ret {A} (seen : P -> Prop) (a : A) : keeps seen (ret a).
Proof. by intros q Hq. Qed.

Lemma keeps_raise {A} (seen : P -> Prop) (e : exn) : keeps seen (@raise P A e).
Proof. by intros q Hq. Qed.

Lemma keeps_lift {A} (seen : P -> Prop) (o : outcome A) : keeps seen (lift o).
Proof. by intros q Hq. Qed.

Lemma keeps_log (seen : P -> Prop) (lvl : level) (fmt : string) (args : list pyval) :
  keeps seen (log lvl fmt args).
Proof. by intros q Hq. Qed.

Lemma keeps_invoke (seen : P -> Prop) (c : call) :
  stays seen -> is_removal c = false -> keeps seen (invoke c).
Proof.
  intros Hstays Hc q Hq. specialize (Hstays c q Hc Hq). unfold invoke.
  by destruct (handle c q).
Qed.

Lemma keeps_bind {A B} (seen : P -> Prop) (m : M P A) (k : A -> M P B) :
  keeps seen m -> (forall a, keeps seen (k a)) -> keeps seen (bind m k).
Proof.
  intros Hm Hk q Hq. specialize (Hm q Hq). unfold bind.
  destruct (m q) as [[a|e] q1 ev1]; [|done].
  specialize (Hk a q1 Hm). by destruct (k a q1).
Qed.

(** A computation built from calls that remove nothing. *)
Ltac keeps_steps :=
  repeat first
    [ apply keeps_ret | apply keeps_raise | apply keeps_lift | apply keeps_log
    | apply keeps_invoke; [assumption | reflexivity]
    | apply keeps_bind; [|intros ?]
    | match goal with
      | |- keeps _ (if ?b then _ else _) => destruct b
      | |- keeps _ (let _ := _ in _) => cbv zeta
      end ].

Lemma keeps_binder (seen : P -> Prop) (b : trigger_binder) (name : string)
    (lambda_arn role_name : pyval) (d : pydict) :
  stays seen -> retry_reruns ->
  keeps seen (run_binder b name lambda_arn role_name d).
Proof.
  intros Hstays Hretry.
  destruct b; cbn [run_binder];
    unfold _create_dynamodb_trigger_from_meta, _create_cloud_watch_trigger_from_meta,
      _create_s3_trigger_from_meta, _create_sns_topic_trigger_from_meta,
      _create_kinesis_stream_trigger_from_meta, _create_sqs_trigger_from_meta;
    (apply Hretry; [assumption|]); keeps_steps.
  unfold _add_kinesis_event_source. apply Hretry; [assumption|]. keeps_steps.
Qed.

Lemma keeps_wire_triggers (seen : P -> Prop) (name : string)
    (lambda_arn role_name : pyval) (specs : list pyval) :
  stays seen -> retry_reruns ->
  keeps seen (wire_triggers name lambda_arn role_name specs).
Proof.
  intros Hstays Hretry. induction specs as [|spec specs IH]; cbn [wire_triggers].
  - apply keeps_ret.
  - apply keeps_bind; [|by intros _].
    unfold bind_trigger. destruct spec; try apply keeps_raise.
    keeps_steps. by apply keeps_binder.
Qed.

Lemma keeps_wire_event_sources (seen : P -> Prop) (name : string) (meta : pydict)
    (lambda_arn role_name : pyval) :
  stays seen -> retry_reruns ->
  keeps seen (wire_event_sources name meta lambda_arn role_name).
Proof.
  intros Hstays Hretry. unfold wire_event_sources. keeps_steps.
  by apply keeps_wire_triggers.
Qed.

Lemma keeps_set_concurrency (seen : P -> Prop) (name : string) (meta : pydict) :
  stays seen -> keeps seen (set_concurrency name meta).
Proof. intros Hstays. unfold set_concurrency. keeps_steps. Qed.

(** A call that removes nothing, seen from the state before it to the
    state after it. *)
Lemma stays_call (seen : P -> Prop) (c : call) (q q' : P) (o : outcome pyval) :
  stays seen -> is_removal c = false -> handle c q = (o, q') -> seen q -> seen q'.
Proof.
  intros Hstays Hc Hcall Hq. specialize (Hstays c q Hc Hq). by rewrite Hcall in Hstays.
Qed.

Lemma keeps_run {A} (seen : P -> Prop) (m : M P A) (q q' : P) (o : outcome A)
    (ev : list event) :
  keeps seen m -> m q = Result o q' ev -> seen q -> seen q'.
Proof. intros Hm Hrun Hq. specialize (Hm q Hq). by rewrite Hrun in Hm. Qed.

(** A sequence that returned: its first part returned, and the rest ran
    from the state it left. *)
Lemma bind_returned {A B} (m : M P A) (k : A -> M P B) (p : P) (b : B) :
  out (bind m k p) = Returned b ->
  exists a q ev,
    m p = Result (Returned a) q ev /\
    out (k a q) = Returned b /\
    st (bind m k p) = st (k a q).
Proof.
  unfold bind. destruct (m p) as [[a|e] q ev]; [|discriminate].
  intros Hk. exists a, q, ev. split; [done|].
  destruct (k a q) as [o q' ev']. by cbn in *.
Qed.

(** One step back along a run that returned: [Hrun] says that the run
    returned, [Hfinal] names the state it left. *)
Ltac back_step Hrun Hfinal :=
  let Hm := fresh "Hm" in
  let Hst := fresh "Hst" in
  lazymatch type of Hrun with
  | out (bind (lift ?o) _ _) = Returned _ =>
      apply bind_returned in Hrun as (? & ? & ? & Hm & Hrun & Hst);
      rewrite Hst in Hfinal; clear Hst;
      unfold lift at 1 in Hm; injection Hm as Hm <- <-
  | out (bind (invoke ?c) _ ?p) = Returned _ =>
      apply bind_returned in Hrun as (? & ? & ? & Hm & Hrun & Hst);
      rewrite Hst in Hfinal; clear Hst;
      unfold invoke at 1 in Hm;
      destruct (handle c p) as [? ?] eqn:?; injection Hm as -> -> <-
  | out (bind (log _ _ _) _ _) = Returned _ =>
      apply bind_returned in Hrun as (? & ? & ? & Hm & Hrun & Hst);
      rewrite Hst in Hfinal; clear Hst;
      unfold log at 1 in Hm; injection Hm as <- <- <-
  | out (bind _ _ _) = Returned _ =>
      apply bind_returned in Hrun as (? & ? & ? & Hm & Hrun & Hst);
      rewrite Hst in Hfinal; clear Hst
  | out ((if ?b then _ else _) _) = Returned _ => destruct b eqn:?
  | out (raise _ _) = Returned _ => discriminate Hrun
  | out (lift _ _) = Returned _ =>
      unfold lift in Hrun, Hfinal; cbn [out st] in Hrun, Hfinal
  end;
  cbv beta in Hrun, Hfinal.

(** A fact that stays is carried along the calls of the run. *)
Ltac carry :=
  repeat match goal with
         | Hstays : stays ?seen, Hcall : handle ?c ?q = (_, ?q'), Hq : ?seen ?q |- _ =>
             apply (stays_call seen c q q' _ Hstays eq_refl Hcall) in Hq
         end.

Lemma describe_lambda_returned (name : string) (meta : pydict) (response arn : pyval)
    (d : description_obj) :
  describe_lambda name meta response = Returned [(arn, d)] ->
  py_hashable arn = true /\
  exists r cfg : pydict,
    response = PDict r /\
    r !! "Configuration" = Some (PDict cfg) /\
    cfg !! "FunctionArn" = Some arn.
Proof.
  unfold describe_lambda, singleton_dict. intros Hd.
  destruct response as [| | | | |r]; try discriminate.
  destruct (r !! "Configuration") as [[| | | | |cfg]|] eqn:Hcfg; try discriminate.
  destruct (cfg !! "FunctionArn") as [arn'|] eqn:Harn; [|discriminate].
  destruct (py_hashable arn') eqn:Hh; [|discriminate].
  injection Hd as -> _. split; [done|]. by exists r, cfg.
Qed.

(** What a run of the function reconciler that returned leaves behind:
    the artifact it checked and the function it described are there. *)
Lemma create_lambda_leaves (name : string) (meta : pydict) (p0 : P) (arn : pyval)
    (d1 : description_obj) :
  nobody_else_acts -> retry_reruns ->
  out (_create_lambda_from_meta name meta p0) = Returned [(arn, d1)] ->
  exists key,
    meta !! S3_PATH_NAME = Some key /\
    py_hashable arn = true /\
    artifact_there key (st (_create_lambda_from_meta name meta p0)) /\
    function_there name arn (st (_create_lambda_from_meta name meta p0)).
Proof.
  intros (Hartifact & Hfunction & _ & _) Hretry Hrun.
  remember (st (_create_lambda_from_meta name meta p0)) as final eqn:Hfinal.
  unfold _create_lambda_from_meta in Hrun, Hfinal. cbv zeta in Hrun, Hfinal.
  do 3 back_step Hrun Hfinal.
  match goal with
  | H : dict_getitem meta S3_PATH_NAME = Returned ?k |- _ =>
      rename k into key; rename H into Hkey
  end.
  match goal with
  | H : handle (S3_is_file_exists _ key) p0 = (Returned ?f, ?q) |- _ =>
      rename f into found; rename q into p1; rename H into Hfile
  end.
  unfold dict_getitem, py_getitem in Hkey.
  destruct (meta !! S3_PATH_NAME) as [key'|] eqn:Hlook; [|discriminate].
  injection Hkey as ->.
  back_step Hrun Hfinal; [discriminate Hrun|].
  assert (Hthere : artifact_there key p0).
  { exists found, p1. split; [done|]. by destruct (py_truthy found). }
  specialize (Hartifact key). pose proof (Hfunction name arn) as Hfun.
  back_step Hrun Hfinal.
  match goal with
  | H : handle (Lambda_get_function name) p1 = (Returned ?v, ?q) |- _ =>
      rename v into response; rename q into p2; rename H into Hget
  end.
  back_step Hrun Hfinal.
  - (* the function was found *)
    do 2 back_step Hrun Hfinal.
    apply describe_lambda_returned in Hrun as (Hh & r & cfg & -> & Hcfg & Harn).
    assert (Hf : function_there name arn p1) by (by exists r, cfg, p2).
    carry. subst final. by exists key.
  - (* the function was created *)
    do 2 back_step Hrun Hfinal. back_step Hrun Hfinal; [discriminate Hrun|].
    do 7 back_step Hrun Hfinal.
    unfold after_create in Hrun, Hfinal.
    do 8 back_step Hrun Hfinal.
    match goal with
    | H : set_concurrency name meta ?q = Result _ ?q' _ |- _ =>
        pose proof (keeps_run _ _ q q' _ _
                      (keeps_set_concurrency (artifact_there key) name meta Hartifact) H)
          as Hcon1;
        pose proof (keeps_run _ _ q q' _ _
                      (keeps_set_concurrency (function_there name arn) name meta Hfun) H)
          as Hcon2
    end.
    match goal with
    | H : wire_event_sources name meta ?a ?ro ?q = Result _ ?q' _ |- _ =>
        pose proof (keeps_run _ _ q q' _ _
                      (keeps_wire_event_sources (artifact_there key) name meta a ro
                         Hartifact Hretry) H)
          as Hwire1;
        pose proof (keeps_run _ _ q q' _ _
                      (keeps_wire_event_sources (function_there name arn) name meta a ro
                         Hfun Hretry) H)
          as Hwire2
    end.
    apply describe_lambda_returned in Hrun as (Hh & r & cfg & -> & Hcfg & Harn).
    match goal with
    | H : handle (Lambda_get_function name) ?q = (Returned (PDict r), ?q') |- _ =>
        assert (Hf : function_there name arn q) by (by exists r, cfg, q')
    end.
    carry. subst final. exists key. repeat split; auto.
Qed.

(** What a run of the stream reconciler that returned leaves behind: the
    stream it described is there, and is not being deleted. *)
Lemma create_stream_leaves (name : string) (meta : pydict) (p0 : P) (arn : pyval)
    (d1 : description_obj) :
  nobody_else_acts ->
  out (_create_kinesis_stream_from_meta name meta p0) = Returned [(arn, d1)] ->
  py_hashable arn = true /\
  stream_there (PStr name) arn (st (_create_kinesis_stream_from_meta name meta p0)).
Proof.
  intros (_ & _ & Hstream & Hcreated) Hrun.
  specialize (Hstream (PStr name) arn).
  remember (st (_create_kinesis_stream_from_meta name meta p0)) as final eqn:Hfinal.
  unfold _create_kinesis_stream_from_meta in Hrun, Hfinal. cbv zeta in Hrun, Hfinal.
  assert (Hcreate : forall q final',
             out ((shard_count <- lift (dict_getitem meta "shard_count");;
                   invoke (Kinesis_create_stream name shard_count);;
                   log INFO "Created kinesis stream %s." [PStr name];;
                   response <- invoke (Kinesis_get_stream (PStr name));;
                   arn <- lift (py_getitem response "StreamARN");;
                   lift (singleton_dict arn (build_description_obj response name meta)))%py
                    q)
               = Returned [(arn, d1)] ->
             final'
               = st ((shard_count <- lift (dict_getitem meta "shard_count");;
                      invoke (Kinesis_create_stream name shard_count);;
                      log INFO "Created kinesis stream %s." [PStr name];;
                      response <- invoke (Kinesis_get_stream (PStr name));;
                      arn <- lift (py_getitem response "StreamARN");;
                      lift (singleton_dict arn
                              (build_description_obj response name meta)))%py q) ->
             py_hashable arn = true /\ stream_there (PStr name) arn final').
  { clear Hrun Hfinal. intros q final' Hrun Hfinal.
    do 6 back_step Hrun Hfinal.
    match goal with
    | H : handle (Kinesis_create_stream name _) q = (Returned _, ?q') |- _ =>
        destruct (Hcreated _ _ _ _ _ H)
          as (arn0 & r & sd & status & q'' & Hget & Hsd & Hstatus & Hdel & Harn0)
    end.
    match goal with
    | H : handle (Kinesis_get_stream (PStr name)) ?q' = (Returned ?v, ?q2) |- _ =>
        rewrite Hget in H; injection H as <- <-
    end.
    match goal with
    | H : py_getitem (PDict r) "StreamARN" = Returned ?a |- _ =>
        unfold py_getitem in H; rewrite Harn0 in H; injection H as Heq
    end.
    subst. unfold singleton_dict in Hrun.
    match type of Hrun with
    | context [py_hashable ?a] => destruct (py_hashable a) eqn:Hh; [|discriminate Hrun]
    end.
    cbn in Hrun. injection Hrun as Heq _. subst. split; [done|].
    match type of Hget with
    | handle _ ?s = _ =>
        assert (Hs : stream_there (PStr name) arn s)
          by (exists r, sd, status, q''; repeat split; eassumption)
    end.
    carry. done. }
  back_step Hrun Hfinal.
  match goal with
  | H : handle (Kinesis_get_stream (PStr name)) p0 = (Returned ?v, ?q) |- _ =>
      rename v into response; rename q into p1; rename H into Hget
  end.
  back_step Hrun Hfinal; [|by eapply Hcreate].
  do 2 back_step Hrun Hfinal. back_step Hrun Hfinal.
  - do 2 back_step Hrun Hfinal. by eapply Hcreate.
  - do 3 back_step Hrun Hfinal.
    unfold py_getitem in *. destruct response as [| | | | |r]; try discriminate.
    destruct (r !! "StreamDescription") as [sdv|] eqn:Hsd; [|discriminate].
    destruct (r !! "StreamARN") as [arn'|] eqn:Harn; [|discriminate].
    repeat match goal with
           | H : Returned _ = Returned _ |- _ => injection H as H; subst
           end.
    match type of Hsd with
    | _ = Some ?v => destruct v as [| | | | |sd]; try discriminate
    end.
    destruct (sd !! "StreamStatus") as [status|] eqn:Hstatus; [|discriminate].
    repeat match goal with
           | H : Returned _ = Returned _ |- _ => injection H as H; subst
           end.
    unfold singleton_dict in Hrun.
    match type of Hrun with
    | context [py_hashable ?a] => destruct (py_hashable a) eqn:Hh; [|discriminate Hrun]
    end.
    cbn in Hrun. injection Hrun as Heq _. subst. split; [done|].
    assert (Hs : stream_there (PStr name) arn p0)
      by (unfold stream_there; do 4 eexists; repeat split; eassumption).
    carry. done.
Qed.

(** C1. Reconciling a descriptor twice in sequence, with nobody else at
    work on the account: after a run that returned the identifier [arn],
    the second run finds the resource reported, returns the description
    of what is reported under the same identifier [arn], and issues no
    create call; it is the artifact check, the lookup and a warning for
    the function kind, the lookup and a warning for the stream kind. *)
Theorem C1_idempotent_reconcile (name : string) (meta : pydict) :
  nobody_else_acts ->
  retry_reruns ->
  (forall (p0 : P) (arn : pyval) (d1 : description_obj),
     out (_create_lambda_from_meta name meta p0) = Returned [(arn, d1)] ->
     exists (key found : pyval) (r cfg : pydict) (p1 p2 : P),
       handle (S3_is_file_exists CONFIG_deploy_target_bucket key)
              (st (_create_lambda_from_meta name meta p0)) = (Returned found, p1) /\
       handle (Lambda_get_function name) p1 = (Returned (PDict r), p2) /\
       r !! "Configuration" = Some (PDict cfg) /\
       cfg !! "FunctionArn" = Some arn /\
       _create_lambda_from_meta name meta (st (_create_lambda_from_meta name meta p0))
         = Result
             (Returned
                [(arn,
                  build_description_obj
                    (PDict (<["Configuration" := PDict (delete "FunctionArn" cfg)]> r))
                    name meta)])
             p2
             [ECall (S3_is_file_exists CONFIG_deploy_target_bucket key);
              ECall (Lambda_get_function name);
              ELog WARN "%s lambda exists." [PStr name]] /\
       Forall (fun c => is_create_lambda c = false)
         (calls_of (evs (_create_lambda_from_meta name meta
                           (st (_create_lambda_from_meta name meta p0)))))) /\
  (forall (p0 : P) (arn : pyval) (d1 : description_obj),
     out (_create_kinesis_stream_from_meta name meta p0) = Returned [(arn, d1)] ->
     exists (r : pydict) (p1 : P),
       handle (Kinesis_get_stream (PStr name))
              (st (_create_kinesis_stream_from_meta name meta p0))
         = (Returned (PDict r), p1) /\
       r !! "StreamARN" = Some arn /\
       _create_kinesis_stream_from_meta name meta
           (st (_create_kinesis_stream_from_meta name meta p0))
         = Result (Returned [(arn, build_description_obj (PDict r) name meta)]) p1
             [ECall (Kinesis_get_stream (PStr name));
              ELog WARN "%s kinesis stream exists" [PStr name]] /\
       Forall (fun c => is_create_stream c = false)
         (calls_of (evs (_create_kinesis_stream_from_meta name meta
                           (st (_create_kinesis_stream_from_meta name meta p0)))))).
Proof.
  intros Hquiet Hretry. split.
  - intros p0 arn d1 Hrun1.
    pose proof (create_lambda_returned_valid name meta p0 _ Hrun1) as Hv.
    destruct (create_lambda_leaves name meta p0 arn d1 Hquiet Hretry Hrun1)
      as (key & Hkey & Hh & (found & p1 & Hfile & Hfound) & Hthere).
    destruct Hquiet as (_ & Hfunction & _ & _).
    apply (stays_call _ (S3_is_file_exists CONFIG_deploy_target_bucket key) _ _ _
             (Hfunction name arn) eq_refl Hfile) in Hthere
      as (r & cfg & p2 & Hget & Hcfg & Harn).
    exists key, found, r, cfg, p1, p2.
    pose proof (lambda_existing_short_circuits name meta _ p1 p2 key found arn r cfg
                  Hv Hkey Hfile Hfound Hget Hcfg Harn Hh) as Hrun2.
    rewrite Hrun2. repeat split; try done. cbn. repeat constructor.
  - intros p0 arn d1 Hrun1.
    destruct (create_stream_leaves name meta p0 arn d1 Hquiet Hrun1)
      as (Hh & r & sd & status & p1 & Hget & Hsd & Hstatus & Hdel & Harn).
    pose proof (py_truthy_dict r _ _ Hsd) as Ht.
    exists r, p1.
    pose proof (kinesis_existing_short_circuits name meta _ p1 r sd status arn
                  Hget Ht Hsd Hstatus Hdel Harn Hh) as Hrun2.
    rewrite Hrun2. repeat split; try done. cbn. repeat constructor.
Qed.

(** ** Creating a function that is not there yet *)

(** The run up to and including the create call, when the artifact is
    there, the function is not, and the role is. *)
Lemma create_lambda_fresh (name : string) (meta : pydict) (p p1 p2 p3 p4 : P)
    (key found absent role_name role_arn dl fn mem tmo : pyval) (rt : string)
    (created : outcome pyval) :
  validate_params name meta lambda_req_params = Returned tt ->
  meta !! S3_PATH_NAME = Some key ->
  handle (S3_is_file_exists CONFIG_deploy_target_bucket key) p = (Returned found, p1) ->
  py_truthy found = true ->
  handle (Lambda_get_function name) p1 = (Returned absent, p2) ->
  py_truthy absent = false ->
  meta !! "iam_role_name" = Some role_name ->
  handle (Iam_check_if_role_exists role_name) p2 = (Returned role_arn, p3) ->
  py_truthy role_arn = true ->
  dead_letter_target meta = Returned dl ->
  meta !! "func_name" = Some fn ->
  meta !! "runtime" = Some (PStr rt) ->
  meta !! "memory" = Some mem ->
  meta !! "timeout" = Some tmo ->
  handle (Lambda_create_lambda
            (create_args name meta fn role_arn (PStr (lower rt)) mem tmo key dl)) p3
    = (created, p4) ->
  _create_lambda_from_meta name meta p
    = let issued :=
        [ECall (S3_is_file_exists CONFIG_deploy_target_bucket key);
         ECall (Lambda_get_function name);
         ECall (Iam_check_if_role_exists role_name);
         ECall (Lambda_create_lambda
                  (create_args name meta fn role_arn (PStr (lower rt)) mem tmo key dl))] in
      match created with
      | Raised e => Result (Raised e) p4 issued
      | Returned _ =>
          Result (out (after_create name meta role_name p4))
                 (st (after_create name meta role_name p4))
                 (issued ++ evs (after_create name meta role_name p4))
      end.
Proof.
  intros Hv Hkey Hfile Hfound Hget Habsent Hrole Hcheck Hrarn Hdl Hfn Hrt Hmem Htmo Hcreate.
  unfold _create_lambda_from_meta. unfold bind at 1. unfold lift at 1.
  rewrite Hv. run_simpl. run. rewrite Hdl. run_simpl. cbn [py_lower]. run_simpl.
  rewrite Hcreate. destruct created; run_simpl; [|done].
  by destruct (after_create name meta role_name p4).
Qed.

(** From there the run is the wiring of the triggers, then the record
    "Created lambda" and the description; what the wiring raises, the
    reconciler raises. *)
Lemma create_lambda_from_wiring (name : string) (meta : pydict) (p p6 : P)
    (role_name lambda_arn response : pyval) (issued : list event) :
  reaches_wiring name meta p p6 role_name lambda_arn response issued ->
  _create_lambda_from_meta name meta p
    = match wire_event_sources name meta lambda_arn role_name p6 with
      | Result (Returned _) q wired =>
          Result (describe_lambda name meta response) q
            (issued ++ wired ++ [ELog INFO "Created lambda %s." [PStr name]])
      | Result (Raised e) q wired => Result (Raised e) q (issued ++ wired)
      end.
Proof.
  intros (p1 & p2 & p3 & p4 & p5 & key & found & absent & role_arn & dl & fn & mem & tmo
          & v1 & v2 & rt & r & cfg & Hv & Hkey & Hfile & Hfound & Hget & Habsent & Hrole
          & Hcheck & Hrarn & Hdl & Hfn & Hrt & Hmem & Htmo & Hcreate & Hsleep & Hget2
          & -> & Hcfg & Harn & Hcon & ->).
  rewrite (create_lambda_fresh name meta p p1 p2 p3 p4 key found absent role_name
             role_arn dl fn mem tmo rt (Returned v1)); try done.
  cbv zeta. unfold after_create, set_concurrency. rewrite Hcon. run.
  destruct (wire_event_sources name meta lambda_arn role_name p6) as [[[]|e] q wired];
    run_simpl; [|done].
  destruct (describe_lambda name meta (PDict r)); run_simpl;
    by rewrite ?app_nil_r.
Qed.

(** ** Trigger dispatch *)

Lemma bind_lift_returned {A B} (a : A) (k : A -> M P B) (p : P) :
  bind (lift (Returned a)) k p = k a p.
Proof. unfold bind, lift. by destruct (k a p). Qed.


Lemma bind_trigger_known (name : string) (lambda_arn role_name : pyval) (d : pydict)
    (tag : string) (b : trigger_binder) (p : P) :
  d !! "resource_type" = Some (PStr tag) ->
  CREATE_TRIGGER !! tag = Some b ->
  bind_trigger name lambda_arn role_name (PDict d) p
    = run_binder b name lambda_arn role_name d p.
Proof.
  intros Hd Hb. unfold bind_trigger, dict_getitem, py_getitem. rewrite Hd.
  rewrite bind_lift_returned. unfold CREATE_TRIGGER_getitem. rewrite Hb.
  by rewrite bind_lift_returned.
Qed.


Lemma bind_assoc {A B C} (m : M P A) (k : A -> M P B) (h : B -> M P C) (p : P) :
  bind (bind m k) h p = bind m (fun a => bind (k a) h) p.
Proof.
  unfold bind. destruct (m p) as [[a|e] q ev]; [|done].
  destruct (k a q) as [[b|e] q' ev']; [|done].
  destruct (h b q') as [o q'' ev'']. by rewrite app_assoc.
Qed.

Lemma bind_ext {A B} (m : M P A) (k k' : A -> M P B) (p : P) :
  (forall a q, k a q = k' a q) -> bind m k p = bind m k' p.
Proof.
  intros Hk. unfold bind. destruct (m p) as [[a|e] q ev]; [|done]. by rewrite Hk.
Qed.

(** The loop over [done ++ rest] is the loop over [done], then the loop
    over [rest] when the first returned. *)
Lemma wire_triggers_app (name : string) (lambda_arn role_name : pyval)
    (done rest : list pyval) (p : P) :
  wire_triggers name lambda_arn role_name (done ++ rest) p
    = bind (wire_triggers name lambda_arn role_name done)
        (fun _ => wire_triggers name lambda_arn role_name rest) p.
Proof.
  revert p. induction done as [|x done IH]; intros p.
  - cbn [app wire_triggers]. unfold bind, ret.
    by destruct (wire_triggers name lambda_arn role_name rest p).
  - cbn [app wire_triggers]. rewrite bind_assoc. apply bind_ext. intros _ q. apply IH.
Qed.



(** ** The queue trigger *)

Lemma validate_queue_trigger (lambda_name : string) (trigger_meta : pydict)
    (target_queue batch_size : pyval) :
  trigger_meta !! "target_queue" = Some target_queue ->
  trigger_meta !! "batch_size" = Some batch_size ->
  validate_params lambda_name trigger_meta ["target_queue"; "batch_size"] = Returned tt.
Proof.
  intros Hq Hb. apply validate_params_present.
  intros k [<-|[<-|[]]]; by eexists.
Qed.

Lemma sqs_trigger_queue_absent (lambda_name : string) (lambda_arn role_name : pyval)
    (trigger_meta : pydict) (target_queue batch_size url : pyval) (p p1 : P) :
  trigger_meta !! "target_queue" = Some target_queue ->
  trigger_meta !! "batch_size" = Some batch_size ->
  handle (Sqs_get_queue_url target_queue CONFIG_account_id) p = (Returned url, p1) ->
  py_truthy url = false ->
  _create_sqs_trigger_from_meta lambda_name lambda_arn role_name trigger_meta p
    = Result (Returned tt) p1
        [ECall (Sqs_get_queue_url target_queue CONFIG_account_id);
         ELog DEBUG "Queue %s does not exist" [target_queue]].
Proof.
  intros Hq Hb Hurl Hfalse. unfold _create_sqs_trigger_from_meta.
  match goal with
  | |- retry _ ?f p = ?res => assert (Hbody : f p = res)
  end.
  { unfold bind at 1. unfold lift at 1.
    rewrite (validate_queue_trigger lambda_name trigger_meta target_queue batch_size Hq Hb).
    run_simpl. run. reflexivity. }
  rewrite (retry_returned _ _ p tt); by rewrite Hbody.
Qed.

Lemma sqs_trigger_queue_present (lambda_name : string) (lambda_arn role_name : pyval)
    (trigger_meta : pydict) (target_queue batch_size url added : pyval) (p p1 p2 : P) :
  trigger_meta !! "target_queue" = Some target_queue ->
  trigger_meta !! "batch_size" = Some batch_size ->
  handle (Sqs_get_queue_url target_queue CONFIG_account_id) p = (Returned url, p1) ->
  py_truthy url = true ->
  handle (Lambda_add_event_source lambda_name (PStr (queue_arn target_queue))
            batch_size None) p1 = (Returned added, p2) ->
  _create_sqs_trigger_from_meta lambda_name lambda_arn role_name trigger_meta p
    = Result (Returned tt) p2
        [ECall (Sqs_get_queue_url target_queue CONFIG_account_id);
         ECall (Lambda_add_event_source lambda_name (PStr (queue_arn target_queue))
                  batch_size None);
         ELog INFO "Lambda %s subscribed to SQS queue %s" [PStr lambda_name; target_queue]].
Proof.
  intros Hq Hb Hurl Htrue Hadd. unfold _create_sqs_trigger_from_meta.
  match goal with
  | |- retry _ ?f p = ?res => assert (Hbody : f p = res)
  end.
  { unfold bind at 1. unfold lift at 1.
    rewrite (validate_queue_trigger lambda_name trigger_meta target_queue batch_size Hq Hb).
    run_simpl. unfold queue_arn in Hadd. run. reflexivity. }
  rewrite (retry_returned _ _ p tt); by rewrite Hbody.
Qed.

(** C6. The queue trigger is best effort.  For a spec that carries
    [target_queue] and [batch_size]: when the provider reports no address
    for the queue, the binder logs and returns, having issued no
    add-event-source call and no call that changes anything, and a
    reconciliation whose only trigger it is still returns the description
    of the function it created; when the queue is there and the provider
    takes the call, the binder issues exactly one add-event-source call,
    with the spec's batch size. *)
Theorem C6_queue_trigger_best_effort (lambda_name : string) (lambda_arn role_name : pyval)
    (trigger_meta : pydict) (target_queue batch_size url : pyval) (p p1 : P) :
  trigger_meta !! "target_queue" = Some target_queue ->
  trigger_meta !! "batch_size" = Some batch_size ->
  handle (Sqs_get_queue_url target_queue CONFIG_account_id) p = (Returned url, p1) ->
  (py_truthy url = false ->
     _create_sqs_trigger_from_meta lambda_name lambda_arn role_name trigger_meta p
       = Result (Returned tt) p1
           [ECall (Sqs_get_queue_url target_queue CONFIG_account_id);
            ELog DEBUG "Queue %s does not exist" [target_queue]] /\
     List.filter is_add_event_source
       (calls_of (evs (_create_sqs_trigger_from_meta lambda_name lambda_arn role_name
                         trigger_meta p))) = [] /\
     Forall (fun c => is_mutation c = false)
       (calls_of (evs (_create_sqs_trigger_from_meta lambda_name lambda_arn role_name
                         trigger_meta p))) /\
     (forall meta p0 response issued,
        reaches_wiring lambda_name meta p0 p role_name lambda_arn response issued ->
        py_get meta "event_sources" = PList [PDict trigger_meta] ->
        trigger_meta !! "resource_type" = Some (PStr "sqs_trigger") ->
        _create_lambda_from_meta lambda_name meta p0
          = Result (describe_lambda lambda_name meta response) p1
              (issued
                 ++ [ECall (Sqs_get_queue_url target_queue CONFIG_account_id);
                     ELog DEBUG "Queue %s does not exist" [target_queue]]
                 ++ [ELog INFO "Created lambda %s." [PStr lambda_name]]))) /\
  (py_truthy url = true ->
   forall added p2,
     handle (Lambda_add_event_source lambda_name (PStr (queue_arn target_queue))
               batch_size None) p1 = (Returned added, p2) ->
     _create_sqs_trigger_from_meta lambda_name lambda_arn role_name trigger_meta p
       = Result (Returned tt) p2
           [ECall (Sqs_get_queue_url target_queue CONFIG_account_id);
            ECall (Lambda_add_event_source lambda_name (PStr (queue_arn target_queue))
                     batch_size None);
            ELog INFO "Lambda %s subscribed to SQS queue %s"
              [PStr lambda_name; target_queue]] /\
     List.filter is_add_event_source
       (calls_of (evs (_create_sqs_trigger_from_meta lambda_name lambda_arn role_name
                         trigger_meta p)))
       = [Lambda_add_event_source lambda_name (PStr (queue_arn target_queue))
            batch_size None]).
Proof.
  intros Hq Hb Hurl. split.
  - intros Hfalse.
    pose proof (sqs_trigger_queue_absent lambda_name lambda_arn role_name trigger_meta
                  target_queue batch_size url p p1 Hq Hb Hurl Hfalse) as Hrun.
    rewrite Hrun. split; [done|]. split; [done|]. split; [cbn; repeat constructor|].
    intros meta p0 response issued Hreach Hsrc Htag.
    rewrite (create_lambda_from_wiring lambda_name meta p0 p role_name lambda_arn response
               issued Hreach).
    unfold wire_event_sources. rewrite Hsrc. cbn [py_truthy py_iter].
    rewrite bind_lift_returned. cbn [wire_triggers]. unfold bind.
    rewrite (bind_trigger_known lambda_name lambda_arn role_name trigger_meta
               "sqs_trigger" create_sqs_trigger p Htag eq_refl).
    cbn [run_binder]. rewrite Hrun. unfold ret. run_simpl. reflexivity.
  - intros Htrue added p2 Hadd.
    rewrite (sqs_trigger_queue_present lambda_name lambda_arn role_name trigger_meta
               target_queue batch_size url added p p1 p2 Hq Hb Hurl Htrue Hadd).
    split; reflexivity.
Qed.

(** ** The dead-letter target *)

Hypothesis format_value_str : forall s : string, format_value (PStr s) = s.

Lemma lower_nonempty (s : string) : s <> EmptyString -> lower s <> EmptyString.
Proof. destruct s; [done|]. discriminate. Qed.

Lemma py_truthy_str (s : string) : py_truthy (PStr s) = true <-> s <> EmptyString.
Proof.
  cbn. rewrite negb_true_iff. split.
  - intros H ->. discriminate.
  - intros H. by apply String.eqb_neq.
Qed.

Lemma dead_letter_target_both (meta : pydict) (t : string) :
  meta !! "dl_resource_type" = Some (PStr t) ->
  t <> EmptyString ->
  py_truthy (py_get meta "dl_resource_name") = true ->
  dead_letter_target meta
    = Returned (PStr (dl_arn (lower t) (py_get meta "dl_resource_name"))).
Proof.
  intros Ht Hne Hn. unfold dead_letter_target, py_get at 1 2. rewrite Ht.
  apply py_truthy_str in Hne as Htt. rewrite Htt. cbn [py_lower].
  apply lower_nonempty, py_truthy_str in Hne. rewrite Hne, Hn. cbn [andb].
  unfold dl_arn. by rewrite format_value_str.
Qed.

Lemma dead_letter_target_no_type (meta : pydict) :
  py_truthy (py_get meta "dl_resource_type") = false ->
  dead_letter_target meta = Returned PNone.
Proof. intros Ht. unfold dead_letter_target. by rewrite !Ht. Qed.

Lemma dead_letter_target_no_name (meta : pydict) :
  (py_truthy (py_get meta "dl_resource_type") = false \/
   exists t, meta !! "dl_resource_type" = Some (PStr t)) ->
  py_truthy (py_get meta "dl_resource_name") = false ->
  dead_letter_target meta = Returned PNone.
Proof.
  intros [Ht|[t Ht]] Hn; [by apply dead_letter_target_no_type|].
  unfold dead_letter_target, py_get at 1 2. rewrite Ht.
  destruct (py_truthy (PStr t)); cbn [py_lower]; rewrite Hn;
    by rewrite andb_false_r.
Qed.

(** C8 (as the code has it). The dead-letter target handed to the create
    call is the interpolation of the lower-cased type, the region, the
    account and the name when [meta] carries a non-empty type and a name
    that is truthy; it is [None] when the type or the name is missing,
    [None] or empty. *)
Theorem C8_dead_letter_target_lowercased (name : string) (meta : pydict) :
  (forall t,
     meta !! "dl_resource_type" = Some (PStr t) ->
     t <> EmptyString ->
     py_truthy (py_get meta "dl_resource_name") = true ->
     dead_letter_target meta
       = Returned (PStr (dl_arn (lower t) (py_get meta "dl_resource_name")))) /\
  (py_truthy (py_get meta "dl_resource_type") = false ->
   dead_letter_target meta = Returned PNone) /\
  ((exists t, meta !! "dl_resource_type" = Some (PStr t)) ->
   py_truthy (py_get meta "dl_resource_name") = false ->
   dead_letter_target meta = Returned PNone) /\
  (forall (p p1 p2 p3 p4 : P) (key found absent role_name role_arn dl fn mem tmo : pyval)
          (rt : string) (created : outcome pyval),
     validate_params name meta lambda_req_params = Returned tt ->
     meta !! S3_PATH_NAME = Some key ->
     handle (S3_is_file_exists CONFIG_deploy_target_bucket key) p = (Returned found, p1) ->
     py_truthy found = true ->
     handle (Lambda_get_function name) p1 = (Returned absent, p2) ->
     py_truthy absent = false ->
     meta !! "iam_role_name" = Some role_name ->
     handle (Iam_check_if_role_exists role_name) p2 = (Returned role_arn, p3) ->
     py_truthy role_arn = true ->
     dead_letter_target meta = Returned dl ->
     meta !! "func_name" = Some fn ->
     meta !! "runtime" = Some (PStr rt) ->
     meta !! "memory" = Some mem ->
     meta !! "timeout" = Some tmo ->
     handle (Lambda_create_lambda
               (create_args name meta fn role_arn (PStr (lower rt)) mem tmo key dl)) p3
       = (created, p4) ->
     exists args rest,
       dl_target_arn args = dl /\
       evs (_create_lambda_from_meta name meta p)
         = [ECall (S3_is_file_exists CONFIG_deploy_target_bucket key);
            ECall (Lambda_get_function name);
            ECall (Iam_check_if_role_exists role_name);
            ECall (Lambda_create_lambda args)] ++ rest).
Proof.
  split; [|split; [|split]].
  - intros t. apply dead_letter_target_both.
  - apply dead_letter_target_no_type.
  - intros Ht. apply dead_letter_target_no_name. by right.
  - intros p p1 p2 p3 p4 key found absent role_name role_arn dl fn mem tmo rt created
      Hv Hkey Hfile Hfound Hget Habsent Hrole Hcheck Hrarn Hdl Hfn Hrt Hmem Htmo Hcreate.
    rewrite (create_lambda_fresh name meta p p1 p2 p3 p4 key found absent role_name
               role_arn dl fn mem tmo rt created); try done.
    cbv zeta.
    exists (create_args name meta fn role_arn (PStr (lower rt)) mem tmo key dl).
    destruct created.
    + eexists. split; [done|]. reflexivity.
    + exists []. split; [done|]. reflexivity.
Qed.

(** * Further properties of the two modules *)

(** ** The reconciler's early exits *)

(** X1. When the artifact is not in the deployment bucket the reconciler
    raises an [AssertionError] naming the key and the bucket; the
    artifact check is the only facade call of the run. *)
Theorem create_lambda_artifact_missing (name : string) (meta : pydict) (p p1 : P)
    (key found : pyval) :
  (forall k, In k lambda_req_params -> is_Some (meta !! k)) ->
  meta !! S3_PATH_NAME = Some key ->
  handle (S3_is_file_exists CONFIG_deploy_target_bucket key) p = (Returned found, p1) ->
  py_truthy found = false ->
  _create_lambda_from_meta name meta p
    = Result
        (Raised (AssertionError "Deployment package %s does not exist in %s bucket"
                   [key; PStr CONFIG_deploy_target_bucket]))
        p1
        [ECall (S3_is_file_exists CONFIG_deploy_target_bucket key)].
Proof.
  intros Hall Hkey Hfile Hfound.
  pose proof (validate_params_present name meta lambda_req_params Hall) as Hv.
  unfold _create_lambda_from_meta. unfold bind at 1. unfold lift at 1.
  rewrite Hv. run_simpl. run. reflexivity.
Qed.

(** X2. When the function is not there and the role of [iam_role_name] is
    not found, the reconciler raises an [AssertionError] naming the role;
    it has looked at the artifact, the function and the role, and has
    issued no create call. *)
Theorem create_lambda_role_missing (name : string) (meta : pydict) (p p1 p2 p3 : P)
    (key found absent role_name role_arn : pyval) :
  (forall k, In k lambda_req_params -> is_Some (meta !! k)) ->
  meta !! S3_PATH_NAME = Some key ->
  handle (S3_is_file_exists CONFIG_deploy_target_bucket key) p = (Returned found, p1) ->
  py_truthy found = true ->
  handle (Lambda_get_function name) p1 = (Returned absent, p2) ->
  py_truthy absent = false ->
  meta !! "iam_role_name" = Some role_name ->
  handle (Iam_check_if_role_exists role_name) p2 = (Returned role_arn, p3) ->
  py_truthy role_arn = false ->
  _create_lambda_from_meta name meta p
    = Result
        (Raised (AssertionError ("Role " +:+ format_value role_name +:+ " does not exist.")
                   []))
        p3
        [ECall (S3_is_file_exists CONFIG_deploy_target_bucket key);
         ECall (Lambda_get_function name);
         ECall (Iam_check_if_role_exists role_name)].
Proof.
  intros Hall Hkey Hfile Hfound Hget Habsent Hrole Hcheck Hrarn.
  pose proof (validate_params_present name meta lambda_req_params Hall) as Hv.
  unfold _create_lambda_from_meta. unfold bind at 1. unfold lift at 1.
  rewrite Hv. run_simpl. run. reflexivity.
Qed.

(** X3. A function that is found is left as it is: whatever [meta] asks
    for (triggers, concurrency, a dead-letter target), the run is the
    artifact check, the lookup and a warning; no call of the run changes
    anything at the provider. *)
Theorem create_lambda_existing_untouched (name : string) (meta : pydict) (p p1 p2 : P)
    (key found arn : pyval) (r cfg : pydict) :
  (forall k, In k lambda_req_params -> is_Some (meta !! k)) ->
  meta !! S3_PATH_NAME = Some key ->
  handle (S3_is_file_exists CONFIG_deploy_target_bucket key) p = (Returned found, p1) ->
  py_truthy found = true ->
  handle (Lambda_get_function name) p1 = (Returned (PDict r), p2) ->
  r !! "Configuration" = Some (PDict cfg) ->
  cfg !! "FunctionArn" = Some arn ->
  py_hashable arn = true ->
  evs (_create_lambda_from_meta name meta p)
    = [ECall (S3_is_file_exists CONFIG_deploy_target_bucket key);
       ECall (Lambda_get_function name);
       ELog WARN "%s lambda exists." [PStr name]] /\
  Forall (fun c => is_mutation c = false)
    (calls_of (evs (_create_lambda_from_meta name meta p))) /\
  st (_create_lambda_from_meta name meta p) = p2.
Proof.
  intros Hall Hkey Hfile Hfound Hget Hcfg Harn Hh.
  pose proof (validate_params_present name meta lambda_req_params Hall) as Hv.
  rewrite (lambda_existing_short_circuits name meta p p1 p2 key found arn r cfg);
    try done.
  split; [done|]. split; [|done]. cbn. repeat constructor.
Qed.

(** X4. Where the code lower-cases a value of [meta], a value that is no
    string stops the run with an [AttributeError] once the role is
    resolved and before any create call: so for a [runtime] that is no
    string, and for a truthy [dl_resource_type] that is no string. *)
Theorem create_lambda_not_a_string (name : string) (meta : pydict) (p p1 p2 p3 : P)
    (key found absent role_name role_arn : pyval) :
  (forall k, In k lambda_req_params -> is_Some (meta !! k)) ->
  meta !! S3_PATH_NAME = Some key ->
  handle (S3_is_file_exists CONFIG_deploy_target_bucket key) p = (Returned found, p1) ->
  py_truthy found = true ->
  handle (Lambda_get_function name) p1 = (Returned absent, p2) ->
  py_truthy absent = false ->
  meta !! "iam_role_name" = Some role_name ->
  handle (Iam_check_if_role_exists role_name) p2 = (Returned role_arn, p3) ->
  py_truthy role_arn = true ->
  (forall dl fn rt,
     dead_letter_target meta = Returned dl ->
     meta !! "func_name" = Some fn ->
     meta !! "runtime" = Some rt ->
     (forall s, rt <> PStr s) ->
     _create_lambda_from_meta name meta p
       = Result (Raised AttributeError) p3
           [ECall (S3_is_file_exists CONFIG_deploy_target_bucket key);
            ECall (Lambda_get_function name);
            ECall (Iam_check_if_role_exists role_name)]) /\
  (forall t,
     meta !! "dl_resource_type" = Some t ->
     py_truthy t = true ->
     (forall s, t <> PStr s) ->
     _create_lambda_from_meta name meta p
       = Result (Raised AttributeError) p3
           [ECall (S3_is_file_exists CONFIG_deploy_target_bucket key);
            ECall (Lambda_get_function name);
            ECall (Iam_check_if_role_exists role_name)]).
Proof.
  intros Hall Hkey Hfile Hfound Hget Habsent Hrole Hcheck Hrarn.
  pose proof (validate_params_present name meta lambda_req_params Hall) as Hv.
  split.
  - intros dl fn rt Hdl Hfn Hrt Hns.
    unfold _create_lambda_from_meta. unfold bind at 1. unfold lift at 1.
    rewrite Hv. run_simpl. run. rewrite Hdl. run_simpl.
    destruct rt as [| | |s'| |]; try reflexivity. by destruct (Hns s').
  - intros t Ht Htt Hns.
    assert (Hdl : dead_letter_target meta = Raised AttributeError).
    { assert (Hg : py_get meta "dl_resource_type" = t)
        by (unfold py_get; by rewrite Ht).
      unfold dead_letter_target. rewrite !Hg, Htt.
      destruct t as [| | |s'| |]; try reflexivity. by destruct (Hns s'). }
    unfold _create_lambda_from_meta. unfold bind at 1. unfold lift at 1.
    rewrite Hv. run_simpl. run. rewrite Hdl. reflexivity.
Qed.

(** X5. The read after the create call: when the provider still answers
    with something that is no dictionary ([None], as the code's comment
    expects at times) after the ten seconds, the run raises a [TypeError];
    the create call has been issued, nothing is described and no trigger
    is wired. *)
Theorem create_lambda_unreadable_after_create (name : string) (meta : pydict)
    (p p1 p2 p3 p4 p5 p6 : P)
    (key found absent role_name role_arn dl fn mem tmo v1 v2 response : pyval)
    (rt : string) :
  (forall k, In k lambda_req_params -> is_Some (meta !! k)) ->
  meta !! S3_PATH_NAME = Some key ->
  handle (S3_is_file_exists CONFIG_deploy_target_bucket key) p = (Returned found, p1) ->
  py_truthy found = true ->
  handle (Lambda_get_function name) p1 = (Returned absent, p2) ->
  py_truthy absent = false ->
  meta !! "iam_role_name" = Some role_name ->
  handle (Iam_check_if_role_exists role_name) p2 = (Returned role_arn, p3) ->
  py_truthy role_arn = true ->
  dead_letter_target meta = Returned dl ->
  meta !! "func_name" = Some fn ->
  meta !! "runtime" = Some (PStr rt) ->
  meta !! "memory" = Some mem ->
  meta !! "timeout" = Some tmo ->
  handle (Lambda_create_lambda
            (create_args name meta fn role_arn (PStr (lower rt)) mem tmo key dl)) p3
    = (Returned v1, p4) ->
  handle (Time_sleep 10) p4 = (Returned v2, p5) ->
  handle (Lambda_get_function name) p5 = (Returned response, p6) ->
  (forall d, response <> PDict d) ->
  _create_lambda_from_meta name meta p
    = Result (Raised TypeError) p6
        [ECall (S3_is_file_exists CONFIG_deploy_target_bucket key);
         ECall (Lambda_get_function name);
         ECall (Iam_check_if_role_exists role_name);
         ECall (Lambda_create_lambda
                  (create_args name meta fn role_arn (PStr (lower rt)) mem tmo key dl));
         ECall (Time_sleep 10);
         ECall (Lambda_get_function name)].
Proof.
  intros Hall Hkey Hfile Hfound Hget Habsent Hrole Hcheck Hrarn Hdl Hfn Hrt Hmem Htmo
    Hcreate Hsleep Hget2 Hnd.
  pose proof (validate_params_present name meta lambda_req_params Hall) as Hv.
  rewrite (create_lambda_fresh name meta p p1 p2 p3 p4 key found absent role_name
             role_arn dl fn mem tmo rt (Returned v1)); try done.
  cbv zeta. unfold after_create. run.
  destruct response as [| | | | |d']; try reflexivity. by destruct (Hnd d').
Qed.

(** X6. With no trigger configured ([event_sources] missing, [None] or
    empty) the run goes from the read after the create call to the record
    "Created lambda" and the description: no binder is called. *)
Theorem create_lambda_without_triggers (name : string) (meta : pydict) (p p6 : P)
    (role_name lambda_arn response : pyval) (issued : list event) :
  reaches_wiring name meta p p6 role_name lambda_arn response issued ->
  py_truthy (py_get meta "event_sources") = false ->
  _create_lambda_from_meta name meta p
    = Result (describe_lambda name meta response) p6
        (issued ++ [ELog INFO "Created lambda %s." [PStr name]]).
Proof.
  intros Hreach Hnone.
  rewrite (create_lambda_from_wiring name meta p p6 role_name lambda_arn response issued
             Hreach).
  unfold wire_event_sources. rewrite Hnone. reflexivity.
Qed.


(** ** The concurrency override *)

(** X8. Lines 103-115. With no override configured nothing is issued.
    With an override [c] and an account headroom [u], both numbers: when
    [c <= u] the override is put on the function, when [c > u] it is not
    and a warning is logged; in either case the block returns. *)
Theorem set_concurrency_within_headroom (name : string) (meta : pydict) (p p1 : P) :
  (py_truthy (py_get meta "concurrent_executions") = false ->
   set_concurrency name meta p = Result (Returned tt) p []) /\
  (forall c u,
     meta !! "concurrent_executions" = Some (PInt c) ->
     c <> 0 ->
     handle Lambda_get_unresolved_concurrent_executions p = (Returned (PInt u), p1) ->
     (c <= u ->
      forall v p2,
        handle (Lambda_put_function_concurrency name (PInt c)) p1 = (Returned v, p2) ->
        set_concurrency name meta p
          = Result (Returned tt) p2
              [ELog DEBUG "Going to set up concurrency executions" [];
               ECall Lambda_get_unresolved_concurrent_executions;
               ECall (Lambda_put_function_concurrency name (PInt c));
               ELog DEBUG "Concurrency is enabled for %s lambda" [PStr name]]) /\
     (u < c ->
      set_concurrency name meta p
        = Result (Returned tt) p1
            [ELog DEBUG "Going to set up concurrency executions" [];
             ECall Lambda_get_unresolved_concurrent_executions;
             ELog WARN
               "Account does not have any unresolved executions. Current size - %s"
               [PInt u]])).
Proof.
  split.
  - intros Hnone. unfold set_concurrency. by rewrite Hnone.
  - intros c u Hc Hnz Hget.
    assert (Hget' : py_get meta "concurrent_executions" = PInt c)
      by (unfold py_get; by rewrite Hc).
    assert (Ht : py_truthy (PInt c) = true)
      by (cbn; apply negb_true_iff; by apply Z.eqb_neq).
    split.
    + intros Hle v p2 Hput. unfold set_concurrency. rewrite Hget', Ht.
      run. cbn [py_le py_int]. apply Z.leb_le in Hle. rewrite Hle. run_simpl.
      rewrite Hput. reflexivity.
    + intros Hlt. unfold set_concurrency. rewrite Hget', Ht.
      run. cbn [py_le py_int]. apply Z.leb_gt in Hlt. rewrite Hlt. reflexivity.
Qed.

(** ** The description of a function *)

(** X9. [describe_lambda], lines 44-49.  The mapping has one entry, keyed
    by the function's identifier, and the response kept in it has lost
    [FunctionArn] from its [Configuration] and nothing else.  A response
    without [Configuration], or a [Configuration] without [FunctionArn],
    gives a [KeyError] on that key. *)
Theorem describe_lambda_strips_arn (name : string) (meta : pydict) (r : pydict) :
  (forall cfg arn,
     r !! "Configuration" = Some (PDict cfg) ->
     cfg !! "FunctionArn" = Some arn ->
     py_hashable arn = true ->
     exists d r' cfg',
       describe_lambda name meta (PDict r) = Returned [(arn, d)] /\
       description d = PDict r' /\
       r' !! "Configuration" = Some (PDict cfg') /\
       cfg' !! "FunctionArn" = None /\
       (forall k, k <> "FunctionArn" -> cfg' !! k = cfg !! k) /\
       (forall k, k <> "Configuration" -> r' !! k = r !! k)) /\
  (r !! "Configuration" = None ->
   describe_lambda name meta (PDict r) = Raised (KeyError (PStr "Configuration"))) /\
  (forall cfg,
     r !! "Configuration" = Some (PDict cfg) ->
     cfg !! "FunctionArn" = None ->
     describe_lambda name meta (PDict r) = Raised (KeyError (PStr "FunctionArn"))).
Proof.
  split; [|split].
  - intros cfg arn Hcfg Harn Hh.
    eexists _, (<["Configuration" := PDict (delete "FunctionArn" cfg)]> r),
      (delete "FunctionArn" cfg).
    unfold describe_lambda, singleton_dict. rewrite Hcfg, Harn, Hh.
    split; [reflexivity|]. split; [reflexivity|].
    split; [by rewrite lookup_insert_eq|].
    split; [by rewrite lookup_delete_eq|].
    split.
    + intros k Hk. by rewrite lookup_delete_ne.
    + intros k Hk. by rewrite lookup_insert_ne.
  - intros Hnone. unfold describe_lambda. by rewrite Hnone.
  - intros cfg Hcfg Hnone. unfold describe_lambda. by rewrite Hcfg, Hnone.
Qed.

(** ** Malformed trigger specs *)

(** X10. Line 119-120.  A spec without [resource_type] raises [KeyError]
    on that key; a spec that is no dictionary raises [TypeError]; a tag
    that is no string is looked up all the same and raises [KeyError] on
    the tag.  In each case no binder runs and nothing is issued. *)
Theorem bind_trigger_malformed_spec (name : string) (lambda_arn role_name : pyval)
    (p : P) :
  (forall d : pydict,
     d !! "resource_type" = None ->
     bind_trigger name lambda_arn role_name (PDict d) p
       = Result (Raised (KeyError (PStr "resource_type"))) p []) /\
  (forall spec,
     (forall d, spec <> PDict d) ->
     bind_trigger name lambda_arn role_name spec p = Result (Raised TypeError) p []) /\
  (forall (d : pydict) tag,
     d !! "resource_type" = Some tag ->
     (forall s, tag <> PStr s) ->
     py_hashable tag = true ->
     bind_trigger name lambda_arn role_name (PDict d) p
       = Result (Raised (KeyError tag)) p []).
Proof.
  split; [|split].
  - intros d Hnone. unfold bind_trigger, dict_getitem, py_getitem. rewrite Hnone.
    reflexivity.
  - intros spec Hnd. destruct spec as [| | | | |d]; try reflexivity. by destruct (Hnd d).
  - intros d tag Htag Hns Hh. unfold bind_trigger, dict_getitem, py_getitem.
    rewrite Htag. rewrite bind_lift_returned.
    destruct tag as [| | |s| |]; try reflexivity; try discriminate.
    by destruct (Hns s).
Qed.

(** X11. The loop over the triggers runs them in order and stops at the
    first that raises: the specs after it are not looked at, and what the
    earlier ones did stays done. *)
Theorem wire_triggers_in_order (name : string) (lambda_arn role_name : pyval)
    (done rest : list pyval) (p : P) :
  (forall e,
     out (wire_triggers name lambda_arn role_name done p) = Raised e ->
     wire_triggers name lambda_arn role_name (done ++ rest) p
       = wire_triggers name lambda_arn role_name done p) /\
  (out (wire_triggers name lambda_arn role_name done p) = Returned tt ->
   wire_triggers name lambda_arn role_name (done ++ rest) p
     = Result
         (out (wire_triggers name lambda_arn role_name rest
                 (st (wire_triggers name lambda_arn role_name done p))))
         (st (wire_triggers name lambda_arn role_name rest
                (st (wire_triggers name lambda_arn role_name done p))))
         (evs (wire_triggers name lambda_arn role_name done p)
            ++ evs (wire_triggers name lambda_arn role_name rest
                      (st (wire_triggers name lambda_arn role_name done p))))).
Proof.
  split.
  - intros e Hraised. rewrite wire_triggers_app. unfold bind.
    destruct (wire_triggers name lambda_arn role_name done p) as [o q ev].
    cbn in Hraised. by subst o.
  - intros Hdone. rewrite wire_triggers_app. unfold bind.
    destruct (wire_triggers name lambda_arn role_name done p) as [o q ev].
    cbn in Hdone. subst o. cbn [out st evs].
    by destruct (wire_triggers name lambda_arn role_name rest q).
Qed.

(** ** The other binders

    Each binder is run under [retry]; the statements below are for runs in
    which the provider takes every call. *)

Ltac under_retry p :=
  match goal with
  | |- retry _ ?f p = ?res =>
      let Hbody := fresh "Hbody" in
      assert (Hbody : f p = res);
      [ unfold bind at 1; unfold lift at 1
      | rewrite (retry_returned _ _ p tt); by rewrite Hbody ]
  end.

(** X12. The table trigger, lines 126-143: the change stream of the table
    is switched on only when it is not on yet, and the function is
    subscribed to the stream's identifier with the spec's batch size,
    from the position LATEST. *)
Theorem dynamodb_trigger_enables_stream_once (lambda_name : string)
    (lambda_arn role_name : pyval) (trigger_meta : pydict)
    (table batch_size enabled : pyval) (p p1 : P) :
  trigger_meta !! "target_table" = Some table ->
  trigger_meta !! "batch_size" = Some batch_size ->
  handle (Dynamodb_is_stream_enabled table) p = (Returned enabled, p1) ->
  (py_truthy enabled = true ->
   forall stream v p2 p3,
     handle (Dynamodb_get_table_stream_arn table) p1 = (Returned stream, p2) ->
     handle (Lambda_add_event_source lambda_name stream batch_size (Some (PStr "LATEST")))
            p2 = (Returned v, p3) ->
     _create_dynamodb_trigger_from_meta lambda_name lambda_arn role_name trigger_meta p
       = Result (Returned tt) p3
           [ECall (Dynamodb_is_stream_enabled table);
            ECall (Dynamodb_get_table_stream_arn table);
            ECall (Lambda_add_event_source lambda_name stream batch_size
                     (Some (PStr "LATEST")));
            ELog INFO "Lambda %s subscribed to dynamodb table %s"
              [PStr lambda_name; table]]) /\
  (py_truthy enabled = false ->
   forall stream v0 v p1' p2 p3,
     handle (Dynamodb_enable_table_stream table) p1 = (Returned v0, p1') ->
     handle (Dynamodb_get_table_stream_arn table) p1' = (Returned stream, p2) ->
     handle (Lambda_add_event_source lambda_name stream batch_size (Some (PStr "LATEST")))
            p2 = (Returned v, p3) ->
     _create_dynamodb_trigger_from_meta lambda_name lambda_arn role_name trigger_meta p
       = Result (Returned tt) p3
           [ECall (Dynamodb_is_stream_enabled table);
            ECall (Dynamodb_enable_table_stream table);
            ECall (Dynamodb_get_table_stream_arn table);
            ECall (Lambda_add_event_source lambda_name stream batch_size
                     (Some (PStr "LATEST")));
            ELog INFO "Lambda %s subscribed to dynamodb table %s"
              [PStr lambda_name; table]]).
Proof.
  intros Htable Hbs Hen.
  assert (Hv : validate_params lambda_name trigger_meta ["target_table"; "batch_size"]
               = Returned tt).
  { apply validate_params_present. intros k [<-|[<-|[]]]; by eexists. }
  split.
  - intros Htrue stream v p2 p3 Harn Hadd.
    unfold _create_dynamodb_trigger_from_meta. under_retry p.
    rewrite Hv. run_simpl. run. reflexivity.
  - intros Hfalse stream v0 v p1' p2 p3 Henable Harn Hadd.
    unfold _create_dynamodb_trigger_from_meta. under_retry p.
    rewrite Hv. run_simpl. run. reflexivity.
Qed.

(** X13. The schedule trigger, lines 167-179: the rule's identifier is
    resolved, the function is made a target of the rule, and the
    scheduler ("events.amazonaws.com") is granted the right to invoke the
    function from the identifier that was resolved; in this order. *)
Theorem cloud_watch_trigger_targets_then_permits (lambda_name : string)
    (lambda_arn role_name : pyval) (trigger_meta : pydict)
    (rule rule_arn v1 v2 : pyval) (p p1 p2 p3 : P) :
  trigger_meta !! "target_rule" = Some rule ->
  handle (CwEvents_get_rule_arn rule) p = (Returned rule_arn, p1) ->
  handle (CwEvents_add_rule_target rule lambda_arn) p1 = (Returned v1, p2) ->
  handle (Lambda_add_invocation_permission lambda_name "events.amazonaws.com" rule_arn) p2
    = (Returned v2, p3) ->
  _create_cloud_watch_trigger_from_meta lambda_name lambda_arn role_name trigger_meta p
    = Result (Returned tt) p3
        [ECall (CwEvents_get_rule_arn rule);
         ECall (CwEvents_add_rule_target rule lambda_arn);
         ECall (Lambda_add_invocation_permission lambda_name "events.amazonaws.com"
                  rule_arn);
         ELog INFO "Lambda %s subscribed to cloudwatch rule %s" [PStr lambda_name; rule]].
Proof.
  intros Hrule Harn Htarget Hperm.
  assert (Hv : validate_params lambda_name trigger_meta ["target_rule"] = Returned tt).
  { apply validate_params_present. intros k [<-|[]]; by eexists. }
  unfold _create_cloud_watch_trigger_from_meta. under_retry p.
  rewrite Hv. run_simpl. run. reflexivity.
Qed.

(** X14. The bucket trigger, lines 182-201: when the bucket is not there
    the binder logs an error and returns, having granted nothing and
    configured nothing; when it is there the storage service
    ("s3.amazonaws.com") is granted the right to invoke the function from
    the bucket's identifier, and then the bucket's notification is
    configured with the spec's events. *)
Theorem s3_trigger_needs_bucket (lambda_name : string) (lambda_arn role_name : pyval)
    (trigger_meta : pydict) (bucket s3_events found : pyval) (p p1 : P) :
  trigger_meta !! "target_bucket" = Some bucket ->
  trigger_meta !! "s3_events" = Some s3_events ->
  handle (S3_is_bucket_exists bucket) p = (Returned found, p1) ->
  (py_truthy found = false ->
   _create_s3_trigger_from_meta lambda_name lambda_arn role_name trigger_meta p
     = Result (Returned tt) p1
         [ECall (S3_is_bucket_exists bucket);
          ELog ERROR
            ("S3 bucket " +:+ format_value bucket +:+ " event source for lambda "
               +:+ lambda_name +:+ " was not created.") []]) /\
  (py_truthy found = true ->
   forall v1 v2 p2 p3,
     handle (Lambda_add_invocation_permission lambda_name "s3.amazonaws.com"
               (PStr ("arn:aws:s3:::" +:+ format_value bucket))) p1 = (Returned v1, p2) ->
     handle (S3_configure_event_source_for_lambda bucket lambda_name s3_events) p2
       = (Returned v2, p3) ->
     _create_s3_trigger_from_meta lambda_name lambda_arn role_name trigger_meta p
       = Result (Returned tt) p3
           [ECall (S3_is_bucket_exists bucket);
            ECall (Lambda_add_invocation_permission lambda_name "s3.amazonaws.com"
                     (PStr ("arn:aws:s3:::" +:+ format_value bucket)));
            ECall (S3_configure_event_source_for_lambda bucket lambda_name s3_events);
            ELog INFO "Lambda %s subscribed to S3 bucket %s" [PStr lambda_name; bucket]]).
Proof.
  intros Hbucket Hevents Hfound.
  assert (Hv : validate_params lambda_name trigger_meta ["target_bucket"; "s3_events"]
               = Returned tt).
  { apply validate_params_present. intros k [<-|[<-|[]]]; by eexists. }
  split.
  - intros Hfalse.
    unfold _create_s3_trigger_from_meta. under_retry p.
    rewrite Hv. run_simpl. run. reflexivity.
  - intros Htrue v1 v2 p2 p3 Hperm Hconf.
    unfold _create_s3_trigger_from_meta. under_retry p.
    rewrite Hv. run_simpl. run. reflexivity.
Qed.

(** X15. The topic trigger, lines 204-214: the subscription is asked for
    with the function's identifier, the topic and the spec's region,
    [None] when the spec names no region. *)
Theorem sns_trigger_region_optional (lambda_name : string) (lambda_arn role_name : pyval)
    (trigger_meta : pydict) (topic v : pyval) (p p1 : P) :
  trigger_meta !! "target_topic" = Some topic ->
  trigger_meta !! "region" = None ->
  handle (Sns_create_sns_subscription_for_lambda lambda_arn topic PNone) p
    = (Returned v, p1) ->
  _create_sns_topic_trigger_from_meta lambda_name lambda_arn role_name trigger_meta p
    = Result (Returned tt) p1
        [ECall (Sns_create_sns_subscription_for_lambda lambda_arn topic PNone);
         ELog INFO "Lambda %s subscribed to sns topic %s" [PStr lambda_name; topic]].
Proof.
  intros Htopic Hregion Hsub.
  assert (Hv : validate_params lambda_name trigger_meta ["target_topic"] = Returned tt).
  { apply validate_params_present. intros k [<-|[]]; by eexists. }
  unfold _create_sns_topic_trigger_from_meta. under_retry p.
  rewrite Hv. run_simpl. unfold py_get. rewrite Hregion. run. reflexivity.
Qed.

(** The policy's name, line 235. *)
Definition kinesis_policy_name (stream_name : pyval) (lambda_name : string) : string :=
  format_value stream_name +:+ "KinesisTo" +:+ lambda_name +:+ "Lambda".

Lemma add_kinesis_event_source_run (lambda_name : string) (stream_arn : pyval)
    (trigger_meta : pydict) (batch_size starting_position v : pyval) (p p1 : P) :
  trigger_meta !! "batch_size" = Some batch_size ->
  trigger_meta !! "starting_position" = Some starting_position ->
  handle (Lambda_add_event_source lambda_name stream_arn batch_size
            (Some starting_position)) p = (Returned v, p1) ->
  _add_kinesis_event_source lambda_name stream_arn trigger_meta p
    = Result (Returned tt) p1
        [ECall (Lambda_add_event_source lambda_name stream_arn batch_size
                  (Some starting_position))].
Proof.
  intros Hbs Hsp Hadd. unfold _add_kinesis_event_source.
  match goal with
  | |- retry _ ?f p = ?res => assert (Hbody : f p = res)
  end.
  { run. reflexivity. }
  rewrite (retry_returned _ _ p tt); by rewrite Hbody.
Qed.

(** X16. The stream trigger, lines 217-278.  For a stream that is not
    ACTIVE the binder waits 120 seconds once and goes on without asking
    for the status again.  Then, as for an ACTIVE stream: the inline
    policy named after the stream and the function is attached to the
    role, the binder waits 10 seconds, and the function is subscribed to
    the stream's identifier with the spec's batch size and starting
    position.  The policy is attached before the subscription. *)
Theorem kinesis_trigger_waits_once (lambda_name : string) (lambda_arn role_name : pyval)
    (trigger_meta r sd : pydict)
    (stream_name batch_size starting_position stream_arn status : pyval) (p p1 : P) :
  trigger_meta !! "target_stream" = Some stream_name ->
  trigger_meta !! "batch_size" = Some batch_size ->
  trigger_meta !! "starting_position" = Some starting_position ->
  handle (Kinesis_get_stream stream_name) p = (Returned (PDict r), p1) ->
  r !! "StreamDescription" = Some (PDict sd) ->
  sd !! "StreamARN" = Some stream_arn ->
  sd !! "StreamStatus" = Some status ->
  let policy_name := kinesis_policy_name stream_name lambda_name in
  let attach :=
    Iam_attach_inline_policy role_name policy_name
      (kinesis_policy_document lambda_arn stream_arn) in
  let subscribe :=
    Lambda_add_event_source lambda_name stream_arn batch_size (Some starting_position) in
  let tail :=
    [ECall attach;
     ELog DEBUG "Inline policy %s is attached to role %s" [PStr policy_name; role_name];
     ELog DEBUG "Waiting for activation policy %s..." [PStr policy_name];
     ECall (Time_sleep 10);
     ECall subscribe;
     ELog INFO "Lambda %s subscribed to kinesis stream %s" [PStr lambda_name; stream_name]]
  in
  (py_eq_str status "ACTIVE" = true ->
   forall v2 v3 v4 p2 p3 p4,
     handle attach p1 = (Returned v2, p2) ->
     handle (Time_sleep 10) p2 = (Returned v3, p3) ->
     handle subscribe p3 = (Returned v4, p4) ->
     _create_kinesis_stream_trigger_from_meta lambda_name lambda_arn role_name
         trigger_meta p
       = Result (Returned tt) p4 (ECall (Kinesis_get_stream stream_name) :: tail)) /\
  (py_eq_str status "ACTIVE" = false ->
   forall v1 v2 v3 v4 p1' p2 p3 p4,
     handle (Time_sleep 120) p1 = (Returned v1, p1') ->
     handle attach p1' = (Returned v2, p2) ->
     handle (Time_sleep 10) p2 = (Returned v3, p3) ->
     handle subscribe p3 = (Returned v4, p4) ->
     _create_kinesis_stream_trigger_from_meta lambda_name lambda_arn role_name
         trigger_meta p
       = Result (Returned tt) p4
           (ECall (Kinesis_get_stream stream_name)
              :: ELog DEBUG
                   "Kinesis stream %s is not in active state, waiting for activation..."
                   [stream_name]
              :: ECall (Time_sleep 120) :: tail)).
Proof.
  intros Hname Hbs Hsp Hget Hsd Harn Hstatus policy_name attach subscribe tail.
  assert (Hv : validate_params lambda_name trigger_meta
                 ["target_stream"; "batch_size"; "starting_position"] = Returned tt).
  { apply validate_params_present. intros k [<-|[<-|[<-|[]]]]; by eexists. }
  subst policy_name attach subscribe tail. unfold kinesis_policy_name. split.
  - intros Hactive v2 v3 v4 p2 p3 p4 Hattach Hsleep Hadd.
    pose proof (add_kinesis_event_source_run lambda_name stream_arn trigger_meta
                  batch_size starting_position v4 p3 p4 Hbs Hsp Hadd) as Hsub.
    unfold _create_kinesis_stream_trigger_from_meta. under_retry p.
    rewrite Hv. run_simpl. run. rewrite Hsub. reflexivity.
  - intros Hactive v1 v2 v3 v4 p1' p2 p3 p4 Hwait Hattach Hsleep Hadd.
    pose proof (add_kinesis_event_source_run lambda_name stream_arn trigger_meta
                  batch_size starting_position v4 p3 p4 Hbs Hsp Hadd) as Hsub.
    unfold _create_kinesis_stream_trigger_from_meta. under_retry p.
    rewrite Hv. run_simpl. run. rewrite Hsub. reflexivity.
Qed.

(** ** The stream reconciler and remover *)

(** X17. A stream that is not found is created with the shard count of
    [meta], then read again, and the description of that second read
    comes back under its identifier. *)
Theorem kinesis_absent_is_created (name : string) (meta : pydict) (p p1 p2 p3 : P)
    (absent shard_count v arn : pyval) (r : pydict) :
  handle (Kinesis_get_stream (PStr name)) p = (Returned absent, p1) ->
  py_truthy absent = false ->
  meta !! "shard_count" = Some shard_count ->
  handle (Kinesis_create_stream name shard_count) p1 = (Returned v, p2) ->
  handle (Kinesis_get_stream (PStr name)) p2 = (Returned (PDict r), p3) ->
  r !! "StreamARN" = Some arn ->
  py_hashable arn = true ->
  _create_kinesis_stream_from_meta name meta p
    = Result (Returned [(arn, build_description_obj (PDict r) name meta)]) p3
        [ECall (Kinesis_get_stream (PStr name));
         ECall (Kinesis_create_stream name shard_count);
         ELog INFO "Created kinesis stream %s." [PStr name];
         ECall (Kinesis_get_stream (PStr name))].
Proof.
  intros Hget Habsent Hsc Hcreate Hget2 Harn Hh.
  unfold _create_kinesis_stream_from_meta. run. by rewrite Hh.
Qed.

(** X18. Without [shard_count] in [meta], a stream that is not found
    makes the reconciler raise [KeyError] on that key after the lookup
    and before any create call; a stream that is found in a status other
    than DELETING is described all the same. *)
Theorem kinesis_missing_shard_count (name : string) (meta : pydict) (p p1 : P)
    (response : pyval) :
  meta !! "shard_count" = None ->
  handle (Kinesis_get_stream (PStr name)) p = (Returned response, p1) ->
  (py_truthy response = false ->
   _create_kinesis_stream_from_meta name meta p
     = Result (Raised (KeyError (PStr "shard_count"))) p1
         [ECall (Kinesis_get_stream (PStr name))]) /\
  (forall (r sd : pydict) status arn,
     response = PDict r ->
     r !! "StreamDescription" = Some (PDict sd) ->
     sd !! "StreamStatus" = Some status ->
     py_eq_str status "DELETING" = false ->
     r !! "StreamARN" = Some arn ->
     py_hashable arn = true ->
     out (_create_kinesis_stream_from_meta name meta p)
       = Returned [(arn, build_description_obj response name meta)]).
Proof.
  intros Hsc Hget. split.
  - intros Habsent. unfold _create_kinesis_stream_from_meta. run. reflexivity.
  - intros r sd status arn -> Hsd Hstatus Hdel Harn Hh.
    pose proof (py_truthy_dict r _ _ Hsd) as Ht.
    by rewrite (kinesis_existing_short_circuits name meta p p1 r sd status arn).
Qed.

(** X19. The status is read from [response['StreamDescription']] and the
    identifier from [response['StreamARN']]: a stream that is found with
    its identifier only inside [StreamDescription] makes the reconciler
    raise [KeyError] on StreamARN after the warning, with no create
    call. *)
Theorem kinesis_arn_read_at_top_level (name : string) (meta : pydict) (p p1 : P)
    (r sd : pydict) (status arn : pyval) :
  handle (Kinesis_get_stream (PStr name)) p = (Returned (PDict r), p1) ->
  r !! "StreamDescription" = Some (PDict sd) ->
  sd !! "StreamStatus" = Some status ->
  py_eq_str status "DELETING" = false ->
  sd !! "StreamARN" = Some arn ->
  r !! "StreamARN" = None ->
  _create_kinesis_stream_from_meta name meta p
    = Result (Raised (KeyError (PStr "StreamARN"))) p1
        [ECall (Kinesis_get_stream (PStr name));
         ELog WARN "%s kinesis stream exists" [PStr name]].
Proof.
  intros Hget Hsd Hstatus Hdel Harn Hnone.
  pose proof (py_truthy_dict r _ _ Hsd) as Ht.
  unfold _create_kinesis_stream_from_meta. run. reflexivity.
Qed.

(** X20. The stream remover: a removal the provider takes is one call and
    the record "was removed"; a [config] without [resource_name] raises
    [KeyError] before any call; and an exception of the provider that is
    no [ClientError] passes through as it is, with no record of it. *)
Theorem remove_kinesis_stream_paths (arn : pyval) (config : pydict) (p p1 : P) :
  (forall stream_name v,
     config !! "resource_name" = Some stream_name ->
     handle (Kinesis_remove_stream stream_name) p = (Returned v, p1) ->
     _remove_kinesis_stream arn config p
       = Result (Returned tt) p1
           [ECall (Kinesis_remove_stream stream_name);
            ELog INFO "Kinesis stream %s was removed." [stream_name]]) /\
  (config !! "resource_name" = None ->
   _remove_kinesis_stream arn config p
     = Result (Raised (KeyError (PStr "resource_name"))) p []) /\
  (forall stream_name e,
     config !! "resource_name" = Some stream_name ->
     handle (Kinesis_remove_stream stream_name) p = (Raised e, p1) ->
     (forall code msg, e <> ClientError code msg) ->
     _remove_kinesis_stream arn config p
       = Result (Raised e) p1 [ECall (Kinesis_remove_stream stream_name)]).
Proof.
  split; [|split].
  - intros stream_name v Hn Hrm. unfold _remove_kinesis_stream. run. reflexivity.
  - intros Hnone. unfold _remove_kinesis_stream. run. reflexivity.
  - intros stream_name e Hn Hrm Hne. unfold _remove_kinesis_stream. run.
    destruct e as [| | | | |code msg]; try reflexivity. by destruct (Hne code msg).
Qed.

(** ** The function remover *)

(** The loop over the group names stops at the first delete call that
    raises: the groups before it that do not match are passed over, the
    groups after it are not looked at. *)
Lemma delete_log_groups_stops (lambda_name : pyval) (before rest : list pyval)
    (s : string) (e : exn) (p p1 : P) :
  Forall is_str before ->
  List.filter (log_group_matches lambda_name) before = [] ->
  lambda_name = PStr (last_segment s) ->
  handle (CwLogs_delete_log_group_name (PStr s)) p = (Raised e, p1) ->
  delete_log_groups lambda_name (before ++ PStr s :: rest) p
    = Result (Raised e) p1 [ECall (CwLogs_delete_log_group_name (PStr s))].
Proof.
  intros Hstr Hnone -> Hdel.
  induction Hstr as [|each before [s' ->] _ IH].
  - cbn [app delete_log_groups]. unfold bind, lift, invoke. cbn [py_last_segment].
    run_simpl. cbn [py_eq_str]. rewrite String.eqb_refl, Hdel. reflexivity.
  - cbn [List.filter log_group_matches] in Hnone.
    change ((PStr s' :: before) ++ PStr s :: rest)
      with (PStr s' :: (before ++ PStr s :: rest)).
    cbn [delete_log_groups]. unfold bind at 1 2. unfold lift at 1.
    cbn [py_last_segment]. run_simpl.
    destruct (py_eq_str (PStr (last_segment s)) (last_segment s')) eqn:Hm;
      [discriminate|].
    unfold ret at 1. run_simpl. rewrite (IH Hnone). reflexivity.
Qed.

(** X21. A log group that is gone ends the removal early.  When the
    function and its trigger bindings are removed and the delete call of
    the first matching log group raises the not-found error, the removal
    returns with the warning that the function is not found: the groups
    after it, matching or not, are left alone, and "was removed" is not
    recorded. *)
Theorem remove_lambda_log_group_gone (arn : pyval) (config : pydict)
    (p p1 p2 p3 p4 : P) (lambda_name v1 v2 : pyval) (before rest : list pyval)
    (s msg : string) :
  config !! "resource_name" = Some lambda_name ->
  handle (Lambda_delete_lambda lambda_name) p = (Returned v1, p1) ->
  handle (Lambda_remove_trigger lambda_name) p1 = (Returned v2, p2) ->
  handle CwLogs_get_log_group_names p2
    = (Returned (PList (before ++ PStr s :: rest)), p3) ->
  Forall is_str before ->
  List.filter (log_group_matches lambda_name) before = [] ->
  lambda_name = PStr (last_segment s) ->
  handle (CwLogs_delete_log_group_name (PStr s)) p3
    = (Raised (ClientError "ResourceNotFoundException" msg), p4) ->
  _remove_lambda arn config p
    = Result (Returned tt) p4
        [ECall (Lambda_delete_lambda lambda_name);
         ECall (Lambda_remove_trigger lambda_name);
         ECall CwLogs_get_log_group_names;
         ECall (CwLogs_delete_log_group_name (PStr s));
         ELog WARN "Lambda %s is not found" [lambda_name]].
Proof.
  intros Hn H1 H2 H3 Hstr Hnone Hname Hdel.
  pose proof (delete_log_groups_stops lambda_name before rest s _ p3 p4
                Hstr Hnone Hname Hdel) as Hloop.
  assert (Htry : _remove_lambda_try lambda_name p
                 = Result (Raised (ClientError "ResourceNotFoundException" msg)) p4
                     [ECall (Lambda_delete_lambda lambda_name);
                      ECall (Lambda_remove_trigger lambda_name);
                      ECall CwLogs_get_log_group_names;
                      ECall (CwLogs_delete_log_group_name (PStr s))]).
  { unfold _remove_lambda_try. run. cbn [py_iter]. run_simpl.
    rewrite Hloop. reflexivity. }
  assert (Hb : _remove_lambda_body arn config p
               = Result (Returned tt) p4
                   [ECall (Lambda_delete_lambda lambda_name);
                    ECall (Lambda_remove_trigger lambda_name);
                    ECall CwLogs_get_log_group_names;
                    ECall (CwLogs_delete_log_group_name (PStr s));
                    ELog WARN "Lambda %s is not found" [lambda_name]]).
  { rewrite (remove_lambda_body_not_found arn config p lambda_name msg Hn);
      by rewrite Htry. }
  unfold _remove_lambda. rewrite (retry_returned _ _ p tt); by rewrite Hb.
Qed.

(** X22. The [except] clause of the function remover catches provider
    errors only.  A [config] without [resource_name] raises [KeyError]
    before any call, and a listing of log groups that holds a name that
    is no string raises [AttributeError] after the function is deleted;
    in both cases no warning is recorded, and the exception leaves the
    remover when the decorator does not retry it. *)
Theorem remove_lambda_other_exceptions (arn : pyval) (config : pydict) (p : P) :
  (config !! "resource_name" = None ->
   _remove_lambda_body arn config p
     = Result (Raised (KeyError (PStr "resource_name"))) p [] /\
   (retried (KeyError (PStr "resource_name")) = false ->
    out (_remove_lambda arn config p) = Raised (KeyError (PStr "resource_name")))) /\
  (forall lambda_name v1 v2 p1 p2 p3 each rest,
     config !! "resource_name" = Some lambda_name ->
     handle (Lambda_delete_lambda lambda_name) p = (Returned v1, p1) ->
     handle (Lambda_remove_trigger lambda_name) p1 = (Returned v2, p2) ->
     handle CwLogs_get_log_group_names p2 = (Returned (PList (each :: rest)), p3) ->
     ~ is_str each ->
     _remove_lambda_body arn config p
       = Result (Raised AttributeError) p3
           [ECall (Lambda_delete_lambda lambda_name);
            ECall (Lambda_remove_trigger lambda_name);
            ECall CwLogs_get_log_group_names] /\
     (retried AttributeError = false ->
      out (_remove_lambda arn config p) = Raised AttributeError)).
Proof.
  split.
  - intros Hnone.
    assert (Hb : _remove_lambda_body arn config p
                 = Result (Raised (KeyError (PStr "resource_name"))) p []).
    { unfold _remove_lambda_body. run. reflexivity. }
    split; [done|]. intros Hnot. unfold _remove_lambda.
    apply retry_raised; [by rewrite Hb | done].
  - intros lambda_name v1 v2 p1 p2 p3 each rest Hn H1 H2 H3 Hnostr.
    assert (Hseg : py_last_segment each = Raised AttributeError).
    { destruct each; try reflexivity. destruct Hnostr. by eexists. }
    assert (Hb : _remove_lambda_body arn config p
                 = Result (Raised AttributeError) p3
                     [ECall (Lambda_delete_lambda lambda_name);
                      ECall (Lambda_remove_trigger lambda_name);
                      ECall CwLogs_get_log_group_names]).
    { unfold _remove_lambda_body, _remove_lambda_try. run. cbn [py_iter]. run_simpl.
      cbn [delete_log_groups]. run. rewrite Hseg. reflexivity. }
    split; [done|]. intros Hnot. unfold _remove_lambda.
    apply retry_raised; [by rewrite Hb | done].
Qed.

End Resources.

(** * A provider to run against

    A small cloud: what is deployed, and what somebody else does to it
    while we work (one entry of [cl_others] per facade call: the stream
    that gets deleted behind our back just before the call is answered). *)

Record cloud : Type := Cloud {
  cl_files : list string;
  cl_functions : list string;
  cl_roles : list string;
  cl_streams : list (string * (string * Z));
  cl_queues : list string;
  cl_log_groups : list string;
  cl_denied : bool;
  cl_others : list (option string)
}.

Definition has (n : string) (l : list string) : bool := existsb (String.eqb n) l.

Definition without (n : string) (l : list string) : list string :=
  List.filter (fun m => negb (String.eqb n m)) l.

(** A stream and its status; a status comes with the seconds it lasts. *)
Fixpoint stream_status (n : string) (l : list (string * (string * Z)))
    : option (string * Z) :=
  match l with
  | [] => None
  | (m, s) :: l' => if String.eqb n m then Some s else stream_status n l'
  end.

Fixpoint set_stream (n : string) (s : string * Z) (l : list (string * (string * Z)))
    : list (string * (string * Z)) :=
  match l with
  | [] => [(n, s)]
  | (m, s') :: l' => if String.eqb n m then (m, s) :: l' else (m, s') :: set_stream n s l'
  end.

(** Deleting a stream takes 300 seconds. *)
Definition mark_deleting (n : string) (l : list (string * (string * Z)))
    : list (string * (string * Z)) :=
  match stream_status n l with
  | Some _ => set_stream n ("DELETING", 300) l
  | None => l
  end.

(** Time passes: a stream under deletion is gone when its time is up. *)
Fixpoint elapse (seconds : Z) (l : list (string * (string * Z)))
    : list (string * (string * Z)) :=
  match l with
  | [] => []
  | (m, (status, remaining)) :: l' =>
      if String.eqb status "DELETING" then
        if remaining <=? seconds then elapse seconds l'
        else (m, (status, remaining - seconds)) :: elapse seconds l'
      else (m, (status, remaining)) :: elapse seconds l'
  end.

(** What somebody else does just before our call is answered. *)
Definition others_act (c : cloud) : cloud :=
  match cl_others c with
  | [] => c
  | act :: later =>
      let streams :=
        match act with
        | Some n => mark_deleting n (cl_streams c)
        | None => cl_streams c
        end in
      Cloud (cl_files c) (cl_functions c) (cl_roles c) streams (cl_queues c)
        (cl_log_groups c) (cl_denied c) later
  end.

Definition function_arn (n : string) : string :=
  "arn:aws:lambda:eu-west-1:123456789012:function:" +:+ n.

Definition function_configuration (n : string) : pydict :=
  list_to_map [ ("FunctionArn", PStr (function_arn n)); ("FunctionName", PStr n) ].

Definition function_dict (n : string) : pydict :=
  list_to_map [ ("Configuration", PDict (function_configuration n)) ].

Definition function_response (n : string) : pyval := PDict (function_dict n).

Definition stream_arn (n : string) : string :=
  "arn:aws:kinesis:eu-west-1:123456789012:stream/" +:+ n.

Definition stream_description (n status : string) : pydict :=
  list_to_map
    [ ("StreamARN", PStr (stream_arn n));
      ("StreamName", PStr n);
      ("StreamStatus", PStr status) ].

Definition stream_dict (n status : string) : pydict :=
  list_to_map
    [ ("StreamARN", PStr (stream_arn n));
      ("StreamDescription", PDict (stream_description n status)) ].

Definition stream_response (n status : string) : pyval := PDict (stream_dict n status).

Definition str_of (v : pyval) : string :=
  match v with
  | PStr s => s
  | _ => EmptyString
  end.

Definition access_denied : exn := ClientError "AccessDeniedException" "not authorized".
Definition not_found : exn := ClientError "ResourceNotFoundException" "no such resource".

Definition answer (c : call) (w : cloud) : outcome pyval * cloud :=
  match c with
  | S3_is_file_exists _ key => (Returned (PBool (has (str_of key) (cl_files w))), w)
  | Lambda_get_function n =>
      (Returned (if has n (cl_functions w) then function_response n else PNone), w)
  | Lambda_create_lambda args =>
      (Returned PNone,
       Cloud (cl_files w) (lambda_name args :: cl_functions w) (cl_roles w) (cl_streams w)
         (cl_queues w) (cl_log_groups w) (cl_denied w) (cl_others w))
  | Lambda_delete_lambda n =>
      if cl_denied w then (Raised access_denied, w)
      else if has (str_of n) (cl_functions w) then
        (Returned PNone,
         Cloud (cl_files w) (without (str_of n) (cl_functions w)) (cl_roles w)
           (cl_streams w) (cl_queues w) (cl_log_groups w) (cl_denied w) (cl_others w))
      else (Raised not_found, w)
  | Iam_check_if_role_exists r =>
      (Returned (if has (str_of r) (cl_roles w)
                 then PStr ("arn:aws:iam::123456789012:role/" +:+ str_of r) else PNone), w)
  | Sqs_get_queue_url q _ =>
      (Returned (if has (str_of q) (cl_queues w)
                 then PStr ("https://sqs.eu-west-1.amazonaws.com/123456789012/" +:+ str_of q)
                 else PNone), w)
  | CwLogs_get_log_group_names => (Returned (PList (PStr <$> cl_log_groups w)), w)
  | CwLogs_delete_log_group_name g =>
      (Returned PNone,
       Cloud (cl_files w) (cl_functions w) (cl_roles w) (cl_streams w) (cl_queues w)
         (without (str_of g) (cl_log_groups w)) (cl_denied w) (cl_others w))
  | Kinesis_get_stream n =>
      (Returned match stream_status (str_of n) (cl_streams w) with
                | Some (status, _) => stream_response (str_of n) status
                | None => PNone
                end, w)
  | Kinesis_create_stream n _ =>
      match stream_status n (cl_streams w) with
      | Some _ => (Raised (ClientError "ResourceInUseException" "stream exists"), w)
      | None =>
          (Returned PNone,
           Cloud (cl_files w) (cl_functions w) (cl_roles w)
             (set_stream n ("ACTIVE", 0) (cl_streams w)) (cl_queues w) (cl_log_groups w)
             (cl_denied w) (cl_others w))
      end
  | Kinesis_remove_stream n =>
      if cl_denied w then (Raised access_denied, w)
      else match stream_status (str_of n) (cl_streams w) with
           | Some _ =>
               (Returned PNone,
                Cloud (cl_files w) (cl_functions w) (cl_roles w)
                  (mark_deleting (str_of n) (cl_streams w)) (cl_queues w) (cl_log_groups w)
                  (cl_denied w) (cl_others w))
           | None => (Raised not_found, w)
           end
  | Time_sleep seconds =>
      (Returned PNone,
       Cloud (cl_files w) (cl_functions w) (cl_roles w) (elapse seconds (cl_streams w))
         (cl_queues w) (cl_log_groups w) (cl_denied w) (cl_others w))
  | _ => (Returned PNone, w)
  end.

Definition cloud_handle (c : call) (w : cloud) : outcome pyval * cloud :=
  answer c (others_act w).

(** A [retry] that runs the function again, up to [n] more times, on the
    exceptions [retried] picks. *)
Fixpoint retry_upto (n : nat) (retried : exn -> bool) (A : Type) (f : M cloud A)
    : M cloud A :=
  fun w =>
    match f w with
    | Result (Raised e) w1 evs1 =>
        match n with
        | S n' =>
            if retried e then
              match retry_upto n' retried A f w1 with
              | Result o w2 evs2 => Result o w2 (evs1 ++ evs2)
              end
            else Result (Raised e) w1 evs1
        | O => Result (Raised e) w1 evs1
        end
    | r => r
    end.

Definition throttled (e : exn) : bool :=
  match e with
  | ClientError code _ => String.eqb code "ThrottlingException"
  | _ => false
  end.

Definition retry3 : forall A : Type, M cloud A -> M cloud A := retry_upto 3 throttled.

(** The two modules against that cloud. *)
Definition the_bucket : string := "deploy-bucket".
Definition the_region : string := "eu-west-1".
Definition the_account : string := "123456789012".
Definition the_s3_path : string := "s3_path".

Definition sy_create_lambda : string -> pydict -> M cloud deployment :=
  _create_lambda_from_meta cloud_handle the_bucket the_region the_account the_s3_path
    str_of retry3.

Definition sy_create_stream : string -> pydict -> M cloud deployment :=
  _create_kinesis_stream_from_meta cloud_handle.

Definition sy_remove_lambda : pyval -> pydict -> M cloud unit :=
  _remove_lambda cloud_handle retry3.

Definition sy_remove_stream : pyval -> pydict -> M cloud unit :=
  _remove_kinesis_stream cloud_handle.

Definition sy_sqs_trigger : string -> pyval -> pyval -> pydict -> M cloud unit :=
  _create_sqs_trigger_from_meta cloud_handle the_region the_account str_of retry3.

(** An empty account with the artifact uploaded and the role in place. *)
Definition cloud0 : cloud :=
  Cloud ["fn1.zip"] [] ["role1"] [] ["q1"] [] false [].

(** The function [fn1] deployed, with log groups around. *)
Definition cloud_fn1 : cloud :=
  Cloud ["fn1.zip"] ["fn1"] ["role1"] [] ["q1"]
    ["/aws/lambda/fn1"; "/aws/lambda/myfn1"; "/aws/lambda/other"; "fn1"] false [].


Definition queue_spec : pydict :=
  list_to_map
    [ ("resource_type", PStr "sqs_trigger");
      ("target_queue", PStr "q1");
      ("batch_size", PInt 10) ].

(** The descriptor of the spec's scenario, as it is written there. *)
Definition scenario_meta : pydict :=
  list_to_map
    [ ("runtime", PStr "lang1");
      ("memory", PInt 128);
      ("timeout", PInt 30);
      ("func_name", PStr "handler");
      ("event_sources", PList [PDict queue_spec]) ].

(** The same with the role and without the artifact path. *)
Definition meta_no_artifact : pydict :=
  <["iam_role_name" := PStr "role1"]> scenario_meta.

(** A descriptor that can be deployed. *)
Definition meta_fn1 : pydict :=
  <["s3_path" := PStr "fn1.zip"]> meta_no_artifact.

Definition config_of (name : string) : pydict :=
  list_to_map [ ("resource_name", PStr name) ].

Lemma retry3_returned (A : Type) (f : M cloud A) (w : cloud) (a : A) :
  out (f w) = Returned a -> retry3 A f w = f w.
Proof.
  intros Ho. unfold retry3. cbn [retry_upto].
  destruct (f w) as [o w1 ev]. cbn in Ho. by subst o.
Qed.

Lemma retry3_raised (A : Type) (f : M cloud A) (w : cloud) (e : exn) :
  out (f w) = Raised e -> throttled e = false -> out (retry3 A f w) = Raised e.
Proof.
  intros Ho He. unfold retry3. cbn [retry_upto].
  destruct (f w) as [o w1 ev]. cbn in Ho. subst o. by rewrite He.
Qed.

(** * The theorems at work *)

(** The spec's scenario descriptor names no role: validation stops it. *)
Lemma C2_witness :
  exists k, out (sy_create_lambda "fn1" scenario_meta cloud0)
              = Raised (ValidationError "fn1" k) /\
            evs (sy_create_lambda "fn1" scenario_meta cloud0) = [].
Proof.
  destruct (C2_validation_first cloud_handle the_bucket the_region the_account
              the_s3_path str_of retry3 "fn1" scenario_meta cloud0)
    as (k & _ & _ & Ho & He & _).
  - exists "iam_role_name". split; [cbn; tauto | vm_compute; reflexivity].
  - exists k. split; [exact Ho | exact He].
Defined.

Lemma C9_witness :
  out (sy_create_lambda "fn1" meta_no_artifact cloud0) = Raised (KeyError (PStr "s3_path")) /\
  evs (sy_create_lambda "fn1" meta_no_artifact cloud0) = [].
Proof.
  destruct (C9_missing_artifact_key cloud_handle the_bucket the_region the_account
              the_s3_path str_of retry3 "fn1" meta_no_artifact cloud0)
    as (Ho & _ & He & _).
  - intros k Hin. cbn in Hin.
    repeat (destruct Hin as [<-|Hin]; [vm_compute; by eexists|]). done.
  - vm_compute; reflexivity.
  - split; [exact Ho | exact He].
Defined.


Lemma C10_witness :
  out (sy_remove_lambda PNone (config_of "gone") cloud_fn1) = Returned tt /\
  calls_of (evs (sy_remove_lambda PNone (config_of "gone") cloud_fn1))
    = [Lambda_delete_lambda (PStr "gone")].
Proof.
  destruct (C10_cleanup_skipped_when_gone cloud_handle retry3 retry3_returned PNone
              (config_of "gone") cloud_fn1 cloud_fn1 (PStr "gone") "no such resource"
              eq_refl eq_refl)
    as (Ho & _ & Hc & _).
  split; [exact Ho | exact Hc].
Defined.

Lemma C7_witness :
  out (sy_remove_lambda PNone (config_of "fn1") cloud_fn1) = Returned tt /\
  calls_of (evs (sy_remove_lambda PNone (config_of "fn1") cloud_fn1))
    = [Lambda_delete_lambda (PStr "fn1");
       Lambda_remove_trigger (PStr "fn1");
       CwLogs_get_log_group_names;
       CwLogs_delete_log_group_name (PStr "/aws/lambda/fn1");
       CwLogs_delete_log_group_name (PStr "fn1")].
Proof.
  destruct (C7_log_groups_by_last_segment cloud_handle str_of retry3 retry3_returned PNone
              (config_of "fn1") cloud_fn1
              (snd (cloud_handle (Lambda_delete_lambda (PStr "fn1")) cloud_fn1))
              (snd (cloud_handle (Lambda_delete_lambda (PStr "fn1")) cloud_fn1))
              (snd (cloud_handle (Lambda_delete_lambda (PStr "fn1")) cloud_fn1))
              (PStr "fn1") PNone PNone
              (PStr <$> ["/aws/lambda/fn1"; "/aws/lambda/myfn1"; "/aws/lambda/other"; "fn1"])
              eq_refl eq_refl eq_refl eq_refl)
    as (Ho & Hc & _).
  - repeat constructor; by eexists.
  - cbn. do 2 eexists. split; [reflexivity|]. cbn. do 2 eexists.
    split; [reflexivity | exact I].
  - split; [exact Ho | exact Hc].
Defined.

(** The stream [s1], in service and under deletion. *)
Definition cloud_s1_active : cloud :=
  Cloud [] [] [] [("s1", ("ACTIVE", 0))] [] [] false [].

Definition cloud_s1_deleting : cloud :=
  Cloud [] [] [] [("s1", ("DELETING", 300))] [] [] false [].

Definition meta_s1 : pydict := list_to_map [ ("shard_count", PInt 1) ].

Lemma C3_witness :
  sy_create_stream "s1" meta_s1 cloud_s1_active
    = Result
        (Returned
           [(PStr (stream_arn "s1"),
             build_description_obj (stream_response "s1" "ACTIVE") "s1" meta_s1)])
        cloud_s1_active
        [ECall (Kinesis_get_stream (PStr "s1"));
         ELog WARN "%s kinesis stream exists" [PStr "s1"]] /\
  exists rest,
    evs (sy_create_stream "s1" meta_s1 cloud_s1_deleting)
      = [ECall (Kinesis_get_stream (PStr "s1"));
         ELog DEBUG "Waiting for deletion kinesis stream %s..." [PStr "s1"];
         ECall (Time_sleep 120);
         ECall (Kinesis_create_stream "s1" (PInt 1))] ++ rest.
Proof.
  destruct (C3_stream_state_handling cloud_handle "s1" meta_s1 cloud_s1_active
              cloud_s1_active (stream_dict "s1" "ACTIVE")
              (stream_description "s1" "ACTIVE") (PStr "ACTIVE")
              eq_refl eq_refl eq_refl) as [Hactive _].
  destruct (C3_stream_state_handling cloud_handle "s1" meta_s1 cloud_s1_deleting
              cloud_s1_deleting (stream_dict "s1" "DELETING")
              (stream_description "s1" "DELETING") (PStr "DELETING")
              eq_refl eq_refl eq_refl) as [_ Hdeleting].
  split.
  - apply (Hactive eq_refl (PStr (stream_arn "s1")) eq_refl eq_refl).
  - apply (Hdeleting eq_refl
             (snd (cloud_handle (Time_sleep 120) cloud_s1_deleting))
             (snd (cloud_handle (Time_sleep 120) cloud_s1_deleting))
             PNone (PInt 1)
             (Raised (ClientError "ResourceInUseException" "stream exists"))
             eq_refl eq_refl eq_refl).
Defined.

(** The spec's words for the stream under deletion: between a wait and a
    create call the state is looked at again. *)
Fixpoint rechecked_before_create (waited : bool) (calls : list call) : bool :=
  match calls with
  | [] => true
  | Time_sleep _ :: later => rechecked_before_create true later
  | Kinesis_get_stream _ :: later => rechecked_before_create false later
  | Kinesis_create_stream _ _ :: later =>
      negb waited && rechecked_before_create waited later
  | _ :: later => rechecked_before_create waited later
  end.

Definition C3_recheck_as_stated : Prop :=
  forall (P : Type) (handle : call -> P -> outcome pyval * P) (name : string)
         (meta : pydict) (p p1 : P) (r sd : pydict),
    handle (Kinesis_get_stream (PStr name)) p = (Returned (PDict r), p1) ->
    r !! "StreamDescription" = Some (PDict sd) ->
    sd !! "StreamStatus" = Some (PStr "DELETING") ->
    rechecked_before_create false
      (calls_of (evs (_create_kinesis_stream_from_meta handle name meta p))) = true.

(** The stream is found under deletion, the run sleeps and asks for the
    create without looking again; here the stream is still under
    deletion then, and the provider refuses. *)
Lemma C3_counterexample : ~ C3_recheck_as_stated.
Proof.
  intros Hclaim.
  specialize (Hclaim cloud cloud_handle "s1" meta_s1 cloud_s1_deleting cloud_s1_deleting
                (stream_dict "s1" "DELETING") (stream_description "s1" "DELETING")
                eq_refl eq_refl eq_refl).
  vm_compute in Hclaim. discriminate.
Qed.

(** ** Two runs on the account with nobody else at work

    [answer] is the cloud with nobody else acting: what it reports stays
    until a call removes it. *)

Lemma answer_files (c : call) (w : cloud) : cl_files (snd (answer c w)) = cl_files w.
Proof.
  destruct c; cbn; try reflexivity;
    repeat match goal with
           | |- context [if ?b then _ else _] => destruct b
           | |- context [match ?x with _ => _ end] => destruct x
           end;
    reflexivity.
Qed.

Lemma answer_functions (c : call) (w : cloud) (n : string) :
  is_removal c = false ->
  has n (cl_functions w) = true ->
  has n (cl_functions (snd (answer c w))) = true.
Proof.
  intros Hc Hn. destruct c; try discriminate Hc; cbn; try assumption;
    repeat match goal with
           | |- context [if ?b then _ else _] => destruct b
           | |- context [match ?x with _ => _ end] => destruct x
           end;
    cbn; try assumption.
  unfold has in *. cbn. rewrite Hn. apply orb_true_r.
Qed.

Lemma stream_status_elapse (n status : string) (t seconds : Z)
    (l : list (string * (string * Z))) :
  stream_status n l = Some (status, t) ->
  String.eqb status "DELETING" = false ->
  stream_status n (elapse seconds l) = Some (status, t).
Proof.
  intros Hl Hs. induction l as [|[m [status' t']] l IH]; [done|].
  cbn [stream_status elapse] in *.
  destruct (String.eqb n m) eqn:Hnm.
  - injection Hl as -> ->. rewrite Hs. cbn [stream_status]. by rewrite Hnm.
  - destruct (String.eqb status' "DELETING"); [destruct (t' <=? seconds)|];
      cbn [stream_status]; rewrite ?Hnm; by apply IH.
Qed.

Lemma stream_status_set_same (n : string) (s : string * Z)
    (l : list (string * (string * Z))) :
  stream_status n (set_stream n s l) = Some s.
Proof.
  induction l as [|[m s'] l IH]; cbn [set_stream stream_status].
  - by rewrite String.eqb_refl.
  - destruct (String.eqb n m) eqn:Hnm; cbn [stream_status]; by rewrite Hnm.
Qed.

Lemma stream_status_set_other (n m : string) (s : string * Z)
    (l : list (string * (string * Z))) :
  String.eqb n m = false ->
  stream_status n (set_stream m s l) = stream_status n l.
Proof.
  intros Hnm. induction l as [|[k s'] l IH]; cbn [set_stream stream_status].
  - by rewrite Hnm.
  - destruct (String.eqb m k) eqn:Hmk; cbn [stream_status].
    + apply String.eqb_eq in Hmk as <-. by rewrite Hnm.
    + destruct (String.eqb n k); [done | apply IH].
Qed.

Lemma answer_streams (c : call) (w : cloud) (n status : string) (t : Z) :
  is_removal c = false ->
  stream_status n (cl_streams w) = Some (status, t) ->
  String.eqb status "DELETING" = false ->
  stream_status n (cl_streams (snd (answer c w))) = Some (status, t).
Proof.
  intros Hc Hn Hs.
  destruct c; try discriminate Hc; cbn [answer snd cl_streams]; try assumption.
  - match goal with
    | |- context [match stream_status ?m ?l with _ => _ end] =>
        destruct (stream_status m l) as [[? ?]|] eqn:Hm; cbn [snd cl_streams];
        [assumption|];
        rewrite stream_status_set_other; [assumption|];
        destruct (String.eqb n m) eqn:Hnm; [|done];
        apply String.eqb_eq in Hnm as ->; congruence
    end.
  - by apply stream_status_elapse.
Qed.

Lemma answer_artifact_there (key : pyval) (w : cloud) :
  artifact_there answer the_bucket key w <-> has (str_of key) (cl_files w) = true.
Proof.
  unfold artifact_there. cbn. split.
  - intros (found & w' & [= <- _] & Ht). exact Ht.
  - intros Ht. by do 2 eexists.
Qed.

Lemma answer_function_there (n : string) (arn : pyval) (w : cloud) :
  function_there answer n arn w
  <-> has n (cl_functions w) = true /\ arn = PStr (function_arn n).
Proof.
  unfold function_there. cbn. split.
  - intros (r & cfg & w' & Hget & Hcfg & Harn).
    destruct (has n (cl_functions w)); [|discriminate Hget].
    injection Hget as <- _. vm_compute in Hcfg. injection Hcfg as <-.
    vm_compute in Harn. injection Harn as <-. done.
  - intros [Hn ->]. rewrite Hn. by exists (function_dict n), (function_configuration n), w.
Qed.

Lemma answer_stream_there (n arn : pyval) (w : cloud) :
  stream_there answer n arn w
  <-> exists status t,
        stream_status (str_of n) (cl_streams w) = Some (status, t) /\
        String.eqb status "DELETING" = false /\
        arn = PStr (stream_arn (str_of n)).
Proof.
  unfold stream_there. cbn. split.
  - intros (r & sd & status & w' & Hget & Hsd & Hstatus & Hdel & Harn).
    destruct (stream_status (str_of n) (cl_streams w)) as [[s t]|];
      [|discriminate Hget].
    injection Hget as <- _. vm_compute in Hsd. injection Hsd as <-.
    vm_compute in Hstatus. injection Hstatus as <-.
    vm_compute in Harn. injection Harn as <-. by exists s, t.
  - intros (status & t & Hn & Hdel & ->). rewrite Hn.
    by exists (stream_dict (str_of n) status), (stream_description (str_of n) status),
         (PStr status), w.
Qed.

Lemma answer_nobody_else_acts : nobody_else_acts answer the_bucket.
Proof.
  repeat split.
  - intros key c w Hc. rewrite !answer_artifact_there. by rewrite answer_files.
  - intros n arn c w Hc. rewrite !answer_function_there. intros [Hn ->].
    split; [by apply answer_functions | done].
  - intros n arn c w Hc. rewrite !answer_stream_there.
    intros (status & t & Hn & Hdel & ->). exists status, t.
    split; [by apply answer_streams | done].
  - intros n shard_count w v w' Hcreate. exists (PStr (stream_arn n)).
    apply answer_stream_there. cbn in Hcreate.
    destruct (stream_status n (cl_streams w)); [discriminate Hcreate|].
    injection Hcreate as _ <-. exists "ACTIVE", 0. cbn.
    by rewrite stream_status_set_same.
Qed.

Lemma retry_upto_reruns (n : nat) (retried : exn -> bool) :
  retry_reruns answer (retry_upto n retried).
Proof.
  intros A f seen _ Hf. induction n as [|n IH]; intros w Hw; specialize (Hf w Hw);
    cbn [retry_upto]; destruct (f w) as [[a|e] w1 ev1]; try done.
  destruct (retried e); [|done].
  specialize (IH w1 Hf). by destruct (retry_upto n retried A f w1).
Qed.

(** The first run creates [fn1] and wires its queue trigger, the second
    finds it; the first run creates the stream [s1], the second finds
    it. *)
Lemma C1_witness :
  (exists d1 d2,
     out (_create_lambda_from_meta answer the_bucket the_region the_account the_s3_path
            str_of retry3 "fn1" meta_fn1 cloud0)
       = Returned [(PStr (function_arn "fn1"), d1)] /\
     Exists (fun c => is_create_lambda c = true)
       (calls_of
          (evs (_create_lambda_from_meta answer the_bucket the_region the_account
                  the_s3_path str_of retry3 "fn1" meta_fn1 cloud0))) /\
     out (_create_lambda_from_meta answer the_bucket the_region the_account the_s3_path
            str_of retry3 "fn1" meta_fn1
            (st (_create_lambda_from_meta answer the_bucket the_region the_account
                   the_s3_path str_of retry3 "fn1" meta_fn1 cloud0)))
       = Returned [(PStr (function_arn "fn1"), d2)] /\
     Forall (fun c => is_create_lambda c = false)
       (calls_of
          (evs (_create_lambda_from_meta answer the_bucket the_region the_account
                  the_s3_path str_of retry3 "fn1" meta_fn1
                  (st (_create_lambda_from_meta answer the_bucket the_region the_account
                         the_s3_path str_of retry3 "fn1" meta_fn1 cloud0)))))) /\
  (exists d1 d2,
     out (_create_kinesis_stream_from_meta answer "s1" meta_s1 cloud0)
       = Returned [(PStr (stream_arn "s1"), d1)] /\
     Exists (fun c => is_create_stream c = true)
       (calls_of (evs (_create_kinesis_stream_from_meta answer "s1" meta_s1 cloud0))) /\
     out (_create_kinesis_stream_from_meta answer "s1" meta_s1
            (st (_create_kinesis_stream_from_meta answer "s1" meta_s1 cloud0)))
       = Returned [(PStr (stream_arn "s1"), d2)] /\
     Forall (fun c => is_create_stream c = false)
       (calls_of
          (evs (_create_kinesis_stream_from_meta answer "s1" meta_s1
                  (st (_create_kinesis_stream_from_meta answer "s1" meta_s1 cloud0)))))).
Proof.
  destruct (C1_idempotent_reconcile answer the_bucket the_region the_account the_s3_path
              str_of retry3 "fn1" meta_fn1 answer_nobody_else_acts
              (retry_upto_reruns 3 throttled))
    as [Hfunction _].
  destruct (C1_idempotent_reconcile answer the_bucket the_region the_account the_s3_path
              str_of retry3 "s1" meta_s1 answer_nobody_else_acts
              (retry_upto_reruns 3 throttled))
    as [_ Hstream].
  split.
  - assert (Hrun1 : exists d1,
               out (_create_lambda_from_meta answer the_bucket the_region the_account
                      the_s3_path str_of retry3 "fn1" meta_fn1 cloud0)
                 = Returned [(PStr (function_arn "fn1"), d1)])
      by (vm_compute; eexists; reflexivity).
    destruct Hrun1 as [d1 Hrun1].
    destruct (Hfunction cloud0 _ d1 Hrun1)
      as (key & found & r & cfg & p1 & p2 & _ & _ & _ & _ & Hrun2 & Hno).
    exists d1. eexists. split; [exact Hrun1|]. split.
    + vm_compute. do 3 apply Exists_cons_tl. by apply Exists_cons_hd.
    + split; [by rewrite Hrun2 | exact Hno].
  - assert (Hrun1 : exists d1,
               out (_create_kinesis_stream_from_meta answer "s1" meta_s1 cloud0)
                 = Returned [(PStr (stream_arn "s1"), d1)])
      by (vm_compute; eexists; reflexivity).
    destruct Hrun1 as [d1 Hrun1].
    destruct (Hstream cloud0 _ d1 Hrun1) as (r & p1 & _ & _ & Hrun2 & Hno).
    exists d1. eexists. split; [exact Hrun1|]. split.
    + vm_compute. apply Exists_cons_tl. by apply Exists_cons_hd.
    + split; [by rewrite Hrun2 | exact Hno].
Defined.

(** The account once [fn1] is created. *)
Definition cloud_created : cloud :=
  Cloud ["fn1.zip"] ["fn1"] ["role1"] [] ["q1"] [] false [].

Definition bogus_spec : pydict :=
  list_to_map [ ("resource_type", PStr "bogus_trigger") ].

(** A queue trigger, an unknown trigger, another queue trigger. *)
Definition meta_bogus : pydict :=
  <["event_sources" := PList [PDict queue_spec; PDict bogus_spec; PDict queue_spec]]>
    meta_fn1.

(** A trigger on a queue that is not there. *)
Definition absent_queue_spec : pydict := <["target_queue" := PStr "q2"]> queue_spec.

Definition meta_absent_queue : pydict :=
  <["event_sources" := PList [PDict absent_queue_spec]]> meta_fn1.

(** A dead-letter queue, its type in capitals. *)
Definition meta_dl : pydict :=
  <["dl_resource_type" := PStr "SQS"]> (<["dl_resource_name" := PStr "dead"]> meta_fn1).

Ltac solve_reaches_wiring :=
  unfold reaches_wiring; do 18 eexists; repeat apply conj; vm_compute; reflexivity.






Lemma C6_witness :
  (sy_sqs_trigger "fn1" (PStr (function_arn "fn1")) (PStr "role1") absent_queue_spec
     cloud_created
     = Result (Returned tt) cloud_created
         [ECall (Sqs_get_queue_url (PStr "q2") the_account);
          ELog DEBUG "Queue %s does not exist" [PStr "q2"]] /\
   exists d,
     out (sy_create_lambda "fn1" meta_absent_queue cloud0)
       = Returned [(PStr (function_arn "fn1"), d)]) /\
  List.filter is_add_event_source
    (calls_of (evs (sy_sqs_trigger "fn1" (PStr (function_arn "fn1")) (PStr "role1")
                      queue_spec cloud_created)))
    = [Lambda_add_event_source "fn1" (PStr "arn:aws:sqs:eu-west-1:123456789012:q1")
         (PInt 10) None].
Proof.
  destruct (C6_queue_trigger_best_effort cloud_handle the_bucket the_region the_account
              the_s3_path str_of retry3 retry3_returned "fn1" (PStr (function_arn "fn1"))
              (PStr "role1") absent_queue_spec (PStr "q2") (PInt 10) PNone
              cloud_created cloud_created eq_refl eq_refl eq_refl) as [Habsent _].
  destruct (C6_queue_trigger_best_effort cloud_handle the_bucket the_region the_account
              the_s3_path str_of retry3 retry3_returned "fn1" (PStr (function_arn "fn1"))
              (PStr "role1") queue_spec (PStr "q1") (PInt 10)
              (PStr "https://sqs.eu-west-1.amazonaws.com/123456789012/q1")
              cloud_created cloud_created eq_refl eq_refl eq_refl) as [_ Hpresent].
  destruct (Habsent eq_refl) as (Hrun & _ & _ & Hreconcile).
  destruct (Hpresent eq_refl PNone cloud_created eq_refl) as [_ Hone].
  split; [split|].
  - exact Hrun.
  - eassert (Hreach : reaches_wiring cloud_handle the_bucket the_region the_account
                        the_s3_path str_of "fn1" meta_absent_queue cloud0 cloud_created
                        (PStr "role1") (PStr (function_arn "fn1"))
                        (function_response "fn1") _)
      by solve_reaches_wiring.
    unfold sy_create_lambda.
    rewrite (Hreconcile _ _ _ _ Hreach eq_refl eq_refl).
    vm_compute. eexists. reflexivity.
  - exact Hone.
Defined.

Lemma str_of_str (s : string) : str_of (PStr s) = s.
Proof. reflexivity. Qed.

Lemma C8_witness :
  dead_letter_target the_region the_account str_of meta_dl
    = Returned (PStr "arn:aws:sqs:eu-west-1:123456789012:dead") /\
  dead_letter_target the_region the_account str_of meta_fn1 = Returned PNone.
Proof.
  destruct (C8_dead_letter_target_lowercased cloud_handle the_bucket the_region
              the_account the_s3_path str_of retry3 str_of_str "fn1" meta_dl)
    as (Hboth & _).
  destruct (C8_dead_letter_target_lowercased cloud_handle the_bucket the_region
              the_account the_s3_path str_of retry3 str_of_str "fn1" meta_fn1)
    as (_ & Hnone & _).
  split.
  - rewrite (Hboth "SQS"); [reflexivity | reflexivity | discriminate | reflexivity].
  - apply Hnone. reflexivity.
Defined.

(** The spec's words for the dead-letter target: the interpolation of the
    configured type, the region, the account and the configured name when
    both are configured, nothing otherwise. *)
Definition dead_letter_target_as_stated (region account : string)
    (format_value : pyval -> string) (meta : pydict) : pyval :=
  match meta !! "dl_resource_type", meta !! "dl_resource_name" with
  | Some t, Some n =>
      PStr ("arn:aws:" +:+ format_value t +:+ ":" +:+ region +:+ ":" +:+ account +:+ ":"
              +:+ format_value n)
  | _, _ => PNone
  end.

(** For the type "SQS" the create call gets "arn:aws:sqs:...", not
    "arn:aws:SQS:...". *)
Lemma C8_counterexample :
  dead_letter_target the_region the_account str_of meta_dl
    <> Returned (dead_letter_target_as_stated the_region the_account str_of meta_dl).
Proof. vm_compute. discriminate. Qed.

(** The log group "/aws/lambda/myfn1" ends in the function's name "fn1",
    it is listed, the removal of "fn1" goes through, and the group is not
    deleted. *)
Lemma C7_counterexample :
  out (sy_remove_lambda PNone (config_of "fn1") cloud_fn1) = Returned tt /\
  In "/aws/lambda/myfn1" (cl_log_groups cloud_fn1) /\
  ends_with "/aws/lambda/myfn1" "fn1" /\
  ~ In (CwLogs_delete_log_group_name (PStr "/aws/lambda/myfn1"))
      (calls_of (evs (sy_remove_lambda PNone (config_of "fn1") cloud_fn1))).
Proof.
  split; [vm_compute; reflexivity|]. split; [cbn; tauto|]. split.
  - exists "/aws/lambda/my". reflexivity.
  - vm_compute. intros Hin.
    repeat (destruct Hin as [Hin|Hin]; [discriminate|]). exact Hin.
Qed.

(** * Further properties at work *)

(** * A scripted provider

    A test double for the runs the cloud above cannot show: the answers
    of the provider, in the order of the calls; when the script is over
    every call returns [None]. *)

Definition script : Type := list (outcome pyval).

Definition scripted (c : call) (s : script) : outcome pyval * script :=
  match s with
  | [] => (Returned PNone, [])
  | o :: s' => (o, s')
  end.

(** The decorator against any provider. *)
Fixpoint retry_times {P : Type} (n : nat) (retried : exn -> bool) (A : Type) (f : M P A)
    : M P A :=
  fun p =>
    match f p with
    | Result (Raised e) p1 evs1 =>
        match n with
        | S n' =>
            if retried e then
              match retry_times n' retried A f p1 with
              | Result o p2 evs2 => Result o p2 (evs1 ++ evs2)
              end
            else Result (Raised e) p1 evs1
        | O => Result (Raised e) p1 evs1
        end
    | r => r
    end.

Definition retry3s : forall A : Type, M script A -> M script A := retry_times 3 throttled.

Lemma retry3s_returned (A : Type) (f : M script A) (s : script) (a : A) :
  out (f s) = Returned a -> retry3s A f s = f s.
Proof.
  intros Ho. unfold retry3s. cbn [retry_times].
  destruct (f s) as [o s1 ev]. cbn in Ho. by subst o.
Qed.

Lemma retry3s_raised (A : Type) (f : M script A) (s : script) (e : exn) :
  out (f s) = Raised e -> throttled e = false -> out (retry3s A f s) = Raised e.
Proof.
  intros Ho He. unfold retry3s. cbn [retry_times].
  destruct (f s) as [o s1 ev]. cbn in Ho. subst o. by rewrite He.
Qed.

Ltac solve_required :=
  let k := fresh "k" in
  let Hin := fresh "Hin" in
  intros k Hin; cbn in Hin;
  repeat (destruct Hin as [<-|Hin]; [vm_compute; by eexists|]); done.

(** The artifact of [fn2] was never uploaded. *)
Definition meta_fn2 : pydict := <["s3_path" := PStr "fn2.zip"]> meta_fn1.

Lemma create_lambda_artifact_missing_witness :
  sy_create_lambda "fn2" meta_fn2 cloud0
    = Result
        (Raised (AssertionError "Deployment package %s does not exist in %s bucket"
                   [PStr "fn2.zip"; PStr "deploy-bucket"]))
        cloud0
        [ECall (S3_is_file_exists "deploy-bucket" (PStr "fn2.zip"))].
Proof.
  apply (create_lambda_artifact_missing cloud_handle the_bucket the_region the_account
           the_s3_path str_of retry3 "fn2" meta_fn2 cloud0 cloud0 (PStr "fn2.zip")
           (PBool false)).
  - solve_required.
  - reflexivity.
  - reflexivity.
  - reflexivity.
Defined.

(** The artifact is uploaded, the role is not there. *)
Definition cloud_no_role : cloud := Cloud ["fn1.zip"] [] [] [] [] [] false [].

Lemma create_lambda_role_missing_witness :
  sy_create_lambda "fn1" meta_fn1 cloud_no_role
    = Result (Raised (AssertionError "Role role1 does not exist." [])) cloud_no_role
        [ECall (S3_is_file_exists "deploy-bucket" (PStr "fn1.zip"));
         ECall (Lambda_get_function "fn1");
         ECall (Iam_check_if_role_exists (PStr "role1"))].
Proof.
  apply (create_lambda_role_missing cloud_handle the_bucket the_region the_account
           the_s3_path str_of retry3 "fn1" meta_fn1 cloud_no_role cloud_no_role
           cloud_no_role cloud_no_role (PStr "fn1.zip") (PBool true) PNone (PStr "role1")
           PNone).
  - solve_required.
  - reflexivity.
  - reflexivity.
  - reflexivity.
  - reflexivity.
  - reflexivity.
  - reflexivity.
  - reflexivity.
  - reflexivity.
Defined.

Lemma create_lambda_existing_untouched_witness :
  evs (sy_create_lambda "fn1" meta_bogus cloud_fn1)
    = [ECall (S3_is_file_exists "deploy-bucket" (PStr "fn1.zip"));
       ECall (Lambda_get_function "fn1");
       ELog WARN "%s lambda exists." [PStr "fn1"]] /\
  st (sy_create_lambda "fn1" meta_bogus cloud_fn1) = cloud_fn1.
Proof.
  destruct (create_lambda_existing_untouched cloud_handle the_bucket the_region
              the_account the_s3_path str_of retry3 "fn1" meta_bogus cloud_fn1 cloud_fn1
              cloud_fn1 (PStr "fn1.zip") (PBool true) (PStr (function_arn "fn1"))
              (function_dict "fn1") (function_configuration "fn1"))
    as (He & _ & Hs).
  - solve_required.
  - reflexivity.
  - reflexivity.
  - reflexivity.
  - reflexivity.
  - reflexivity.
  - reflexivity.
  - reflexivity.
  - split; [exact He | exact Hs].
Defined.

(** A runtime that is a number. *)
Definition meta_runtime_3 : pydict := <["runtime" := PInt 3]> meta_fn1.

Lemma create_lambda_not_a_string_witness :
  sy_create_lambda "fn1" meta_runtime_3 cloud0
    = Result (Raised AttributeError) cloud0
        [ECall (S3_is_file_exists "deploy-bucket" (PStr "fn1.zip"));
         ECall (Lambda_get_function "fn1");
         ECall (Iam_check_if_role_exists (PStr "role1"))].
Proof.
  destruct (create_lambda_not_a_string cloud_handle the_bucket the_region the_account
              the_s3_path str_of retry3 "fn1" meta_runtime_3 cloud0 cloud0 cloud0 cloud0
              (PStr "fn1.zip") (PBool true) PNone (PStr "role1")
              (PStr "arn:aws:iam::123456789012:role/role1"))
    as [Hruntime _].
  - solve_required.
  - reflexivity.
  - reflexivity.
  - reflexivity.
  - reflexivity.
  - reflexivity.
  - reflexivity.
  - reflexivity.
  - reflexivity.
  - apply (Hruntime PNone (PStr "handler") (PInt 3)); [reflexivity..|discriminate].
Defined.

(** The provider does not show the function ten seconds after the create
    call. *)
Definition script_unreadable : script :=
  [Returned (PBool true); Returned PNone; Returned (PStr "arn:aws:iam::123456789012:role/role1");
   Returned PNone; Returned PNone; Returned PNone].

Lemma create_lambda_unreadable_after_create_witness :
  out (_create_lambda_from_meta scripted the_bucket the_region the_account the_s3_path
         str_of retry3s "fn1" meta_fn1 script_unreadable) = Raised TypeError /\
  List.filter is_create_lambda
    (calls_of (evs (_create_lambda_from_meta scripted the_bucket the_region the_account
                      the_s3_path str_of retry3s "fn1" meta_fn1 script_unreadable)))
    <> [].
Proof.
  rewrite (create_lambda_unreadable_after_create scripted the_bucket the_region
             the_account the_s3_path str_of retry3s "fn1" meta_fn1
             script_unreadable (skipn 1 script_unreadable) (skipn 2 script_unreadable)
             (skipn 3 script_unreadable) (skipn 4 script_unreadable)
             (skipn 5 script_unreadable) [] (PStr "fn1.zip") (PBool true) PNone
             (PStr "role1") (PStr "arn:aws:iam::123456789012:role/role1") PNone
             (PStr "handler") (PInt 128) (PInt 30) PNone PNone PNone "lang1").
  - split; [reflexivity | vm_compute; discriminate].
  - solve_required.
  - reflexivity.
  - reflexivity.
  - reflexivity.
  - reflexivity.
  - reflexivity.
  - reflexivity.
  - reflexivity.
  - reflexivity.
  - reflexivity.
  - reflexivity.
  - reflexivity.
  - reflexivity.
  - reflexivity.
  - reflexivity.
  - reflexivity.
  - reflexivity.
  - discriminate.
Defined.

(** A descriptor without triggers. *)
Definition meta_plain : pydict := delete "event_sources" meta_fn1.

Lemma create_lambda_without_triggers_witness :
  exists issued,
    sy_create_lambda "fn1" meta_plain cloud0
      = Result (describe_lambda "fn1" meta_plain (function_response "fn1")) cloud_created
          (issued ++ [ELog INFO "Created lambda %s." [PStr "fn1"]]) /\
    calls_of issued
      = [S3_is_file_exists "deploy-bucket" (PStr "fn1.zip");
         Lambda_get_function "fn1";
         Iam_check_if_role_exists (PStr "role1");
         Lambda_create_lambda
           (create_args the_bucket "fn1" meta_plain (PStr "handler")
              (PStr "arn:aws:iam::123456789012:role/role1") (PStr "lang1") (PInt 128)
              (PInt 30) (PStr "fn1.zip") PNone);
         Time_sleep 10;
         Lambda_get_function "fn1"].
Proof.
  eassert (Hreach : reaches_wiring cloud_handle the_bucket the_region the_account
                      the_s3_path str_of "fn1" meta_plain cloud0 cloud_created
                      (PStr "role1") (PStr (function_arn "fn1"))
                      (function_response "fn1") _)
    by solve_reaches_wiring.
  eexists. split.
  - apply (create_lambda_without_triggers cloud_handle the_bucket the_region the_account
             the_s3_path str_of retry3 "fn1" meta_plain cloud0 cloud_created
             (PStr "role1") (PStr (function_arn "fn1")) (function_response "fn1") _
             Hreach).
    reflexivity.
  - vm_compute. reflexivity.
Defined.


(** An override of 5 against a headroom of 100, and of 500. *)
Definition meta_concurrency (c : Z) : pydict :=
  <["concurrent_executions" := PInt c]> meta_fn1.

Lemma set_concurrency_within_headroom_witness :
  set_concurrency scripted "fn1" (meta_concurrency 5) [Returned (PInt 100); Returned PNone]
    = Result (Returned tt) []
        [ELog DEBUG "Going to set up concurrency executions" [];
         ECall Lambda_get_unresolved_concurrent_executions;
         ECall (Lambda_put_function_concurrency "fn1" (PInt 5));
         ELog DEBUG "Concurrency is enabled for %s lambda" [PStr "fn1"]] /\
  calls_of (evs (set_concurrency scripted "fn1" (meta_concurrency 500)
                   [Returned (PInt 100); Returned PNone]))
    = [Lambda_get_unresolved_concurrent_executions].
Proof.
  destruct (set_concurrency_within_headroom scripted "fn1" (meta_concurrency 5)
              [Returned (PInt 100); Returned PNone] [Returned PNone])
    as [_ Hfive].
  destruct (set_concurrency_within_headroom scripted "fn1" (meta_concurrency 500)
              [Returned (PInt 100); Returned PNone] [Returned PNone])
    as [_ Hmany].
  destruct (Hfive 5 100 eq_refl ltac:(lia) eq_refl) as [Hput _].
  destruct (Hmany 500 100 eq_refl ltac:(lia) eq_refl) as [_ Hwarn].
  split.
  - apply (Hput ltac:(lia) PNone []). reflexivity.
  - rewrite Hwarn; [reflexivity | lia].
Defined.

(** ** The binders *)

Definition table_spec : pydict :=
  list_to_map
    [ ("resource_type", PStr "dynamodb_trigger");
      ("target_table", PStr "t1");
      ("batch_size", PInt 100) ].

Definition table_stream : pyval :=
  PStr "arn:aws:dynamodb:eu-west-1:123456789012:table/t1/stream/1".

(** The change stream of the table is off, then on. *)
Lemma dynamodb_trigger_enables_stream_once_witness :
  calls_of (evs (_create_dynamodb_trigger_from_meta scripted retry3s "fn1"
                   (PStr (function_arn "fn1")) (PStr "role1") table_spec
                   [Returned (PBool false); Returned PNone; Returned table_stream;
                    Returned PNone]))
    = [Dynamodb_is_stream_enabled (PStr "t1");
       Dynamodb_enable_table_stream (PStr "t1");
       Dynamodb_get_table_stream_arn (PStr "t1");
       Lambda_add_event_source "fn1" table_stream (PInt 100) (Some (PStr "LATEST"))] /\
  calls_of (evs (_create_dynamodb_trigger_from_meta scripted retry3s "fn1"
                   (PStr (function_arn "fn1")) (PStr "role1") table_spec
                   [Returned (PBool true); Returned table_stream; Returned PNone]))
    = [Dynamodb_is_stream_enabled (PStr "t1");
       Dynamodb_get_table_stream_arn (PStr "t1");
       Lambda_add_event_source "fn1" table_stream (PInt 100) (Some (PStr "LATEST"))].
Proof.
  destruct (dynamodb_trigger_enables_stream_once scripted retry3s retry3s_returned "fn1"
              (PStr (function_arn "fn1")) (PStr "role1") table_spec (PStr "t1")
              (PInt 100) (PBool false)
              [Returned (PBool false); Returned PNone; Returned table_stream;
               Returned PNone]
              [Returned PNone; Returned table_stream; Returned PNone]
              eq_refl eq_refl eq_refl)
    as [_ Hoff].
  destruct (dynamodb_trigger_enables_stream_once scripted retry3s retry3s_returned "fn1"
              (PStr (function_arn "fn1")) (PStr "role1") table_spec (PStr "t1")
              (PInt 100) (PBool true)
              [Returned (PBool true); Returned table_stream; Returned PNone]
              [Returned table_stream; Returned PNone]
              eq_refl eq_refl eq_refl)
    as [Hon _].
  split.
  - rewrite (Hoff eq_refl table_stream PNone PNone [Returned table_stream; Returned PNone]
               [Returned PNone] [] eq_refl eq_refl eq_refl).
    reflexivity.
  - rewrite (Hon eq_refl table_stream PNone [Returned PNone] [] eq_refl eq_refl).
    reflexivity.
Defined.

Definition rule_spec : pydict :=
  list_to_map
    [ ("resource_type", PStr "cloudwatch_rule_trigger"); ("target_rule", PStr "r1") ].

Definition rule_arn : pyval := PStr "arn:aws:events:eu-west-1:123456789012:rule/r1".

Lemma cloud_watch_trigger_targets_then_permits_witness :
  calls_of (evs (_create_cloud_watch_trigger_from_meta scripted retry3s "fn1"
                   (PStr (function_arn "fn1")) (PStr "role1") rule_spec
                   [Returned rule_arn]))
    = [CwEvents_get_rule_arn (PStr "r1");
       CwEvents_add_rule_target (PStr "r1") (PStr (function_arn "fn1"));
       Lambda_add_invocation_permission "fn1" "events.amazonaws.com" rule_arn].
Proof.
  rewrite (cloud_watch_trigger_targets_then_permits scripted retry3s retry3s_returned
             "fn1" (PStr (function_arn "fn1")) (PStr "role1") rule_spec (PStr "r1")
             rule_arn PNone PNone [Returned rule_arn] [] [] []
             eq_refl eq_refl eq_refl eq_refl).
  reflexivity.
Defined.

Definition bucket_spec : pydict :=
  list_to_map
    [ ("resource_type", PStr "s3_trigger");
      ("target_bucket", PStr "b1");
      ("s3_events", PList [PStr "s3:ObjectCreated:*"]) ].

(** The bucket is there; then the cloud above, that knows no bucket. *)
Lemma s3_trigger_needs_bucket_witness :
  calls_of (evs (_create_s3_trigger_from_meta scripted str_of retry3s "fn1"
                   (PStr (function_arn "fn1")) (PStr "role1") bucket_spec
                   [Returned (PBool true)]))
    = [S3_is_bucket_exists (PStr "b1");
       Lambda_add_invocation_permission "fn1" "s3.amazonaws.com" (PStr "arn:aws:s3:::b1");
       S3_configure_event_source_for_lambda (PStr "b1") "fn1"
         (PList [PStr "s3:ObjectCreated:*"])] /\
  _create_s3_trigger_from_meta cloud_handle str_of retry3 "fn1"
      (PStr (function_arn "fn1")) (PStr "role1") bucket_spec cloud_created
    = Result (Returned tt) cloud_created
        [ECall (S3_is_bucket_exists (PStr "b1"));
         ELog ERROR "S3 bucket b1 event source for lambda fn1 was not created." []].
Proof.
  destruct (s3_trigger_needs_bucket scripted str_of retry3s retry3s_returned "fn1"
              (PStr (function_arn "fn1")) (PStr "role1") bucket_spec (PStr "b1")
              (PList [PStr "s3:ObjectCreated:*"]) (PBool true) [Returned (PBool true)] []
              eq_refl eq_refl eq_refl)
    as [_ Hthere].
  destruct (s3_trigger_needs_bucket cloud_handle str_of retry3 retry3_returned "fn1"
              (PStr (function_arn "fn1")) (PStr "role1") bucket_spec (PStr "b1")
              (PList [PStr "s3:ObjectCreated:*"]) PNone cloud_created cloud_created
              eq_refl eq_refl eq_refl)
    as [Hgone _].
  split.
  - rewrite (Hthere eq_refl PNone PNone [] [] eq_refl eq_refl). reflexivity.
  - apply Hgone. reflexivity.
Defined.

Definition topic_spec : pydict :=
  list_to_map [ ("resource_type", PStr "sns_topic_trigger"); ("target_topic", PStr "t1") ].

Lemma sns_trigger_region_optional_witness :
  calls_of (evs (_create_sns_topic_trigger_from_meta cloud_handle retry3 "fn1"
                   (PStr (function_arn "fn1")) (PStr "role1") topic_spec cloud_created))
    = [Sns_create_sns_subscription_for_lambda (PStr (function_arn "fn1")) (PStr "t1")
         PNone].
Proof.
  rewrite (sns_trigger_region_optional cloud_handle retry3 retry3_returned "fn1"
             (PStr (function_arn "fn1")) (PStr "role1") topic_spec (PStr "t1") PNone
             cloud_created cloud_created eq_refl eq_refl eq_refl).
  reflexivity.
Defined.

Definition stream_spec : pydict :=
  list_to_map
    [ ("resource_type", PStr "kinesis_trigger");
      ("target_stream", PStr "s1");
      ("batch_size", PInt 100);
      ("starting_position", PStr "TRIM_HORIZON") ].

(** The stream [s1] is under deletion for 300 seconds: after the 120
    seconds of the binder it still is, and the function is subscribed to
    it all the same. *)
Lemma kinesis_trigger_waits_once_witness :
  out (_create_kinesis_stream_trigger_from_meta cloud_handle str_of retry3 "fn1"
         (PStr (function_arn "fn1")) (PStr "role1") stream_spec cloud_s1_deleting)
    = Returned tt /\
  calls_of (evs (_create_kinesis_stream_trigger_from_meta cloud_handle str_of retry3
                   "fn1" (PStr (function_arn "fn1")) (PStr "role1") stream_spec
                   cloud_s1_deleting))
    = [Kinesis_get_stream (PStr "s1");
       Time_sleep 120;
       Iam_attach_inline_policy (PStr "role1") "s1KinesisTofn1Lambda"
         (kinesis_policy_document (PStr (function_arn "fn1")) (PStr (stream_arn "s1")));
       Time_sleep 10;
       Lambda_add_event_source "fn1" (PStr (stream_arn "s1")) (PInt 100)
         (Some (PStr "TRIM_HORIZON"))] /\
  stream_status "s1"
    (cl_streams
       (st (_create_kinesis_stream_trigger_from_meta cloud_handle str_of retry3 "fn1"
              (PStr (function_arn "fn1")) (PStr "role1") stream_spec cloud_s1_deleting)))
    = Some ("DELETING", 170).
Proof.
  destruct (kinesis_trigger_waits_once cloud_handle str_of retry3 retry3_returned "fn1"
              (PStr (function_arn "fn1")) (PStr "role1") stream_spec
              (stream_dict "s1" "DELETING") (stream_description "s1" "DELETING")
              (PStr "s1") (PInt 100) (PStr "TRIM_HORIZON") (PStr (stream_arn "s1"))
              (PStr "DELETING") cloud_s1_deleting cloud_s1_deleting
              eq_refl eq_refl eq_refl eq_refl eq_refl eq_refl eq_refl)
    as [_ Hwait].
  rewrite (Hwait eq_refl PNone PNone PNone PNone _ _ _ _ eq_refl eq_refl eq_refl eq_refl).
  repeat split; vm_compute; reflexivity.
Defined.

(** ** The streams *)

Lemma kinesis_absent_is_created_witness :
  sy_create_stream "s1" meta_s1 cloud0
    = Result
        (Returned [(PStr (stream_arn "s1"),
                    build_description_obj (stream_response "s1" "ACTIVE") "s1" meta_s1)])
        (Cloud ["fn1.zip"] [] ["role1"] [("s1", ("ACTIVE", 0))] ["q1"] [] false [])
        [ECall (Kinesis_get_stream (PStr "s1"));
         ECall (Kinesis_create_stream "s1" (PInt 1));
         ELog INFO "Created kinesis stream %s." [PStr "s1"];
         ECall (Kinesis_get_stream (PStr "s1"))].
Proof.
  apply (kinesis_absent_is_created cloud_handle "s1" meta_s1 cloud0 cloud0
           (Cloud ["fn1.zip"] [] ["role1"] [("s1", ("ACTIVE", 0))] ["q1"] [] false [])
           (Cloud ["fn1.zip"] [] ["role1"] [("s1", ("ACTIVE", 0))] ["q1"] [] false [])
           PNone (PInt 1) PNone (PStr (stream_arn "s1")) (stream_dict "s1" "ACTIVE")).
  - reflexivity.
  - reflexivity.
  - reflexivity.
  - reflexivity.
  - reflexivity.
  - reflexivity.
  - reflexivity.
Defined.

Lemma kinesis_missing_shard_count_witness :
  sy_create_stream "s1" ∅ cloud0
    = Result (Raised (KeyError (PStr "shard_count"))) cloud0
        [ECall (Kinesis_get_stream (PStr "s1"))].
Proof.
  destruct (kinesis_missing_shard_count cloud_handle "s1" ∅ cloud0 cloud0 PNone
              (lookup_empty _) eq_refl)
    as [Habsent _].
  apply Habsent. reflexivity.
Defined.

(** A response with the identifier inside the description only. *)
Definition nested_only : pydict :=
  list_to_map [ ("StreamDescription", PDict (stream_description "s1" "ACTIVE")) ].

Lemma kinesis_arn_read_at_top_level_witness :
  _create_kinesis_stream_from_meta scripted "s1" meta_s1 [Returned (PDict nested_only)]
    = Result (Raised (KeyError (PStr "StreamARN"))) []
        [ECall (Kinesis_get_stream (PStr "s1"));
         ELog WARN "%s kinesis stream exists" [PStr "s1"]].
Proof.
  apply (kinesis_arn_read_at_top_level scripted "s1" meta_s1
           [Returned (PDict nested_only)] [] nested_only
           (stream_description "s1" "ACTIVE") (PStr "ACTIVE") (PStr (stream_arn "s1"))).
  - reflexivity.
  - reflexivity.
  - reflexivity.
  - reflexivity.
  - reflexivity.
  - reflexivity.
Defined.

(** ** The function remover *)

(** The function is deleted; its first log group is gone by the time it
    is deleted. *)
Definition script_group_gone : script :=
  [Returned PNone; Returned PNone;
   Returned (PList [PStr "/aws/lambda/other"; PStr "/aws/lambda/fn1"; PStr "fn1"]);
   Raised not_found].

Lemma remove_lambda_log_group_gone_witness :
  _remove_lambda scripted retry3s PNone (config_of "fn1") script_group_gone
    = Result (Returned tt) []
        [ECall (Lambda_delete_lambda (PStr "fn1"));
         ECall (Lambda_remove_trigger (PStr "fn1"));
         ECall CwLogs_get_log_group_names;
         ECall (CwLogs_delete_log_group_name (PStr "/aws/lambda/fn1"));
         ELog WARN "Lambda %s is not found" [PStr "fn1"]].
Proof.
  apply (remove_lambda_log_group_gone scripted retry3s retry3s_returned PNone
           (config_of "fn1") script_group_gone (skipn 1 script_group_gone)
           (skipn 2 script_group_gone) (skipn 3 script_group_gone) [] (PStr "fn1")
           PNone PNone [PStr "/aws/lambda/other"] [PStr "fn1"] "/aws/lambda/fn1"
           "no such resource").
  - reflexivity.
  - reflexivity.
  - reflexivity.
  - reflexivity.
  - repeat constructor; by eexists.
  - reflexivity.
  - reflexivity.
  - reflexivity.
Defined.

Lemma remove_lambda_other_exceptions_witness :
  out (sy_remove_lambda PNone ∅ cloud_fn1) = Raised (KeyError (PStr "resource_name")) /\
  evs (_remove_lambda_body cloud_handle PNone ∅ cloud_fn1) = [].
Proof.
  destruct (remove_lambda_other_exceptions cloud_handle retry3 throttled retry3_raised
              PNone ∅ cloud_fn1)
    as [Hkey _].
  destruct (Hkey (lookup_empty _)) as [Hbody Hout].
  split; [apply Hout; reflexivity | by rewrite Hbody].
Defined.

(** ** The stream remover *)

Lemma remove_kinesis_stream_paths_witness :
  sy_remove_stream PNone (config_of "s1") cloud_s1_active
    = Result (Returned tt) cloud_s1_deleting
        [ECall (Kinesis_remove_stream (PStr "s1"));
         ELog INFO "Kinesis stream %s was removed." [PStr "s1"]] /\
  sy_remove_stream PNone ∅ cloud_s1_active
    = Result (Raised (KeyError (PStr "resource_name"))) cloud_s1_active [].
Proof.
  destruct (remove_kinesis_stream_paths cloud_handle PNone (config_of "s1")
              cloud_s1_active cloud_s1_deleting)
    as (Hremoved & _ & _).
  destruct (remove_kinesis_stream_paths cloud_handle PNone ∅ cloud_s1_active
              cloud_s1_active)
    as (_ & Hkey & _).
  split.
  - apply (Hremoved (PStr "s1") PNone); reflexivity.
  - apply Hkey. apply lookup_empty.
Defined.

(** ** The function remover under the decorator *)



